(** * MarketGenius: content adaptation and brand-voice consistency

    A shallow embedding of the platform adapters
    ([marketgenius/platforms/*.py]), of the dispatcher
    ([marketgenius/content/adapter.py]), of the content schema
    ([marketgenius/data/schemas.py]) and of the brand style keeper
    ([marketgenius/brand/voice_keeper.py]), with the properties the
    specification states about them.

    Conventions of the embedding:
    - a Python [str] is a list of Unicode code points ([char := N]), so
      [len], slicing and [rfind] count what Python counts; the literals of
      the sources are written as UTF-8 text and decoded by [py];
    - a Python [int] is a [Z]; [s.rfind(x)] answers [-1] when [x] is absent;
    - a Python [float] of the scorer is an exact rational ([Q]); the
      decimal literals of the sources are the rationals they denote; the
      product [max_length * 0.7] of the truncations is the double that
      Python computes;
    - a call that may raise returns a [res]: [Ok v] or [Raise e];
    - the parts of the Unicode database the sources rely on but do not
      contain (lower-casing, the alphanumeric class of [\w], the digits of
      [\d]) and the NLTK tokenizers are parameters, bundled in the classes
      [Unicode], [Patterns] and [NLTK]. *)

From Stdlib Require Import ZArith NArith QArith Qabs Qminmax Lia Lqa.
From Stdlib Require Import Floats.SpecFloat.
From Stdlib Require Import Strings.String Strings.Ascii Numbers.DecimalString.
From stdpp Require Import base list strings gmap.

Open Scope string_scope.
Open Scope list_scope.
Open Scope Z_scope.

(** ** Python strings *)

Module PyStr.

Definition char := N.
Definition str := list char.

(** UTF-8 decoding of a source literal into code points. [pending] counts
    the continuation bytes still expected, [acc] holds the bits read. *)
Fixpoint utf8_decode (pending : nat) (acc : N) (bs : list N) : str :=
  match bs with
  | [] => []
  | b :: bs' =>
      match pending with
      | O =>
          if (b <? 128)%N then b :: utf8_decode O 0%N bs'
          else if (b <? 224)%N then utf8_decode 1 (N.land b 31) bs'
          else if (b <? 240)%N then utf8_decode 2 (N.land b 15) bs'
          else utf8_decode 3 (N.land b 7) bs'
      | S p =>
          let acc' := (acc * 64 + N.land b 63)%N in
          match p with
          | O => acc' :: utf8_decode O 0%N bs'
          | S _ => utf8_decode p acc' bs'
          end
      end
  end.

Definition py (s : string) : str :=
  utf8_decode O 0%N (map N_of_ascii (list_ascii_of_string s)).

(** [len(s)] *)
Definition len (s : str) : Z := Z.of_nat (length s).

(** [s[:n]], with Python's reading of a negative bound. *)
Definition slice_to (s : str) (n : Z) : str :=
  if 0 <=? n then take (Z.to_nat n) s
  else take (Z.to_nat (len s + n)) s.

(** [s[n:]] for [0 <= n]. *)
Definition slice_from (s : str) (n : Z) : str := drop (Z.to_nat n) s.

(** [s.startswith(pre)] *)
Fixpoint startswith (s pre : str) : bool :=
  match pre, s with
  | [], _ => true
  | p :: pre', c :: s' => (p =? c)%N && startswith s' pre'
  | _ :: _, [] => false
  end.

(** [s.endswith(suf)] *)
Definition endswith (s suf : str) : bool :=
  startswith (reverse s) (reverse suf).

(** [sub in s] *)
Fixpoint contains (s sub : str) : bool :=
  startswith s sub
  || match s with [] => false | _ :: s' => contains s' sub end.

(** [s.rfind(sub)]: the highest index at which [sub] occurs, or [-1].
    [i] is the index of the head of [s] in the whole string. *)
Fixpoint rfind_from (i : Z) (s sub : str) : Z :=
  let later :=
    match s with [] => -1 | _ :: s' => rfind_from (i + 1) s' sub end in
  if 0 <=? later then later
  else if startswith s sub then i else -1.

Definition rfind (s sub : str) : Z := rfind_from 0 s sub.

(** [s.count(sub)] for a non-empty [sub]: occurrences counted from the
    left without overlap. [skip] is the number of characters still covered
    by the occurrence counted last. *)
Fixpoint count_from (skip : nat) (s sub : str) : Z :=
  match s with
  | [] => 0
  | _ :: s' =>
      match skip with
      | S k => count_from k s' sub
      | O =>
          if startswith s sub
          then 1 + count_from (Nat.pred (length sub)) s' sub
          else count_from O s' sub
      end
  end.

Definition count (s sub : str) : Z := count_from O s sub.

(** [c.isspace()]: the white space of [str.strip()] and [str.split()]. *)
Definition isspace (c : char) : bool :=
  ((9 <=? c) && (c <=? 13) || (28 <=? c) && (c <=? 32)
   || (c =? 133) || (c =? 160) || (c =? 5760)
   || (8192 <=? c) && (c <=? 8202)
   || (c =? 8232) || (c =? 8233) || (c =? 8239) || (c =? 8287)
   || (c =? 12288))%N.

Fixpoint drop_while (p : char -> bool) (s : str) : str :=
  match s with
  | [] => []
  | c :: s' => if p c then drop_while p s' else s
  end.

Fixpoint take_while (p : char -> bool) (s : str) : str :=
  match s with
  | [] => []
  | c :: s' => if p c then c :: take_while p s' else []
  end.

Definition lstrip (s : str) : str := drop_while isspace s.
Definition rstrip (s : str) : str := reverse (drop_while isspace (reverse s)).
(** [s.strip()] *)
Definition strip (s : str) : str := rstrip (lstrip s).

(** [s.split()]: the maximal runs of characters that are not white space.
    [cur] is the run being read, in reverse. *)
Fixpoint split_from (cur : str) (s : str) : list str :=
  match s with
  | [] => match cur with [] => [] | _ => [reverse cur] end
  | c :: s' =>
      if isspace c
      then match cur with
           | [] => split_from [] s'
           | _ => reverse cur :: split_from [] s'
           end
      else split_from (c :: cur) s'
  end.

Definition split (s : str) : list str := split_from [] s.

(** [sep.join(l)] *)
Fixpoint join (sep : str) (l : list str) : str :=
  match l with
  | [] => []
  | [x] => x
  | x :: l' => x ++ sep ++ join sep l'
  end.

(** [s == t] *)
Definition eqb (s t : str) : bool := bool_decide (s = t).

(** [x in l] for a list of strings. *)
Definition mem (x : str) (l : list str) : bool := bool_decide (x ∈ l).

(** [c] is an ASCII lower-case letter: the class [[a-z]]. *)
Definition is_ascii_lower (c : char) : bool := ((97 <=? c) && (c <=? 122))%N.
(** [c] is an ASCII digit, letter or underscore. *)
Definition is_ascii_word (c : char) : bool :=
  ((48 <=? c) && (c <=? 57) || (65 <=? c) && (c <=? 90)
   || (97 <=? c) && (c <=? 122) || (c =? 95))%N.

(** [c.upper()] on [[a-z]]. *)
Definition ascii_upper (c : char) : char :=
  if is_ascii_lower c then (c - 32)%N else c.
(** [c.lower()] on ASCII. *)
Definition ascii_lower (c : char) : char :=
  if ((65 <=? c) && (c <=? 90))%N then (c + 32)%N else c.

End PyStr.

Export PyStr.

(** [s.split(sep)] for a separator of one character: the pieces between
    the separators, empty ones included. [cur] is the piece being read,
    in reverse. *)
Fixpoint split_on_from (sep : char) (cur : str) (s : str) : list str :=
  match s with
  | [] => [reverse cur]
  | c :: s' =>
      if (c =? sep)%N then reverse cur :: split_on_from sep [] s'
      else split_on_from sep (c :: cur) s'
  end.

Definition split_on (sep : char) (s : str) : list str :=
  split_on_from sep [] s.

(** What the sources use of the Unicode database: [str.lower()] and the
    alphanumeric code points beyond ASCII, which [\w] matches. *)
Class Unicode := {
  lower : str -> str;
  uni_alnum : char -> bool
}.

(** The tables restricted to ASCII: enough for every ASCII text. *)
Definition ascii_unicode : Unicode :=
  {| lower := map ascii_lower; uni_alnum := fun _ => false |}.

(** [\w] *)
Definition is_word `{Unicode} (c : char) : bool :=
  if (c <? 128)%N then is_ascii_word c else uni_alnum c.

(** ** Exceptions *)

Inductive exn : Type :=
  | AttributeError
  | TypeError
  | ValueError
  | ValidationError
  | ZeroDivisionError.

Inductive res (A : Type) : Type :=
  | Ok (a : A)
  | Raise (e : exn).
Arguments Ok {A} a.
Arguments Raise {A} e.

#[global] Instance res_ret : MRet res := fun A a => Ok a.
#[global] Instance res_bind : MBind res := fun A B k m =>
  match m with
  | Ok a => k a
  | Raise e => Raise e
  end.

(** ** IEEE 754 double precision, for the products and the decimal
    constants of the sources *)

Module binary64.

Definition prec : Z := 53.
Definition emax : Z := 1024.

Definition of_Z (z : Z) : spec_float := binary_normalize prec emax z 0 false.
Definition add : spec_float -> spec_float -> spec_float := SFadd prec emax.
Definition mul : spec_float -> spec_float -> spec_float := SFmul prec emax.
Definition div : spec_float -> spec_float -> spec_float := SFdiv prec emax.

(** The double a decimal literal [n / 10^k] denotes: the quotient rounded
    to nearest, ties to even, which is what the division of the two exact
    integers computes. *)
Definition literal (n : Z) (k : nat) : spec_float :=
  div (of_Z n) (of_Z (10 ^ Z.of_nat k)).

(** The weights of [check_consistency] without language model, as
    doubles: 0.4, 0.2, 0.4. *)
Definition w_keywords : spec_float := literal 4 1.
Definition w_sentence_length : spec_float := literal 2 1.
Definition w_style : spec_float := literal 4 1.

End binary64.

(** [i > x] for an integer [i] and a double [x]: Python compares the two
    numbers exactly. A finite double is [m * 2^e], signed. *)
Definition int_gt_float (i : Z) (x : spec_float) : bool :=
  match x with
  | S754_zero _ => 0 <? i
  | S754_infinity negative => negative
  | S754_nan => false
  | S754_finite negative m e =>
      let m := if negative then Z.neg m else Z.pos m in
      if 0 <=? e then m * 2 ^ e <? i else m <? i * 2 ^ (- e)
  end.

(** [max_length * 0.7]: the integer as a double, times the double that
    [0.7] denotes, rounded to nearest. A [max_length] too large for a
    double (beyond 1.7e308, where Python raises [OverflowError]) is the
    infinite double here; the product is computed for a text longer than
    [max_length] only, and no text is that long. *)
Definition times_0_7 (max_length : Z) : spec_float :=
  binary64.mul (binary64.of_Z max_length) (binary64.literal 7 1).

(** [i > max_length * 0.7], as Python computes it: the product is a
    double, which for the limits the adapters pass is the whole number
    [7 * max_length / 10], and for other budgets (90, 170, 180, ...) lies
    next to the exact product. *)
Definition gt_70_percent (i max_length : Z) : bool :=
  int_gt_float i (times_0_7 max_length).

(** ** Regular expressions of the adapters *)

Module re.
Section defs.
Context `{Unicode}.

Definition hash : char := 35%N.

(** [re.findall(r'#(\w+)', s)]: at every [#] followed by a word character
    the capture is the longest run of word characters after it. The scan
    may go on at the next character rather than behind the match: the
    characters of a match are word characters, [#] is none, so no match
    starts inside another. *)
Fixpoint findall_hashtag (s : str) : list str :=
  match s with
  | [] => []
  | c :: s' =>
      if (c =? hash)%N then
        match take_while is_word s' with
        | [] => findall_hashtag s'
        | w => w :: findall_hashtag s'
        end
      else findall_hashtag s'
  end.

(** [re.sub(r'#(\w+)', '', s)]; [inside] tells that the characters being
    read continue a match. *)
Fixpoint sub_hashtag_from (inside : bool) (s : str) : str :=
  match s with
  | [] => []
  | c :: s' =>
      if inside && is_word c then sub_hashtag_from true s'
      else if (c =? hash)%N
              && match s' with d :: _ => is_word d | [] => false end
           then sub_hashtag_from true s'
           else c :: sub_hashtag_from false s'
  end.

Definition sub_hashtag (s : str) : str := sub_hashtag_from false s.

(** [re.sub(r'[^\w\s]', ' ', s)]: every character that is neither a word
    character nor white space becomes a space. *)
Definition sub_punctuation (s : str) : str :=
  map (fun c => if is_word c || isspace c then c else 32%N) s.

Definition quote : char := 34%N.
Definition star : char := 42%N.

(** [re.findall(quote_pattern, s)], the pattern being a quotation mark,
    the captured group [([^q]+)] of characters [q] other than a quotation
    mark, and a quotation mark: at a quotation mark the capture is the
    run of characters up to the next quotation mark, when that mark is
    there and the run is not empty; the scan goes on behind the closing
    mark. [skip] counts the characters of a match still to be passed. *)
Fixpoint findall_quoted_from (skip : nat) (s : str) : list str :=
  match s with
  | [] => []
  | c :: s' =>
      match skip with
      | S n => findall_quoted_from n s'
      | O =>
          if (c =? quote)%N then
            let run := take_while (fun d => negb (d =? quote)%N) s' in
            match run, drop (length run) s' with
            | _ :: _, _ :: _ =>
                run :: findall_quoted_from (S (length run)) s'
            | _, _ => findall_quoted_from O s'
            end
          else findall_quoted_from O s'
      end
  end.

Definition findall_quoted (s : str) : list str := findall_quoted_from O s.

(** [re.findall(r'\*\*([^*]+)\*\*', s)]: at two asterisks the capture is
    the run of characters up to the next asterisk, when the run is not
    empty and two asterisks follow it; the scan goes on behind them. *)
Fixpoint findall_bold_from (skip : nat) (s : str) : list str :=
  match s with
  | [] => []
  | c :: s' =>
      match skip with
      | S n => findall_bold_from n s'
      | O =>
          match s' with
          | c2 :: s'' =>
              if (c =? star)%N && (c2 =? star)%N then
                let run := take_while (fun d => negb (d =? star)%N) s'' in
                match run with
                | _ :: _ =>
                    if startswith (drop (length run) s'') [star; star]
                    then run :: findall_bold_from (length run + 3) s'
                    else findall_bold_from O s'
                | [] => findall_bold_from O s'
                end
              else findall_bold_from O s'
          | [] => []
          end
      end
  end.

Definition findall_bold (s : str) : list str := findall_bold_from O s.

End defs.
End re.

(** The two patterns of the adapters that rest on the class [\d] of the
    Unicode database: their answers fill metadata and recommendations
    only. *)
Class Patterns := {
  (** [re.search(r'\d', s)] finds a digit *)
  search_digit : str -> bool;
  (** [re.findall(r'\b(\d+:\d+(?::\d+)?)\b', s)] *)
  findall_timestamp : str -> list str
}.

(** The two patterns on ASCII texts, where the digits are [0] to [9] and
    a word boundary lies between an ASCII word character and another
    character or an end of the text. *)
Definition is_ascii_digit (c : char) : bool := ((48 <=? c) && (c <=? 57))%N.

(** The time stamp that begins at the head of [s], behind a word
    boundary: digits, a colon and digits, then a colon and digits more
    when a word boundary follows them, and a word boundary. *)
Definition ascii_timestamp_at (s : str) : option str :=
  let colon := 58%N in
  let ends (rest : str) : bool :=
    match rest with [] => true | e :: _ => negb (is_ascii_word e) end in
  let d1 := take_while is_ascii_digit s in
  match d1, drop (length d1) s with
  | _ :: _, c :: s1 =>
      let d2 := take_while is_ascii_digit s1 in
      let s2 := drop (length d2) s1 in
      if negb (c =? colon)%N || (len d2 =? 0) then None
      else
        let short := if ends s2 then Some (d1 ++ [colon] ++ d2) else None in
        match s2 with
        | c2 :: s3 =>
            let d3 := take_while is_ascii_digit s3 in
            if (c2 =? colon)%N && (0 <? len d3) && ends (drop (length d3) s3)
            then Some (d1 ++ [colon] ++ d2 ++ [colon] ++ d3)
            else short
        | [] => short
        end
  | _, _ => None
  end.

(** The scan for time stamps; [skip] counts the characters of a match
    still to be passed, [after_word] tells that the character before is a
    word character. *)
Fixpoint ascii_findall_timestamp_from (skip : nat) (after_word : bool)
    (s : str) : list str :=
  match s with
  | [] => []
  | c :: s' =>
      match skip with
      | S n => ascii_findall_timestamp_from n (is_ascii_word c) s'
      | O =>
          match (if after_word then None else ascii_timestamp_at s) with
          | Some m =>
              m :: ascii_findall_timestamp_from (Nat.pred (length m))
                     (is_ascii_word c) s'
          | None => ascii_findall_timestamp_from O (is_ascii_word c) s'
          end
      end
  end.

Definition ascii_patterns : Patterns :=
  {| search_digit := existsb is_ascii_digit;
     findall_timestamp := ascii_findall_timestamp_from O false |}.

(** ** The content schema: [marketgenius/data/schemas.py] *)

Module schemas.

Inductive Platform : Type :=
| FACEBOOK | INSTAGRAM | LINKEDIN | YOUTUBE | TWITTER | TIKTOK.

Inductive ContentType : Type :=
| TEXT | IMAGE | VIDEO | CAROUSEL | STORY | REEL.

#[global] Instance ContentType_eq_dec : EqDecision ContentType.
Proof. solve_decision. Defined.

(** [datetime.datetime], as a point on a time line. *)
Definition datetime := Z.

Module BrandStyleAttribute.
Record t : Type := {
  name : str;
  value : Q;
  description : option str
}.
(** [Field(..., ge=0.0, le=1.0)] *)
Definition valid (a : t) : Prop := (0 <= value a)%Q /\ (value a <= 1)%Q.
End BrandStyleAttribute.

Module BrandModel.
Record t : Type := {
  id : str;
  name : str;
  description : option str;
  industry : option str;
  target_audience : option (list str);
  keywords : list str;
  style_attributes : list BrandStyleAttribute.t
}.
Definition valid (b : t) : Prop :=
  Forall BrandStyleAttribute.valid (style_attributes b).
End BrandModel.

Module TextContent.
Record t : Type := {
  text : str;
  hashtags : option (list str);
  mentions : option (list str)
}.
End TextContent.

Module ImageContent.
Record t : Type := {
  prompt : str;
  image_url : option str;
  alt_text : option str;
  caption : option str
}.
End ImageContent.

Module VideoContent.
Record t : Type := {
  title : str;
  script : str;
  description : option str;
  thumbnail_prompt : option str;
  duration_seconds : option Z;
  video_url : option str
}.

(** The fields of the model, [__fields__]. *)
Definition fields : list string :=
  ["title"; "script"; "description"; "thumbnail_prompt";
   "duration_seconds"; "video_url"].

Definition set_title (v : t) (x : str) : t :=
  {| title := x; script := script v; description := description v;
     thumbnail_prompt := thumbnail_prompt v;
     duration_seconds := duration_seconds v; video_url := video_url v |}.
Definition set_script (v : t) (x : str) : t :=
  {| title := title v; script := x; description := description v;
     thumbnail_prompt := thumbnail_prompt v;
     duration_seconds := duration_seconds v; video_url := video_url v |}.
Definition set_description (v : t) (x : option str) : t :=
  {| title := title v; script := script v; description := x;
     thumbnail_prompt := thumbnail_prompt v;
     duration_seconds := duration_seconds v; video_url := video_url v |}.
Definition set_thumbnail_prompt (v : t) (x : option str) : t :=
  {| title := title v; script := script v; description := description v;
     thumbnail_prompt := x;
     duration_seconds := duration_seconds v; video_url := video_url v |}.
Definition set_video_url (v : t) (x : option str) : t :=
  {| title := title v; script := script v; description := description v;
     thumbnail_prompt := thumbnail_prompt v;
     duration_seconds := duration_seconds v; video_url := x |}.

(** [obj.<name> = x] for a string [x], which is all the adapters assign.
    [BaseModel.__setattr__] refuses a name that is not a field of the
    model with a [ValueError]; it does not validate the value.
    [duration_seconds] holds no string: the record has no place for
    one, and no adapter assigns it. *)
Definition setattr (v : t) (name : string) (x : str) : res t :=
  if negb (bool_decide (name ∈ fields)) then Raise ValueError
  else if String.eqb name "title" then Ok (set_title v x)
  else if String.eqb name "script" then Ok (set_script v x)
  else if String.eqb name "description" then Ok (set_description v (Some x))
  else if String.eqb name "thumbnail_prompt"
       then Ok (set_thumbnail_prompt v (Some x))
  else if String.eqb name "video_url" then Ok (set_video_url v (Some x))
  else Ok v.
End VideoContent.

Module ContentItem.
Record t : Type := {
  id : str;
  brand_id : str;
  platform : Platform;
  content_type : ContentType;
  created_at : datetime;
  updated_at : datetime;
  text_content : option TextContent.t;
  image_content : option ImageContent.t;
  video_content : option VideoContent.t;
  raw_request : option (list (str * str))
}.

Definition set_content_type (c : t) (x : ContentType) : t :=
  {| id := id c; brand_id := brand_id c; platform := platform c;
     content_type := x; created_at := created_at c;
     updated_at := updated_at c; text_content := text_content c;
     image_content := image_content c; video_content := video_content c;
     raw_request := raw_request c |}.

Definition set_text_content (c : t) (x : option TextContent.t) : t :=
  {| id := id c; brand_id := brand_id c; platform := platform c;
     content_type := content_type c; created_at := created_at c;
     updated_at := updated_at c; text_content := x;
     image_content := image_content c; video_content := video_content c;
     raw_request := raw_request c |}.

Definition set_image_content (c : t) (x : option ImageContent.t) : t :=
  {| id := id c; brand_id := brand_id c; platform := platform c;
     content_type := content_type c; created_at := created_at c;
     updated_at := updated_at c; text_content := text_content c;
     image_content := x; video_content := video_content c;
     raw_request := raw_request c |}.

Definition set_video_content (c : t) (x : option VideoContent.t) : t :=
  {| id := id c; brand_id := brand_id c; platform := platform c;
     content_type := content_type c; created_at := created_at c;
     updated_at := updated_at c; text_content := text_content c;
     image_content := image_content c; video_content := x;
     raw_request := raw_request c |}.
End ContentItem.

End schemas.

Export schemas.

(** ** Results of an adaptation *)

(** The values the adapters store in their [metadata] dictionaries. *)
Inductive meta_value : Type :=
  | MNone
  | MBool (b : bool)
  | MInt (z : Z)
  | MStr (s : str)
  | MList (l : list str).

(** A dictionary literal with fixed keys, in the order it is written. *)
Definition metadata_dict := list (string * meta_value).

Fixpoint meta_get (k : string) (d : metadata_dict) : option meta_value :=
  match d with
  | [] => None
  | (k', v) :: d' => if String.eqb k k' then Some v else meta_get k d'
  end.

Module AdaptationResult.
(** [{"success": ..., "error": ..., "content": ..., "metadata": ...}];
    a key that the dictionary lacks is [None]. *)
Record t : Type := {
  success : bool;
  error : option str;
  content : ContentItem.t;
  metadata : option metadata_dict
}.
End AdaptationResult.

Definition failure (msg : str) (c : ContentItem.t) : AdaptationResult.t :=
  {| AdaptationResult.success := false;
     AdaptationResult.error := Some msg;
     AdaptationResult.content := c;
     AdaptationResult.metadata := None |}.

Definition succeed (c : ContentItem.t) (m : metadata_dict)
  : AdaptationResult.t :=
  {| AdaptationResult.success := true;
     AdaptationResult.error := None;
     AdaptationResult.content := c;
     AdaptationResult.metadata := Some m |}.

(** A member of [ContentType] in an f-string: the string it mixes in. *)
Definition ContentType_str (c : ContentType) : str :=
  match c with
  | TEXT => py "text"
  | IMAGE => py "image"
  | VIDEO => py "video"
  | CAROUSEL => py "carousel"
  | STORY => py "story"
  | REEL => py "reel"
  end.

(** [str(n)] for an integer, as the f-strings print it. *)
Definition str_of_Z (n : Z) : str :=
  py (NilEmpty.string_of_int (Z.to_int n)).

(** [len(l)] for a list. *)
Definition llen {A} (l : list A) : Z := Z.of_nat (length l).

(** [recommendations.append(x)] under a condition. *)
Definition append_if (b : bool) (x : str) (l : list str) : list str :=
  if b then l ++ [x] else l.

(** Truth value of a string, of an optional string, of an optional
    integer and of a list. *)
Definition truthy_str (s : str) : bool :=
  match s with [] => false | _ => true end.
Definition truthy_ostr (s : option str) : bool :=
  match s with Some (_ :: _) => true | _ => false end.
Definition truthy_oint (n : option Z) : bool :=
  match n with Some z => negb (z =? 0) | None => false end.
Definition truthy_list {A} (l : list A) : bool :=
  match l with [] => false | _ => true end.

(** [x or ""] *)
Definition or_empty (s : option str) : str :=
  match s with Some (c :: r) => c :: r | _ => [] end.

(** [None] or a string, as a metadata value. *)
Definition meta_ostr (s : option str) : meta_value :=
  match s with Some x => MStr x | None => MNone end.
Definition meta_oint (n : option Z) : meta_value :=
  match n with Some x => MInt x | None => MNone end.

(** The merge of the inline tags with the explicit ones, common to the
    three [_adapt_hashtags]: the inline tags as found, then the explicit
    tags that are not among them, cut to [max_hashtags]. *)
Definition merge_hashtags (max_hashtags : Z) (text_hashtags : list str)
    (existing_hashtags : option (list str)) : list str :=
  let all_hashtags := [] in
  let all_hashtags :=
    if truthy_list text_hashtags then all_hashtags ++ text_hashtags
    else all_hashtags in
  let all_hashtags :=
    match existing_hashtags with
    | Some (t :: ts) =>
        all_hashtags
        ++ List.filter (fun tag => negb (mem tag all_hashtags)) (t :: ts)
    | _ => all_hashtags
    end in
  if max_hashtags <? llen all_hashtags
  then take (Z.to_nat max_hashtags) all_hashtags
  else all_hashtags.

(** [any(lower_url.endswith(fmt) for fmt in formats)] *)
Definition any_endswith (s : str) (formats : list str) : bool :=
  existsb (endswith s) formats.

(** ** [marketgenius/platforms/facebook.py] *)

Module FacebookAdapter.
Section defs.
Context `{Unicode}.

Definition MAX_POST_LENGTH : Z := 63206.
Definition IDEAL_POST_LENGTH : Z := 40.
Definition MAX_TITLE_LENGTH : Z := 100.
Definition MAX_HASHTAGS : Z := 5.
Definition MAX_DESCRIPTION_LENGTH : Z := 5000.
Definition ALLOWED_IMAGE_FORMATS : list str :=
  [py ".jpg"; py ".jpeg"; py ".png"; py ".gif"].

(** The continuation marker of [_truncate_text]. *)
Definition marker : str := py "...".

Definition _truncate_text (text : str) (max_length : Z) : str :=
  if len text <=? max_length then text
  else
    let truncated := slice_to text max_length in
    let last_space := rfind truncated (py " ") in
    let truncated :=
      if 0 <? last_space then slice_to truncated last_space
      else truncated in
    strip truncated ++ py "...".

Definition _adapt_text_length (text : str) : str :=
  if len text <=? MAX_POST_LENGTH then text
  else _truncate_text text MAX_POST_LENGTH.

Definition _adapt_hashtags (text : str) (existing_hashtags : option (list str))
  : str * list str :=
  let text_hashtags := re.findall_hashtag text in
  let all_hashtags :=
    merge_hashtags MAX_HASHTAGS text_hashtags existing_hashtags in
  if MAX_HASHTAGS <? llen text_hashtags then
    let text_without_hashtags := re.sub_hashtag text in
    let final_text := strip text_without_hashtags in
    let final_text :=
      fold_left (fun acc tag => acc ++ py " #" ++ tag) all_hashtags
        final_text in
    (final_text, all_hashtags)
  else (text, all_hashtags).

Definition _adapt_mentions (text : str) : str := text.

Definition _check_image_format (image_url : str) : bool * str :=
  if negb (truthy_str image_url) then (false, py "缺少圖像 URL")
  else
    let lower_url := lower image_url in
    let valid_format := any_endswith lower_url ALLOWED_IMAGE_FORMATS in
    if negb valid_format then
      (false,
       py "圖像格式可能不受支持，Facebook 支持: "
       ++ join (py ", ") ALLOWED_IMAGE_FORMATS)
    else (true, py "圖像格式有效").

Definition adapt_text_content (content_item : ContentItem.t)
  : res AdaptationResult.t :=
  match ContentItem.text_content content_item with
  | None => Ok (failure (py "缺少文本內容") content_item)
  | Some tc =>
      let original_text := TextContent.text tc in
      let adapted_text := _adapt_text_length original_text in
      let '(adapted_text, hashtags) :=
        _adapt_hashtags adapted_text (TextContent.hashtags tc) in
      let adapted_text := _adapt_mentions adapted_text in
      let adapted_content :=
        ContentItem.set_text_content content_item
          (Some {| TextContent.text := adapted_text;
                   TextContent.hashtags := Some hashtags;
                   TextContent.mentions := TextContent.mentions tc |}) in
      let recommendations :=
        append_if (IDEAL_POST_LENGTH * 2 <? llen (split adapted_text))
          (py "考慮縮短貼文，Facebook 上較短的貼文（40-80 詞）通常表現更好")
          [] in
      let recommendations :=
        append_if (negb (truthy_list hashtags) || (llen hashtags <? 2))
          (py "考慮添加 2-3 個相關主題標籤以提高發現性")
          recommendations in
      Ok (succeed adapted_content
            [("platform", MStr (py "facebook"));
             ("content_type", MStr (py "text"));
             ("character_count", MInt (len adapted_text));
             ("word_count", MInt (llen (split adapted_text)));
             ("hashtag_count",
              MInt (if truthy_list hashtags then llen hashtags else 0));
             ("is_within_limits",
              MBool (len adapted_text <=? MAX_POST_LENGTH));
             ("recommendations", MList recommendations)])
  end.

Definition adapt_image_content (content_item : ContentItem.t)
  : res AdaptationResult.t :=
  match ContentItem.image_content content_item with
  | None => Ok (failure (py "缺少圖像內容") content_item)
  | Some ic =>
      let caption := or_empty (ImageContent.caption ic) in
      let '(adapted_caption, hashtags) := _adapt_hashtags caption None in
      let '(image_format_valid, format_message) :=
        match ImageContent.image_url ic with
        | Some (c :: u) => _check_image_format (c :: u)
        | _ => (true, [])
        end in
      let adapted_content :=
        ContentItem.set_image_content content_item
          (Some {| ImageContent.prompt := ImageContent.prompt ic;
                   ImageContent.image_url := ImageContent.image_url ic;
                   ImageContent.alt_text := ImageContent.alt_text ic;
                   ImageContent.caption := Some adapted_caption |}) in
      let recommendations :=
        append_if (negb (truthy_ostr (ImageContent.alt_text ic)))
          (py "添加替代文本以提高可訪問性") [] in
      let recommendations :=
        append_if (negb image_format_valid) format_message recommendations in
      let recommendations :=
        append_if (negb (truthy_str caption))
          (py "添加引人入勝的圖像說明以提高參與度") recommendations in
      Ok (succeed adapted_content
            [("platform", MStr (py "facebook"));
             ("content_type", MStr (py "image"));
             ("caption_length", MInt (len adapted_caption));
             ("image_url", meta_ostr (ImageContent.image_url ic));
             ("alt_text_available",
              MBool (truthy_ostr (ImageContent.alt_text ic)));
             ("image_format_valid", MBool image_format_valid);
             ("recommendations", MList recommendations)])
  end.

Definition adapt_video_content (content_item : ContentItem.t)
  : res AdaptationResult.t :=
  match ContentItem.video_content content_item with
  | None => Ok (failure (py "缺少影片內容") content_item)
  | Some vc =>
      let original_title := VideoContent.title vc in
      let adapted_title := _truncate_text original_title MAX_TITLE_LENGTH in
      let description := or_empty (VideoContent.description vc) in
      let adapted_description :=
        _truncate_text description MAX_DESCRIPTION_LENGTH in
      let adapted_content :=
        ContentItem.set_video_content content_item
          (Some (VideoContent.set_description
                   (VideoContent.set_title vc adapted_title)
                   (Some adapted_description))) in
      let '(duration_optimal, duration_message) :=
        match VideoContent.duration_seconds vc with
        | Some duration =>
            if duration =? 0 then (true, [])
            else if duration <? 15
            then (false, py "影片過短，Facebook 建議至少 15 秒")
            else if 240 <? duration
            then (false, py "影片較長，考慮創建 2-4 分鐘的版本以提高參與度")
            else (true, [])
        | None => (true, [])
        end in
      let recommendations :=
        append_if (negb duration_optimal) duration_message [] in
      let recommendations :=
        append_if (negb (eqb original_title adapted_title))
          (py "標題已從 " ++ str_of_Z (len original_title)
           ++ py " 字元縮短至 " ++ str_of_Z (len adapted_title)
           ++ py " 字元") recommendations in
      let recommendations :=
        append_if (negb (truthy_str description))
          (py "添加引人入勝的影片描述以提高發現性和參與度") recommendations in
      let recommendations :=
        append_if (negb (truthy_ostr (VideoContent.thumbnail_prompt vc)))
          (py "添加自定義縮略圖以提高點擊率") recommendations in
      Ok (succeed adapted_content
            [("platform", MStr (py "facebook"));
             ("content_type", MStr (py "video"));
             ("title_length", MInt (len adapted_title));
             ("description_length", MInt (len adapted_description));
             ("duration_seconds",
              meta_oint (VideoContent.duration_seconds vc));
             ("duration_optimal", MBool duration_optimal);
             ("recommendations", MList recommendations)])
  end.

Definition adapt_content (content_item : ContentItem.t)
  : res AdaptationResult.t :=
  match ContentItem.content_type content_item with
  | TEXT => adapt_text_content content_item
  | IMAGE => adapt_image_content content_item
  | VIDEO => adapt_video_content content_item
  | other =>
      Ok (failure (py "不支持的內容類型: " ++ ContentType_str other)
            content_item)
  end.

End defs.
End FacebookAdapter.

(** ** [marketgenius/platforms/instagram.py] *)

Module InstagramAdapter.
Section defs.
Context `{Unicode}.

Definition MAX_CAPTION_LENGTH : Z := 2200.
Definition IDEAL_CAPTION_LENGTH : Z := 150.
Definition MAX_HASHTAGS : Z := 30.
Definition OPTIMAL_HASHTAGS : Z := 11.
Definition ALLOWED_IMAGE_FORMATS : list str :=
  [py ".jpg"; py ".jpeg"; py ".png"].
Definition MAX_VIDEO_LENGTH_SECONDS : Z := 90.
Definition MAX_FEED_VIDEO_SECONDS : Z := 60.

Definition marker : str := py "...".

Definition _truncate_text (text : str) (max_length : Z) : str :=
  if len text <=? max_length then text
  else
    let truncated := slice_to text max_length in
    let last_space := rfind truncated (py " ") in
    let truncated :=
      if 0 <? last_space then slice_to truncated last_space
      else truncated in
    strip truncated ++ py "...".

Definition _adapt_caption_length (caption : str) : str :=
  if len caption <=? MAX_CAPTION_LENGTH then caption
  else _truncate_text caption MAX_CAPTION_LENGTH.

Definition _adapt_hashtags (text : str) (existing_hashtags : option (list str))
  : str * list str :=
  let text_hashtags := re.findall_hashtag text in
  let all_hashtags :=
    merge_hashtags MAX_HASHTAGS text_hashtags existing_hashtags in
  if truthy_list text_hashtags && (3 <? llen text_hashtags) then
    let text_without_hashtags := re.sub_hashtag text in
    let text_without_hashtags := strip text_without_hashtags in
    let hashtag_text :=
      join (py " ") (map (fun tag => py "#" ++ tag) all_hashtags) in
    let final_text :=
      if truthy_str text_without_hashtags && truthy_str hashtag_text
      then text_without_hashtags ++ py "

" ++ hashtag_text
      else text_without_hashtags ++ hashtag_text in
    (final_text, all_hashtags)
  else (text, all_hashtags).

Definition _adapt_mentions (text : str) : str := text.

Definition _check_image_format (image_url : str) : bool * str :=
  if negb (truthy_str image_url) then (false, py "缺少圖像 URL")
  else
    let lower_url := lower image_url in
    let valid_format := any_endswith lower_url ALLOWED_IMAGE_FORMATS in
    if negb valid_format then
      (false,
       py "圖像格式可能不受支持，Instagram 支持: "
       ++ join (py ", ") ALLOWED_IMAGE_FORMATS)
    else (true, py "圖像格式有效").

(** The advice on the number of hashtags that the image and video paths
    share. *)
Definition hashtag_advice (hashtags : list str) (l : list str) : list str :=
  if negb (truthy_list hashtags)
  then l ++ [py "添加 5-15 個相關主題標籤以提高發現性"]
  else if llen hashtags <? 5
  then l ++ [py "增加使用的主題標籤數量，Instagram 上 5-15 個主題標籤效果最佳"]
  else l.

Definition adapt_to_caption (content_item : ContentItem.t)
  : res AdaptationResult.t :=
  match ContentItem.text_content content_item with
  | None => Ok (failure (py "缺少文本內容") content_item)
  | Some tc =>
      let original_text := TextContent.text tc in
      let adapted_caption := _adapt_caption_length original_text in
      let '(adapted_caption, hashtags) :=
        _adapt_hashtags adapted_caption (TextContent.hashtags tc) in
      let adapted_caption := _adapt_mentions adapted_caption in
      let adapted_content := ContentItem.set_content_type content_item IMAGE in
      let adapted_content :=
        match ContentItem.image_content adapted_content with
        | None =>
            ContentItem.set_image_content adapted_content
              (Some {| ImageContent.prompt := py "根據圖像說明生成圖像";
                       ImageContent.image_url := None;
                       ImageContent.alt_text :=
                         Some (py "由 "
                               ++ ContentItem.brand_id adapted_content
                               ++ py " 創建的圖像");
                       ImageContent.caption := Some adapted_caption |})
        | Some ic =>
            ContentItem.set_image_content adapted_content
              (Some {| ImageContent.prompt := ImageContent.prompt ic;
                       ImageContent.image_url := ImageContent.image_url ic;
                       ImageContent.alt_text := ImageContent.alt_text ic;
                       ImageContent.caption := Some adapted_caption |})
        end in
      let recommendations :=
        append_if (IDEAL_CAPTION_LENGTH <? llen (split adapted_caption))
          (py "考慮縮短說明，Instagram 上最佳說明長度為 "
           ++ str_of_Z IDEAL_CAPTION_LENGTH ++ py " 詞以內") [] in
      let recommendations :=
        if negb (truthy_list hashtags)
        then recommendations ++ [py "添加 5-15 個相關主題標籤以提高發現性"]
        else if llen hashtags <? 5
        then recommendations
             ++ [py "增加使用的主題標籤數量，Instagram 上 5-15 個主題標籤效果最佳"]
        else if OPTIMAL_HASHTAGS <? llen hashtags
        then recommendations
             ++ [py "主題標籤過多，考慮減少到 " ++ str_of_Z OPTIMAL_HASHTAGS
                 ++ py " 個以獲得最佳參與度"]
        else recommendations in
      Ok (succeed adapted_content
            [("platform", MStr (py "instagram"));
             ("content_type", MStr (py "image"));
             ("original_type", MStr (py "text"));
             ("caption_length", MInt (len adapted_caption));
             ("character_count", MInt (len adapted_caption));
             ("word_count", MInt (llen (split adapted_caption)));
             ("hashtag_count",
              MInt (if truthy_list hashtags then llen hashtags else 0));
             ("is_within_limits",
              MBool (len adapted_caption <=? MAX_CAPTION_LENGTH));
             ("note",
              MStr (py "純文本內容已轉換為帶說明的圖像，因為 Instagram 不支持純文本貼文"));
             ("recommendations", MList recommendations)])
  end.

Definition adapt_image_content (content_item : ContentItem.t)
  : res AdaptationResult.t :=
  match ContentItem.image_content content_item with
  | None => Ok (failure (py "缺少圖像內容") content_item)
  | Some ic =>
      let caption := or_empty (ImageContent.caption ic) in
      let adapted_caption := _adapt_caption_length caption in
      let '(adapted_caption, hashtags) :=
        _adapt_hashtags adapted_caption None in
      let '(image_format_valid, format_message) :=
        match ImageContent.image_url ic with
        | Some (c :: u) => _check_image_format (c :: u)
        | _ => (true, [])
        end in
      let adapted_content :=
        ContentItem.set_image_content content_item
          (Some {| ImageContent.prompt := ImageContent.prompt ic;
                   ImageContent.image_url := ImageContent.image_url ic;
                   ImageContent.alt_text := ImageContent.alt_text ic;
                   ImageContent.caption := Some adapted_caption |}) in
      let recommendations :=
        append_if (negb (truthy_ostr (ImageContent.alt_text ic)))
          (py "添加替代文本以提高可訪問性和 SEO 表現") [] in
      let recommendations :=
        append_if (negb image_format_valid) format_message recommendations in
      let recommendations :=
        append_if (negb (truthy_str caption))
          (py "添加引人入勝的圖像說明以提高參與度") recommendations in
      let recommendations := hashtag_advice hashtags recommendations in
      Ok (succeed adapted_content
            [("platform", MStr (py "instagram"));
             ("content_type", MStr (py "image"));
             ("caption_length", MInt (len adapted_caption));
             ("image_url", meta_ostr (ImageContent.image_url ic));
             ("alt_text_available",
              MBool (truthy_ostr (ImageContent.alt_text ic)));
             ("image_format_valid", MBool image_format_valid);
             ("hashtag_count",
              MInt (if truthy_list hashtags then llen hashtags else 0));
             ("recommendations", MList recommendations)])
  end.

(** [a > b] where [a] may be [None]: Python 3 orders no [None] against an
    [int] and raises [TypeError]. *)
Definition gt_optional (a : option Z) (b : Z) : res bool :=
  match a with
  | Some x => Ok (b <? x)
  | None => Raise TypeError
  end.

Definition adapt_video_content (content_item : ContentItem.t)
  : res AdaptationResult.t :=
  match ContentItem.video_content content_item with
  | None => Ok (failure (py "缺少影片內容") content_item)
  | Some vc =>
      let description := or_empty (VideoContent.description vc) in
      let adapted_description := _adapt_caption_length description in
      let '(adapted_description, hashtags) :=
        _adapt_hashtags adapted_description None in
      let adapted_content :=
        ContentItem.set_video_content content_item
          (Some (VideoContent.set_description vc (Some adapted_description)))
      in
      let '(duration_valid, duration_message) :=
        match VideoContent.duration_seconds vc with
        | Some duration =>
            if duration =? 0 then (true, [])
            else if MAX_VIDEO_LENGTH_SECONDS <? duration
            then (false,
                  py "影片超出 Instagram Reels 最大長度 ("
                  ++ str_of_Z duration ++ py " 秒 > "
                  ++ str_of_Z MAX_VIDEO_LENGTH_SECONDS ++ py " 秒)")
            else if MAX_FEED_VIDEO_SECONDS <? duration
            then (true,
                  py "影片長度 (" ++ str_of_Z duration
                  ++ py " 秒) 超出 Feed 影片限制 ("
                  ++ str_of_Z MAX_FEED_VIDEO_SECONDS
                  ++ py " 秒)，但適合 Reels")
            else (true, [])
        | None => (true, [])
        end in
      is_reels ← gt_optional (VideoContent.duration_seconds vc)
                   MAX_FEED_VIDEO_SECONDS;
      let recommendations :=
        append_if (truthy_str duration_message) duration_message [] in
      let recommendations :=
        append_if (negb (truthy_ostr (VideoContent.thumbnail_prompt vc)))
          (py "添加自定義縮略圖以提高點擊率") recommendations in
      let recommendations := hashtag_advice hashtags recommendations in
      Ok (succeed adapted_content
            [("platform", MStr (py "instagram"));
             ("content_type", MStr (py "video"));
             ("video_type", MStr (if is_reels : bool then py "reels" else py "feed"));
             ("description_length", MInt (len adapted_description));
             ("duration_seconds",
              meta_oint (VideoContent.duration_seconds vc));
             ("duration_valid", MBool duration_valid);
             ("hashtag_count",
              MInt (if truthy_list hashtags then llen hashtags else 0));
             ("recommendations", MList recommendations)])
  end.

Definition adapt_content (content_item : ContentItem.t)
  : res AdaptationResult.t :=
  match ContentItem.content_type content_item with
  | TEXT => adapt_to_caption content_item
  | IMAGE => adapt_image_content content_item
  | VIDEO => adapt_video_content content_item
  | other =>
      Ok (failure (py "不支持的內容類型: " ++ ContentType_str other)
            content_item)
  end.

End defs.
End InstagramAdapter.

(** ** [marketgenius/platforms/linkedin.py] *)

Module LinkedInAdapter.
Section defs.
Context `{Unicode}.

Definition MAX_POST_LENGTH : Z := 3000.
Definition IDEAL_POST_LENGTH : Z := 200.
Definition MAX_ARTICLE_LENGTH : Z := 100000.
Definition IDEAL_ARTICLE_LENGTH : Z := 1500.
Definition MAX_TITLE_LENGTH : Z := 150.
Definition IDEAL_HEADLINE_LENGTH : Z := 70.
Definition MAX_DESCRIPTION_LENGTH : Z := 2000.
Definition OPTIMAL_HASHTAGS : Z := 5.
Definition MAX_HASHTAGS : Z := 10.
Definition ALLOWED_IMAGE_FORMATS : list str :=
  [py ".jpg"; py ".jpeg"; py ".png"; py ".gif"].
Definition MAX_VIDEO_LENGTH_SECONDS : Z := 600.
Definition IDEAL_VIDEO_LENGTH_SECONDS : Z := 180.

(** The paragraph break. *)
Definition para : str := py "

".

(** The continuation marker of [_truncate_text]; after a sentence it is
    written with a leading space. *)
Definition marker : str := py "..." ++ para ++ py "(全文請參見完整文章)".

Definition _truncate_text (text : str) (max_length : Z) : str :=
  if len text <=? max_length then text
  else
    let by_paragraph :=
      if contains (slice_to text (max_length - 50)) para then
        let truncated := slice_to text max_length in
        let last_para := rfind truncated para in
        if gt_70_percent last_para max_length
        then Some (strip (slice_to truncated last_para)
                   ++ py "..." ++ para ++ py "(全文請參見完整文章)")
        else None
      else None in
    match by_paragraph with
    | Some r => r
    | None =>
        let truncated := slice_to text max_length in
        let last_sentence :=
          Z.max (Z.max (rfind truncated (py ". ")) (rfind truncated (py "! ")))
            (rfind truncated (py "? ")) in
        if gt_70_percent last_sentence max_length
        then strip (slice_to truncated (last_sentence + 1))
             ++ py " ..." ++ para ++ py "(全文請參見完整文章)"
        else
          let last_space := rfind truncated (py " ") in
          let truncated :=
            if 0 <? last_space then slice_to truncated last_space
            else truncated in
          strip truncated ++ py "..." ++ para ++ py "(全文請參見完整文章)"
    end.

Definition _adapt_post_length (text : str) : str :=
  if len text <=? MAX_POST_LENGTH then text
  else _truncate_text text MAX_POST_LENGTH.

Definition _adapt_article_length (text : str) : str :=
  if len text <=? MAX_ARTICLE_LENGTH then text
  else _truncate_text text MAX_ARTICLE_LENGTH.

Definition _adapt_hashtags (text : str) (existing_hashtags : option (list str))
  : str * list str :=
  let text_hashtags := re.findall_hashtag text in
  let all_hashtags :=
    merge_hashtags MAX_HASHTAGS text_hashtags existing_hashtags in
  (text, all_hashtags).

Definition _adapt_mentions (text : str) : str := text.

Definition _check_image_format (image_url : str) : bool * str :=
  if negb (truthy_str image_url) then (false, py "缺少圖像 URL")
  else
    let lower_url := lower image_url in
    let valid_format := any_endswith lower_url ALLOWED_IMAGE_FORMATS in
    if negb valid_format then
      (false,
       py "圖像格式可能不受支持，LinkedIn 支持: "
       ++ join (py ", ") ALLOWED_IMAGE_FORMATS)
    else (true, py "圖像格式有效").

(** [len(text.split()) > 300 or len(text) > 1000] *)
Definition is_article (text : str) : bool :=
  (300 <? llen (split text)) || (1000 <? len text).

(** The advice on the number of hashtags, shared by the three paths. *)
Definition hashtag_advice (hashtags : list str) (l : list str) : list str :=
  if negb (truthy_list hashtags)
  then l ++ [py "添加 3-5 個相關主題標籤以提高發現性"]
  else if OPTIMAL_HASHTAGS <? llen hashtags
  then l ++ [py "主題標籤過多，LinkedIn 上 3-5 個主題標籤效果最佳"]
  else l.

Definition adapt_text_content (content_item : ContentItem.t)
  : res AdaptationResult.t :=
  match ContentItem.text_content content_item with
  | None => Ok (failure (py "缺少文本內容") content_item)
  | Some tc =>
      let original_text := TextContent.text tc in
      let is_article := is_article original_text in
      let adapted_text :=
        if is_article then _adapt_article_length original_text
        else _adapt_post_length original_text in
      let '(adapted_text, hashtags) :=
        _adapt_hashtags adapted_text (TextContent.hashtags tc) in
      let adapted_text := _adapt_mentions adapted_text in
      let adapted_content :=
        ContentItem.set_text_content content_item
          (Some {| TextContent.text := adapted_text;
                   TextContent.hashtags := Some hashtags;
                   TextContent.mentions := TextContent.mentions tc |}) in
      let words := llen (split adapted_text) in
      let recommendations :=
        if is_article then
          if words <? 800
          then [py "文章較短，建議擴展內容至 800-2000 詞以獲得最佳效果"]
          else if 2000 <? words
          then [py "文章較長，考慮分割成多篇較短的文章"]
          else []
        else
          (* [words > IDEAL_POST_LENGTH * 1.5] *)
          append_if (3 * IDEAL_POST_LENGTH <? 2 * words)
            (py "貼文較長，LinkedIn 上較短的貼文（"
             ++ str_of_Z IDEAL_POST_LENGTH ++ py " 詞左右）通常表現更好") [] in
      let recommendations := hashtag_advice hashtags recommendations in
      let recommendations :=
        recommendations ++ [py "LinkedIn 上有圖片的貼文參與度比純文本高 98%"] in
      Ok (succeed adapted_content
            [("platform", MStr (py "linkedin"));
             ("content_type",
              MStr (if is_article then py "article" else py "post"));
             ("character_count", MInt (len adapted_text));
             ("word_count", MInt words);
             ("hashtag_count",
              MInt (if truthy_list hashtags then llen hashtags else 0));
             ("is_within_limits",
              MBool (len adapted_text
                     <=? (if is_article then MAX_ARTICLE_LENGTH
                          else MAX_POST_LENGTH)));
             ("recommendations", MList recommendations)])
  end.

Definition adapt_image_content (content_item : ContentItem.t)
  : res AdaptationResult.t :=
  match ContentItem.image_content content_item with
  | None => Ok (failure (py "缺少圖像內容") content_item)
  | Some ic =>
      let caption := or_empty (ImageContent.caption ic) in
      let is_article := is_article caption in
      let adapted_caption :=
        if is_article then _adapt_article_length caption
        else _adapt_post_length caption in
      let '(adapted_caption, hashtags) :=
        _adapt_hashtags adapted_caption None in
      let '(image_format_valid, format_message) :=
        match ImageContent.image_url ic with
        | Some (c :: u) => _check_image_format (c :: u)
        | _ => (true, [])
        end in
      let adapted_content :=
        ContentItem.set_image_content content_item
          (Some {| ImageContent.prompt := ImageContent.prompt ic;
                   ImageContent.image_url := ImageContent.image_url ic;
                   ImageContent.alt_text := ImageContent.alt_text ic;
                   ImageContent.caption := Some adapted_caption |}) in
      let recommendations :=
        append_if (negb (truthy_ostr (ImageContent.alt_text ic)))
          (py "添加替代文本以提高可訪問性和 SEO 表現") [] in
      let recommendations :=
        append_if (negb image_format_valid) format_message recommendations in
      let recommendations :=
        if negb (truthy_str caption)
        then recommendations ++ [py "添加引人入勝的圖像說明以提高參與度"]
        else if is_article && (llen (split caption) <? 800)
        then recommendations
             ++ [py "文章較短，建議擴展內容至 800-2000 詞以獲得最佳效果"]
        else recommendations in
      let recommendations := hashtag_advice hashtags recommendations in
      Ok (succeed adapted_content
            [("platform", MStr (py "linkedin"));
             ("content_type", MStr (py "image"));
             ("post_type",
              MStr (if is_article then py "article" else py "post"));
             ("caption_length", MInt (len adapted_caption));
             ("image_url", meta_ostr (ImageContent.image_url ic));
             ("alt_text_available",
              MBool (truthy_ostr (ImageContent.alt_text ic)));
             ("image_format_valid", MBool image_format_valid);
             ("hashtag_count",
              MInt (if truthy_list hashtags then llen hashtags else 0));
             ("recommendations", MList recommendations)])
  end.

Definition adapt_video_content (content_item : ContentItem.t)
  : res AdaptationResult.t :=
  match ContentItem.video_content content_item with
  | None => Ok (failure (py "缺少影片內容") content_item)
  | Some vc =>
      let original_title := VideoContent.title vc in
      let adapted_title := _truncate_text original_title MAX_TITLE_LENGTH in
      let description := or_empty (VideoContent.description vc) in
      let adapted_description :=
        _truncate_text description MAX_DESCRIPTION_LENGTH in
      let '(adapted_description, hashtags) :=
        _adapt_hashtags adapted_description None in
      let adapted_content :=
        ContentItem.set_video_content content_item
          (Some (VideoContent.set_description
                   (VideoContent.set_title vc adapted_title)
                   (Some adapted_description))) in
      let '(duration_valid, duration_message) :=
        match VideoContent.duration_seconds vc with
        | Some duration =>
            if duration =? 0 then (true, [])
            else if MAX_VIDEO_LENGTH_SECONDS <? duration
            then (false,
                  py "影片超出 LinkedIn 最大長度 (" ++ str_of_Z duration
                  ++ py " 秒 > " ++ str_of_Z MAX_VIDEO_LENGTH_SECONDS
                  ++ py " 秒)")
            else if IDEAL_VIDEO_LENGTH_SECONDS <? duration
            then (true,
                  py "影片較長，LinkedIn 上 "
                  ++ str_of_Z IDEAL_VIDEO_LENGTH_SECONDS
                  ++ py " 秒以內的影片通常表現更好")
            else (true, [])
        | None => (true, [])
        end in
      let recommendations :=
        append_if (truthy_str duration_message) duration_message [] in
      let recommendations :=
        append_if (negb (eqb original_title adapted_title))
          (py "標題已從 " ++ str_of_Z (len original_title)
           ++ py " 字元縮短至 " ++ str_of_Z (len adapted_title)
           ++ py " 字元") recommendations in
      let recommendations :=
        append_if (negb (truthy_str description))
          (py "添加專業的影片描述以提高發現性和參與度") recommendations in
      let recommendations :=
        append_if (negb (truthy_ostr (VideoContent.thumbnail_prompt vc)))
          (py "添加自定義縮略圖以提高點擊率") recommendations in
      let recommendations := hashtag_advice hashtags recommendations in
      Ok (succeed adapted_content
            [("platform", MStr (py "linkedin"));
             ("content_type", MStr (py "video"));
             ("title_length", MInt (len adapted_title));
             ("description_length", MInt (len adapted_description));
             ("duration_seconds",
              meta_oint (VideoContent.duration_seconds vc));
             ("duration_valid", MBool duration_valid);
             ("hashtag_count",
              MInt (if truthy_list hashtags then llen hashtags else 0));
             ("recommendations", MList recommendations)])
  end.

Definition adapt_content (content_item : ContentItem.t)
  : res AdaptationResult.t :=
  match ContentItem.content_type content_item with
  | TEXT => adapt_text_content content_item
  | IMAGE => adapt_image_content content_item
  | VIDEO => adapt_video_content content_item
  | other =>
      Ok (failure (py "不支持的內容類型: " ++ ContentType_str other)
            content_item)
  end.

End defs.
End LinkedInAdapter.

(** ** [marketgenius/platforms/youtube.py] *)

Module YouTubeAdapter.
Section defs.
Context `{Unicode}.

Definition MAX_TITLE_LENGTH : Z := 100.
Definition IDEAL_TITLE_LENGTH : Z := 60.
Definition MAX_DESCRIPTION_LENGTH : Z := 5000.
Definition MIN_DESCRIPTION_LENGTH : Z := 250.

Definition marker : str := py "...".

Definition _truncate_text (text : str) (max_length : Z) : str :=
  if len text <=? max_length then text
  else
    let truncated := slice_to text max_length in
    let last_sentence :=
      Z.max (Z.max (rfind truncated (py ". ")) (rfind truncated (py "! ")))
        (rfind truncated (py "? ")) in
    if gt_70_percent last_sentence max_length
    then strip (slice_to truncated (last_sentence + 1))
    else
      let last_space := rfind truncated (py " ") in
      let truncated :=
        if 0 <? last_space then slice_to truncated last_space
        else truncated in
      strip truncated ++ py "...".

(** [title[0].upper() + title[1:]] when [re.match(r'^[a-z]', title)] *)
Definition capitalize_ascii (title : str) : str :=
  match title with
  | c :: rest => if is_ascii_lower c then ascii_upper c :: rest else title
  | [] => title
  end.

Definition _adapt_title (title : str) : str :=
  if negb (truthy_str title) then py "需要提供影片標題"
  else
    let title :=
      if MAX_TITLE_LENGTH <? len title
      then _truncate_text title MAX_TITLE_LENGTH
      else title in
    capitalize_ascii title.

Definition _generate_title_from_text (text : str) : str :=
  if negb (truthy_str text) then py "YouTube 影片"
  else
    (* [text.split('.')[0].strip()] *)
    let first_sentence :=
      strip (take_while (fun c => negb (c =? 46)%N) text) in
    let words := split first_sentence in
    let first_sentence :=
      if 10 <? llen words then join (py " ") (take 10 words) ++ py "..."
      else first_sentence in
    let first_sentence :=
      if IDEAL_TITLE_LENGTH <? len first_sentence
      then _truncate_text first_sentence IDEAL_TITLE_LENGTH
      else first_sentence in
    capitalize_ascii first_sentence.

Definition _check_thumbnail_format (image_url : str) : bool * str :=
  if negb (truthy_str image_url) then (false, py "缺少圖像 URL")
  else
    let allowed_formats :=
      [py ".jpg"; py ".jpeg"; py ".png"; py ".gif"; py ".bmp"] in
    let lower_url := lower image_url in
    let valid_format := any_endswith lower_url allowed_formats in
    if negb valid_format then
      (false,
       py "圖像格式可能不受支持，YouTube 支持: "
       ++ join (py ", ") allowed_formats)
    else (true, py "圖像格式有效，確保尺寸為 1280x720 (16:9)").

Definition adapt_to_thumbnail (content_item : ContentItem.t)
  : res AdaptationResult.t :=
  match ContentItem.image_content content_item with
  | None => Ok (failure (py "缺少圖像內容") content_item)
  | Some ic =>
      let adapted_content := ContentItem.set_content_type content_item VIDEO in
      let image_url := ImageContent.image_url ic in
      let image_prompt := ImageContent.prompt ic in
      let caption := or_empty (ImageContent.caption ic) in
      let title :=
        if truthy_str caption then _generate_title_from_text caption
        else py "影片標題" in
      let video :=
        match ContentItem.video_content adapted_content with
        | None =>
            {| VideoContent.title := title;
               VideoContent.script := py "[需要提供影片腳本]";
               VideoContent.description := Some (py "[需要提供影片描述]");
               VideoContent.thumbnail_prompt := None;
               VideoContent.duration_seconds := None;
               VideoContent.video_url := None |}
        | Some vc => vc
        end in
      let default_prompt := py "高品質 YouTube 影片縮略圖" in
      let prompt_or_default :=
        if truthy_str image_prompt then image_prompt else default_prompt in
      video ←
        match image_url with
        | Some (c :: u) =>
            let '(is_valid_format, format_message) :=
              _check_thumbnail_format (c :: u) in
            if is_valid_format
            then VideoContent.setattr video "thumbnail_url" (c :: u)
            else VideoContent.setattr video "thumbnail_prompt"
                   (py "YouTube 縮略圖: " ++ prompt_or_default)
        | _ => VideoContent.setattr video "thumbnail_prompt" prompt_or_default
        end;
      let adapted_content :=
        ContentItem.set_video_content adapted_content (Some video) in
      Ok (succeed adapted_content
            [("platform", MStr (py "youtube"));
             ("content_type", MStr (py "thumbnail"));
             ("original_type", MStr (py "image"));
             ("has_image_url", MBool (truthy_ostr image_url));
             ("has_prompt", MBool (truthy_str image_prompt));
             ("note",
              MStr (py "圖像已設置為影片縮略圖，但還需要提供實際影片、標題和描述"));
             ("recommendations",
              MList [py "YouTube 縮略圖尺寸應為 1280x720 像素 (16:9)";
                     py "縮略圖應使用鮮明的顏色，包含清晰的文字和引人注目的圖像";
                     py "文字應控制在 1-3 個簡短詞語，避免太多文字";
                     py "縮略圖應與標題相互補充，而不是重複相同信息"])])
  end.

(** The rest of the adapter: descriptions, tags and the video paths. *)
Context `{Patterns}.

Definition MAX_TAGS : Z := 500.
Definition MAX_TAG_LENGTH : Z := 30.
Definition MIN_VIDEO_LENGTH_SECONDS : Z := 30.
Definition IDEAL_VIDEO_LENGTH_SECONDS : Z := 480.
Definition MAX_SHORTS_LENGTH_SECONDS : Z := 60.

(** [len(timestamps) >= 2] *)
Definition _has_timestamps (text : str) : bool :=
  2 <=? llen (findall_timestamp text).

(** A match of [https?://[^\s]+] begins at the head of [s]. *)
Definition link_at (s : str) : bool :=
  let behind (scheme : str) :=
    startswith s scheme
    && match drop (length scheme) s with
       | c :: _ => negb (isspace c)
       | [] => false
       end in
  behind (py "http://") || behind (py "https://").

(** [len(re.findall(r'https?://[^\s]+', text)) > 0] *)
Fixpoint _has_links (text : str) : bool :=
  link_at text
  || match text with [] => false | _ :: text' => _has_links text' end.

Definition _has_call_to_action (text : str) : bool :=
  let cta_phrases :=
    [py "subscribe"; py "like"; py "comment"; py "share"; py "click";
     py "join"; py "follow"; py "check out"; py "visit"; py "download";
     py "訂閱"; py "點贊"; py "評論"; py "分享"; py "點擊";
     py "加入"; py "關注"; py "查看"; py "訪問"; py "下載"] in
  let lower_text := lower text in
  existsb (fun phrase => contains lower_text phrase) cta_phrases.

Definition _is_title_seo_optimized (title : str) : bool :=
  if negb (truthy_str title) then false
  else if negb ((20 <=? len title) && (len title <=? IDEAL_TITLE_LENGTH))
  then false
  else if negb (search_digit title) then false
  else
    let attention_words :=
      [py "how"; py "why"; py "what"; py "best"; py "top"; py "guide";
       py "tutorial"; py "review"; py "tips"; py "secrets"; py "ultimate";
       py "complete"] in
    existsb (fun word => contains (lower title) word) attention_words.

Definition _is_description_seo_optimized (description : str) : bool :=
  if negb (truthy_str description) then false
  else if len description <? MIN_DESCRIPTION_LENGTH then false
  else
    let first_lines := take 2 (split_on 10%N description) in
    let first_lines_text := join (py " ") first_lines in
    if len first_lines_text <? 50 then false
    else
      _has_timestamps description || _has_links description
      || _has_call_to_action description.

(** The three detectors the method calls decide about a log entry
    only. *)
Definition _adapt_description (description : str) : str :=
  if negb (truthy_str description) then []
  else if MAX_DESCRIPTION_LENGTH <? len description
  then _truncate_text description MAX_DESCRIPTION_LENGTH
  else description.

(** The loop that removes duplicates and keeps the tags within the
    limits. *)
Fixpoint unique_tags_loop (tags : list str) (unique_tags : list str)
    (total_length : Z) : list str :=
  match tags with
  | [] => unique_tags
  | tag :: rest =>
      if negb (mem tag unique_tags) then
        if len tag <=? MAX_TAG_LENGTH then
          if total_length + len tag + 1 <=? MAX_TAGS
          then unique_tags_loop rest (unique_tags ++ [tag])
                 (total_length + len tag + 1)
          else unique_tags_loop rest unique_tags total_length
        else unique_tags_loop rest unique_tags total_length
      else unique_tags_loop rest unique_tags total_length
  end.

Definition _extract_tags (text : str) (title : str) : list str :=
  let tags := [] in
  let tags :=
    if truthy_str title then
      let title_words := split (re.sub_punctuation title) in
      let title_tags :=
        map lower (List.filter (fun word => 3 <? len word) title_words) in
      tags ++ take 3 title_tags
    else tags in
  let hashtags := re.findall_hashtag text in
  let tags := if truthy_list hashtags then tags ++ hashtags else tags in
  let quotes := re.findall_quoted text in
  let bolds := re.findall_bold text in
  let tags :=
    tags
    ++ map lower
         (List.filter
            (fun phrase =>
               (2 <? llen (split phrase)) && (llen (split phrase) <? 5)
               && (len phrase <? MAX_TAG_LENGTH))
            (quotes ++ bolds)) in
  unique_tags_loop tags [] 0.

Definition adapt_video_content (content_item : ContentItem.t)
  : res AdaptationResult.t :=
  match ContentItem.video_content content_item with
  | None => Ok (failure (py "缺少影片內容") content_item)
  | Some vc =>
      let original_title := VideoContent.title vc in
      let adapted_title := _adapt_title original_title in
      let description := or_empty (VideoContent.description vc) in
      let adapted_description := _adapt_description description in
      let tags := _extract_tags adapted_description original_title in
      let adapted_content :=
        ContentItem.set_video_content content_item
          (Some (VideoContent.set_description
                   (VideoContent.set_title vc adapted_title)
                   (Some adapted_description))) in
      let '(duration_recommendation, is_shorts) :=
        if truthy_oint (VideoContent.duration_seconds vc) then
          let duration := default 0 (VideoContent.duration_seconds vc) in
          if duration <=? MAX_SHORTS_LENGTH_SECONDS then
            (if duration <? 15
             then py "影片長度較短，甚至對於 YouTube Shorts 也偏短，建議至少 15 秒"
             else [],
             true)
          else if duration <? MIN_VIDEO_LENGTH_SECONDS then
            (py "影片較短，YouTube 上至少 "
             ++ str_of_Z MIN_VIDEO_LENGTH_SECONDS ++ py " 秒的影片表現更好",
             false)
          else if IDEAL_VIDEO_LENGTH_SECONDS * 2 <? duration then
            (py "影片較長，YouTube 統計顯示 "
             ++ str_of_Z (IDEAL_VIDEO_LENGTH_SECONDS / 60)
             ++ py " 分鐘左右的影片參與度最高",
             false)
          else ([], false)
        else ([], false) in
      let recommendations :=
        append_if (negb (eqb original_title adapted_title))
          (py "標題已從 " ++ str_of_Z (len original_title)
           ++ py " 字元調整為 " ++ str_of_Z (len adapted_title)
           ++ py " 字元") [] in
      let recommendations :=
        append_if (negb (_is_title_seo_optimized adapted_title))
          (py "改進標題 SEO：添加主要關鍵詞並放在開頭，使標題引人注目")
          recommendations in
      let recommendations :=
        if negb (truthy_str description)
        then recommendations ++ [py "添加豐富的影片描述以提高 SEO 和觀眾參與度"]
        else if len adapted_description <? MIN_DESCRIPTION_LENGTH
        then recommendations
             ++ [py "描述過短，YouTube 建議至少 "
                 ++ str_of_Z MIN_DESCRIPTION_LENGTH
                 ++ py " 字元以提高 SEO"]
        else recommendations in
      let recommendations :=
        append_if (negb (truthy_ostr (VideoContent.thumbnail_prompt vc)))
          (py "添加自定義縮略圖以提高點擊率，高品質縮略圖可提高 30% 以上點擊率")
          recommendations in
      let recommendations :=
        append_if (truthy_str duration_recommendation)
          duration_recommendation recommendations in
      let recommendations :=
        if negb (truthy_list tags)
        then recommendations
             ++ [py "添加相關標籤以提高發現性，YouTube 建議 5-15 個相關標籤"]
        else if llen tags <? 5
        then recommendations
             ++ [py "增加標籤數量，YouTube 建議 5-15 個相關標籤"]
        else recommendations in
      let recommendations :=
        append_if (negb is_shorts
                   && negb (_has_timestamps adapted_description))
          (py "在描述中添加時間戳，幫助觀眾導航長影片，提高參與度")
          recommendations in
      let recommendations :=
        append_if (negb (_has_call_to_action adapted_description))
          (py "添加明確的號召性用語（如訂閱、點贊、評論）以提高參與度")
          recommendations in
      let recommendations :=
        append_if (negb (_has_links adapted_description))
          (py "在描述中添加相關鏈接（社交媒體、網站等）以提高跨平台參與")
          recommendations in
      Ok (succeed adapted_content
            [("platform", MStr (py "youtube"));
             ("content_type",
              MStr (if is_shorts : bool then py "shorts" else py "video"));
             ("title_length", MInt (len adapted_title));
             ("description_length", MInt (len adapted_description));
             ("title_seo_optimized",
              MBool (_is_title_seo_optimized adapted_title));
             ("description_seo_optimized",
              MBool (_is_description_seo_optimized adapted_description));
             ("tags_count", MInt (llen tags));
             ("duration_seconds",
              meta_oint (VideoContent.duration_seconds vc));
             ("has_thumbnail",
              MBool (truthy_ostr (VideoContent.thumbnail_prompt vc)));
             ("recommendations", MList recommendations)])
  end.

Definition adapt_to_description (content_item : ContentItem.t)
  : res AdaptationResult.t :=
  match ContentItem.text_content content_item with
  | None => Ok (failure (py "缺少文本內容") content_item)
  | Some tc =>
      let original_text := TextContent.text tc in
      let adapted_description := _adapt_description original_text in
      let tags := _extract_tags adapted_description [] in
      let adapted_content := ContentItem.set_content_type content_item VIDEO in
      let adapted_content :=
        match ContentItem.video_content adapted_content with
        | None =>
            let title := _generate_title_from_text original_text in
            ContentItem.set_video_content adapted_content
              (Some {| VideoContent.title := title;
                       VideoContent.script := py "[需要提供影片腳本]";
                       VideoContent.description := Some adapted_description;
                       VideoContent.thumbnail_prompt := None;
                       VideoContent.duration_seconds := None;
                       VideoContent.video_url := None |})
        | Some vc =>
            ContentItem.set_video_content adapted_content
              (Some (VideoContent.set_description vc
                       (Some adapted_description)))
        end in
      let recommendations :=
        append_if (len adapted_description <? MIN_DESCRIPTION_LENGTH)
          (py "描述過短，YouTube 建議至少 "
           ++ str_of_Z MIN_DESCRIPTION_LENGTH ++ py " 字元以提高 SEO") [] in
      let recommendations :=
        append_if (negb (_is_description_seo_optimized adapted_description))
          (py "改進描述 SEO：添加關鍵詞並放在開頭，使描述前兩行具有吸引力")
          recommendations in
      let recommendations :=
        append_if (negb (_has_timestamps adapted_description))
          (py "添加時間戳，幫助觀眾導航影片內容") recommendations in
      let recommendations :=
        append_if (negb (_has_call_to_action adapted_description))
          (py "添加明確的號召性用語（如訂閱、點贊、評論）以提高參與度")
          recommendations in
      let recommendations :=
        append_if (negb (_has_links adapted_description))
          (py "添加相關鏈接（社交媒體、網站等）以提高跨平台參與")
          recommendations in
      Ok (succeed adapted_content
            [("platform", MStr (py "youtube"));
             ("content_type", MStr (py "video_description"));
             ("original_type", MStr (py "text"));
             ("description_length", MInt (len adapted_description));
             ("description_seo_optimized",
              MBool (_is_description_seo_optimized adapted_description));
             ("tags_count", MInt (llen tags));
             ("has_timestamps", MBool (_has_timestamps adapted_description));
             ("has_call_to_action",
              MBool (_has_call_to_action adapted_description));
             ("has_links", MBool (_has_links adapted_description));
             ("note",
              MStr (py "文本內容已轉換為影片描述，但還需要提供實際影片和標題"));
             ("recommendations", MList recommendations)])
  end.

Definition adapt_content (content_item : ContentItem.t)
  : res AdaptationResult.t :=
  match ContentItem.content_type content_item with
  | VIDEO => adapt_video_content content_item
  | TEXT => adapt_to_description content_item
  | IMAGE => adapt_to_thumbnail content_item
  | other =>
      Ok (failure
            (py "YouTube 主要支持影片內容，其他類型可能需要轉換: "
             ++ ContentType_str other)
            content_item)
  end.

End defs.
End YouTubeAdapter.

(** ** Construction of a [ContentItem]: the validation pydantic runs

    The call [ContentItem(...)] with keyword arguments validates the fields in the order the class
    declares them. [values] holds the fields validated so far. A field
    that is not given takes its default without running the validators
    (none is declared with [always=True]); a field that is given runs its
    validators and enters [values] only if they pass. The construction
    raises [ValidationError] when any field has failed. *)

Module ContentItemModel.

(** A keyword argument. *)
Inductive arg (A : Type) : Type :=
  | Missing
  | Given (a : A).
Arguments Missing {A}.
Arguments Given {A} a.

Record kwargs : Type := {
  id : arg str;
  brand_id : arg str;
  platform : arg Platform;
  content_type : arg ContentType;
  created_at : arg datetime;
  updated_at : arg datetime;
  text_content : arg (option TextContent.t);
  image_content : arg (option ImageContent.t);
  video_content : arg (option VideoContent.t);
  raw_request : arg (option (list (str * str)))
}.

(** The dictionary [values]: a key that is absent is [None]. *)
Record values : Type := {
  v_id : option str;
  v_brand_id : option str;
  v_platform : option Platform;
  v_content_type : option ContentType;
  v_created_at : option datetime;
  v_updated_at : option datetime;
  v_text_content : option (option TextContent.t);
  v_image_content : option (option ImageContent.t);
  v_video_content : option (option VideoContent.t);
  v_raw_request : option (option (list (str * str)))
}.

Definition no_values : values :=
  {| v_id := None; v_brand_id := None; v_platform := None;
     v_content_type := None; v_created_at := None; v_updated_at := None;
     v_text_content := None; v_image_content := None;
     v_video_content := None; v_raw_request := None |}.

(** ['key' not in values] *)
Definition absent {A} (o : option A) : bool :=
  match o with None => true | Some _ => false end.

(** The validator declared on [content_type], [text_content],
    [image_content] and [video_content]. *)
Definition validate_content_consistency {A} (v : A) (values : values)
  : res A :=
  let content_type := v_content_type values in
  if bool_decide (content_type = Some TEXT) && absent (v_text_content values)
  then Raise ValueError
  else if bool_decide (content_type = Some IMAGE)
          && absent (v_image_content values)
  then Raise ValueError
  else if bool_decide (content_type = Some VIDEO)
          && absent (v_video_content values)
  then Raise ValueError
  else Ok v.

(** A field without validator. *)
Definition no_validator {A} (v : A) (_ : values) : res A := Ok v.

(** The state of the validation loop: the values and the fields that
    failed. *)
Record state : Type := { vals : values; errors : list string }.

(** One round of the loop. [default] is [None] for a required field. *)
Definition field {A} (name : string) (a : arg A) (default : option A)
    (validator : A -> values -> res A) (put : values -> A -> values)
    (st : state) : state :=
  match a with
  | Missing =>
      match default with
      | None => {| vals := vals st; errors := errors st ++ [name] |}
      | Some d => {| vals := put (vals st) d; errors := errors st |}
      end
  | Given v =>
      match validator v (vals st) with
      | Ok v' => {| vals := put (vals st) v'; errors := errors st |}
      | Raise _ => {| vals := vals st; errors := errors st ++ [name] |}
      end
  end.

Definition put_id (s : values) x :=
  {| v_id := Some x; v_brand_id := v_brand_id s; v_platform := v_platform s;
     v_content_type := v_content_type s; v_created_at := v_created_at s;
     v_updated_at := v_updated_at s; v_text_content := v_text_content s;
     v_image_content := v_image_content s;
     v_video_content := v_video_content s;
     v_raw_request := v_raw_request s |}.
Definition put_brand_id (s : values) x :=
  {| v_id := v_id s; v_brand_id := Some x; v_platform := v_platform s;
     v_content_type := v_content_type s; v_created_at := v_created_at s;
     v_updated_at := v_updated_at s; v_text_content := v_text_content s;
     v_image_content := v_image_content s;
     v_video_content := v_video_content s;
     v_raw_request := v_raw_request s |}.
Definition put_platform (s : values) x :=
  {| v_id := v_id s; v_brand_id := v_brand_id s; v_platform := Some x;
     v_content_type := v_content_type s; v_created_at := v_created_at s;
     v_updated_at := v_updated_at s; v_text_content := v_text_content s;
     v_image_content := v_image_content s;
     v_video_content := v_video_content s;
     v_raw_request := v_raw_request s |}.
Definition put_content_type (s : values) x :=
  {| v_id := v_id s; v_brand_id := v_brand_id s; v_platform := v_platform s;
     v_content_type := Some x; v_created_at := v_created_at s;
     v_updated_at := v_updated_at s; v_text_content := v_text_content s;
     v_image_content := v_image_content s;
     v_video_content := v_video_content s;
     v_raw_request := v_raw_request s |}.
Definition put_created_at (s : values) x :=
  {| v_id := v_id s; v_brand_id := v_brand_id s; v_platform := v_platform s;
     v_content_type := v_content_type s; v_created_at := Some x;
     v_updated_at := v_updated_at s; v_text_content := v_text_content s;
     v_image_content := v_image_content s;
     v_video_content := v_video_content s;
     v_raw_request := v_raw_request s |}.
Definition put_updated_at (s : values) x :=
  {| v_id := v_id s; v_brand_id := v_brand_id s; v_platform := v_platform s;
     v_content_type := v_content_type s; v_created_at := v_created_at s;
     v_updated_at := Some x; v_text_content := v_text_content s;
     v_image_content := v_image_content s;
     v_video_content := v_video_content s;
     v_raw_request := v_raw_request s |}.
Definition put_text_content (s : values) x :=
  {| v_id := v_id s; v_brand_id := v_brand_id s; v_platform := v_platform s;
     v_content_type := v_content_type s; v_created_at := v_created_at s;
     v_updated_at := v_updated_at s; v_text_content := Some x;
     v_image_content := v_image_content s;
     v_video_content := v_video_content s;
     v_raw_request := v_raw_request s |}.
Definition put_image_content (s : values) x :=
  {| v_id := v_id s; v_brand_id := v_brand_id s; v_platform := v_platform s;
     v_content_type := v_content_type s; v_created_at := v_created_at s;
     v_updated_at := v_updated_at s; v_text_content := v_text_content s;
     v_image_content := Some x; v_video_content := v_video_content s;
     v_raw_request := v_raw_request s |}.
Definition put_video_content (s : values) x :=
  {| v_id := v_id s; v_brand_id := v_brand_id s; v_platform := v_platform s;
     v_content_type := v_content_type s; v_created_at := v_created_at s;
     v_updated_at := v_updated_at s; v_text_content := v_text_content s;
     v_image_content := v_image_content s; v_video_content := Some x;
     v_raw_request := v_raw_request s |}.
Definition put_raw_request (s : values) x :=
  {| v_id := v_id s; v_brand_id := v_brand_id s; v_platform := v_platform s;
     v_content_type := v_content_type s; v_created_at := v_created_at s;
     v_updated_at := v_updated_at s; v_text_content := v_text_content s;
     v_image_content := v_image_content s;
     v_video_content := v_video_content s; v_raw_request := Some x |}.

(** The loop over the fields of [ContentItem], in declaration order.
    [now] is what [datetime.datetime.now] answers. *)
Definition validate_model (now : datetime) (kw : kwargs) : state :=
  let st := {| vals := no_values; errors := [] |} in
  let st := field "id" (id kw) None no_validator put_id st in
  let st := field "brand_id" (brand_id kw) None no_validator put_brand_id st in
  let st := field "platform" (platform kw) None no_validator put_platform st in
  let st :=
    field "content_type" (content_type kw) None validate_content_consistency
      put_content_type st in
  let st :=
    field "created_at" (created_at kw) (Some now) no_validator put_created_at
      st in
  let st :=
    field "updated_at" (updated_at kw) (Some now) no_validator put_updated_at
      st in
  let st :=
    field "text_content" (text_content kw) (Some None)
      validate_content_consistency put_text_content st in
  let st :=
    field "image_content" (image_content kw) (Some None)
      validate_content_consistency put_image_content st in
  let st :=
    field "video_content" (video_content kw) (Some None)
      validate_content_consistency put_video_content st in
  field "raw_request" (raw_request kw) (Some None) no_validator
    put_raw_request st.

(** The constructor call. *)
Definition construct (now : datetime) (kw : kwargs) : res ContentItem.t :=
  let st := validate_model now kw in
  match errors st with
  | _ :: _ => Raise ValidationError
  | [] =>
      let v := vals st in
      match v_id v, v_brand_id v, v_platform v, v_content_type v,
            v_created_at v, v_updated_at v, v_text_content v,
            v_image_content v, v_video_content v, v_raw_request v with
      | Some i, Some b, Some p, Some c, Some ca, Some ua, Some t, Some im,
        Some vi, Some r =>
          Ok {| ContentItem.id := i; ContentItem.brand_id := b;
                ContentItem.platform := p; ContentItem.content_type := c;
                ContentItem.created_at := ca; ContentItem.updated_at := ua;
                ContentItem.text_content := t;
                ContentItem.image_content := im;
                ContentItem.video_content := vi;
                ContentItem.raw_request := r |}
      | _, _, _, _, _, _, _, _, _, _ => Raise ValidationError
      end
  end.

(** What the documentation of the validator asks of a well-formed item:
    the payload of the declared content type is there. *)
Definition payload_matches (c : ContentItem.t) : Prop :=
  match ContentItem.content_type c with
  | TEXT => is_Some (ContentItem.text_content c)
  | IMAGE => is_Some (ContentItem.image_content c)
  | VIDEO => is_Some (ContentItem.video_content c)
  | _ => True
  end.

End ContentItemModel.


(** ** [marketgenius/content/adapter.py] *)

Module PlatformAdapter.

(** The values of a raw content dictionary. *)
#[warnings="-register-all"]
Inductive value : Type :=
  | VNone
  | VBool (b : bool)
  | VInt (z : Z)
  | VStr (s : str)
  | VList (l : list value).

(** A class of the repository, as attribute lookup sees it: the names its
    body binds. An instance of the four adapter classes has no attributes
    of its own ([__init__] sets none), and what [object] adds are names
    between double underscores. *)
Record py_class : Type := {
  class_name : string;
  class_dict : list string
}.

Definition InstagramAdapter_class : py_class :=
  {| class_name := "InstagramAdapter";
     class_dict :=
       ["MAX_CAPTION_LENGTH"; "IDEAL_CAPTION_LENGTH"; "MAX_HASHTAGS";
        "OPTIMAL_HASHTAGS"; "ALLOWED_IMAGE_FORMATS";
        "MAX_VIDEO_LENGTH_SECONDS"; "MAX_FEED_VIDEO_SECONDS";
        "ALLOWED_ASPECT_RATIOS"; "__init__"; "adapt_content";
        "adapt_to_caption"; "adapt_image_content"; "adapt_video_content";
        "_adapt_caption_length"; "_adapt_hashtags"; "_adapt_mentions";
        "_check_image_format"; "_check_aspect_ratio"; "_truncate_text";
        "get_preferred_image_dimensions"; "get_preferred_video_dimensions"]
  |}.

Definition FacebookAdapter_class : py_class :=
  {| class_name := "FacebookAdapter";
     class_dict :=
       ["MAX_POST_LENGTH"; "IDEAL_POST_LENGTH"; "MAX_TITLE_LENGTH";
        "MAX_HASHTAGS"; "MAX_DESCRIPTION_LENGTH"; "ALLOWED_IMAGE_FORMATS";
        "__init__"; "adapt_content"; "adapt_text_content";
        "adapt_image_content"; "adapt_video_content"; "_adapt_text_length";
        "_adapt_hashtags"; "_adapt_mentions"; "_check_image_format";
        "_truncate_text"] |}.

Definition LinkedInAdapter_class : py_class :=
  {| class_name := "LinkedInAdapter";
     class_dict :=
       ["MAX_POST_LENGTH"; "IDEAL_POST_LENGTH"; "MAX_ARTICLE_LENGTH";
        "IDEAL_ARTICLE_LENGTH"; "MAX_TITLE_LENGTH"; "IDEAL_HEADLINE_LENGTH";
        "MAX_DESCRIPTION_LENGTH"; "OPTIMAL_HASHTAGS"; "MAX_HASHTAGS";
        "ALLOWED_IMAGE_FORMATS"; "MAX_VIDEO_LENGTH_SECONDS";
        "IDEAL_VIDEO_LENGTH_SECONDS"; "__init__"; "adapt_content";
        "adapt_text_content"; "adapt_image_content"; "adapt_video_content";
        "_adapt_post_length"; "_adapt_article_length"; "_adapt_hashtags";
        "_adapt_mentions"; "_check_image_format"; "_truncate_text";
        "get_preferred_content_lengths";
        "get_professional_tone_recommendations"] |}.

Definition YouTubeAdapter_class : py_class :=
  {| class_name := "YouTubeAdapter";
     class_dict :=
       ["MAX_TITLE_LENGTH"; "IDEAL_TITLE_LENGTH"; "MAX_DESCRIPTION_LENGTH";
        "MIN_DESCRIPTION_LENGTH"; "OPTIMAL_DESCRIPTION_LENGTH"; "MAX_TAGS";
        "OPTIMAL_TAGS_COUNT"; "MAX_TAG_LENGTH"; "MIN_VIDEO_LENGTH_SECONDS";
        "IDEAL_VIDEO_LENGTH_SECONDS"; "MAX_SHORTS_LENGTH_SECONDS";
        "MAX_FILE_SIZE_GB"; "__init__"; "adapt_content";
        "adapt_video_content"; "adapt_to_description"; "adapt_to_thumbnail";
        "_adapt_title"; "_adapt_description"; "_extract_tags";
        "_is_title_seo_optimized"; "_is_description_seo_optimized";
        "_has_timestamps"; "_has_links"; "_has_call_to_action";
        "_check_thumbnail_format"; "_truncate_text";
        "_generate_title_from_text"; "get_optimal_video_settings"] |}.

(** A method found on an instance: the class and the name. *)
Definition bound_method : Type := py_class * string.

(** [obj.name] *)
Definition getattr (c : py_class) (name : string) : res bound_method :=
  if bool_decide (name ∈ class_dict c) then Ok (c, name)
  else Raise AttributeError.

(** [x += s] for a string [s]: concatenation on a string, extension by the
    characters of [s] on a list, [TypeError] otherwise. *)
Definition iadd_str (x : value) (s : str) : res value :=
  match x with
  | VStr t => Ok (VStr (t ++ s))
  | VList l => Ok (VList (l ++ map (fun c => VStr [c]) s))
  | _ => Raise TypeError
  end.

Section defs.
Context `{Unicode}.

(** The call of a bound method with the content and the business
    information: the bodies of the adapters' methods, which the dispatcher
    does not look into. *)
Variable call : bound_method -> gmap str value -> option value
                -> res (gmap str value).

(** [self.adapters] *)
Definition adapters : gmap str py_class :=
  list_to_map
    [(py "instagram", InstagramAdapter_class);
     (py "facebook", FacebookAdapter_class);
     (py "linkedin", LinkedInAdapter_class);
     (py "youtube", YouTubeAdapter_class)].

Definition _generic_adapt (content : gmap str value) (platform : str)
  : res (gmap str value) :=
  let adapted := content in
  let adapted := <[py "platform" := VStr platform]> adapted in
  let adapted :=
    match adapted !! py "notes" with
    | None => <[py "notes" := VStr []]> adapted
    | Some _ => adapted
    end in
  notes ←
    iadd_str (default VNone (adapted !! py "notes"))
      (py "
This content has been generically adapted for " ++ platform ++ py ".");
  Ok (<[py "notes" := notes]> adapted).

Definition adapt_content (content : gmap str value) (platform : str)
    (business_info : option value) : res (gmap str value) :=
  let platform := lower platform in
  match adapters !! platform with
  | None => _generic_adapt content platform
  | Some adapter =>
      adapt ← getattr adapter "adapt";
      call adapt content business_info
  end.

End defs.
End PlatformAdapter.

(** ** [marketgenius/brand/voice_keeper.py] *)

(** The tokenizers of NLTK. *)
Class NLTK := {
  sent_tokenize : str -> list str;
  word_tokenize : str -> list str
}.

(** A tokenizer to run examples with: a text that is not empty is one
    sentence, and its words are its runs between white space. *)
Definition plain_nltk : NLTK :=
  {| sent_tokenize := fun s => match s with [] => [] | _ => [s] end;
     word_tokenize := PyStr.split |}.

Module BrandStyleKeeper.

(** The language model, seen from the keeper: what the call
    [self.language_model.score_text(content)] does, which is to answer a
    float or to raise. *)
Record BrandLanguageModel : Type := { score_text : str -> res Q }.

(** The class [BrandLanguageModel] of [marketgenius/brand/modeler.py],
    which the signature of the keeper names: it defines no [score_text],
    so the call raises [AttributeError]. *)
Definition modeler_BrandLanguageModel : BrandLanguageModel :=
  {| score_text := fun _ => Raise AttributeError |}.

(** [self] *)
Record t : Type := {
  brand_model : option BrandModel.t;
  language_model : option BrandLanguageModel
}.

(** [a / b] *)
Definition div (a b : Q) : res Q :=
  if Qeq_bool b 0 then Raise ZeroDivisionError else Ok (a / b)%Q.

(** An [int] as a [float]. *)
Definition QZ (z : Z) : Q := inject_Z z.

(** [x < y], [x > y] on floats. *)
Definition Qltb (x y : Q) : bool := negb (Qle_bool y x).

(** [sum(s.count(m) for m in markers)] *)
Definition count_markers (s : str) (markers : list str) : Z :=
  fold_left (fun acc m => acc + count s m) markers 0.

(** [sum(l)], [min(l)] and [max(l)] for a list of integers that is not
    empty. *)
Definition sum_list (l : list Z) : Z := fold_left Z.add l 0.
Definition min_list (l : list Z) : Z :=
  match l with [] => 0 | x :: r => fold_left Z.min r x end.
Definition max_list (l : list Z) : Z :=
  match l with [] => 0 | x :: r => fold_left Z.max r x end.

(** The details of the three checks. *)
Inductive keyword_details : Type :=
  | KeywordStatus (status : str)
  | KeywordReport (found_keywords missing_keywords : list str)
      (coverage : str).

Inductive sentence_length_details : Type :=
  | SentenceStatus (status : str)
  | SentenceReport (avg_length ideal_length : Q) (min_length max_length : Z)
      (sentence_count : Z).

Record attribute_detail : Type := {
  target_value : Q;
  score : Q;
  suggestion : str
}.

Inductive style_details : Type :=
  | StyleStatus (status : str)
  | StyleReport (attributes : list (str * attribute_detail))
      (overall_score : Q).

Record details : Type := {
  d_keywords : keyword_details;
  d_sentence_length : sentence_length_details;
  d_style : style_details;
  d_model_score : option Q
}.

(** The result of [check_consistency]; without brand model the details
    are empty. *)
Record result : Type := {
  consistency_score : Q;
  suggestions : list str;
  result_details : option details
}.

(** [d[k] = v] on a dictionary kept in insertion order. *)
Fixpoint dict_set {V} (d : list (str * V)) (k : str) (v : V)
  : list (str * V) :=
  match d with
  | [] => [(k, v)]
  | (k', v') :: d' =>
      if PyStr.eqb k k' then (k, v) :: d' else (k', v') :: dict_set d' k v
  end.

Section defs.
Context `{Unicode} `{NLTK}.

(** The weights of [check_consistency]: keywords, sentence length, style,
    model. *)
Definition weights (has_language_model : bool) : Q * Q * Q * Q :=
  if has_language_model then (0.2, 0.1, 0.3, 0.4)%Q
  else (0.4, 0.2, 0.4, 0.0)%Q.

(** The average number of words of the sentences. *)
Definition avg_sentence_length (sentences : list str) : res Q :=
  div (QZ (sum_list (map (fun s => llen (word_tokenize s)) sentences)))
      (QZ (llen sentences)).

(** The tokens of the content that the method computes first are not
    used afterwards: a keyword is found when its lower case occurs in the
    lower case of the content. *)
Definition _check_keywords (self : t) (content : str)
  : res (Q * keyword_details) :=
  match brand_model self with
  | None => Ok (1.0%Q, KeywordStatus (py "未設置品牌關鍵詞"))
  | Some bm =>
      match BrandModel.keywords bm with
      | [] => Ok (1.0%Q, KeywordStatus (py "未設置品牌關鍵詞"))
      | keywords =>
          let found_keywords :=
            List.filter (fun k => contains (lower content) (lower k))
              keywords in
          let missing_keywords :=
            List.filter (fun k => negb (contains (lower content) (lower k)))
              keywords in
          score ← div (QZ (llen found_keywords)) (QZ (llen keywords));
          Ok (score,
              KeywordReport found_keywords missing_keywords
                (str_of_Z (llen found_keywords) ++ py "/"
                 ++ str_of_Z (llen keywords)))
      end
  end.

(** The ideal sentence length: 15, moved by the attributes that name
    concision or detail; the last such attribute decides. *)
Definition ideal_sentence_length (attrs : list BrandStyleAttribute.t) : Q :=
  fold_left
    (fun ideal attr =>
       let name := lower (BrandStyleAttribute.name attr) in
       if mem name [py "簡潔"; py "簡短"; py "concise"; py "brief"]
       then (10 * (1 - BrandStyleAttribute.value attr) + 6)%Q
       else if mem name [py "詳細"; py "詳盡"; py "detailed"; py "elaborate"]
       then (15 + 10 * BrandStyleAttribute.value attr)%Q
       else ideal)
    attrs 15%Q.

Definition _check_sentence_length (self : t) (content : str)
  : res (Q * sentence_length_details) :=
  let sentences := sent_tokenize content in
  match sentences with
  | [] => Ok (0.0%Q, SentenceStatus (py "無內容"))
  | _ =>
      let lengths := map (fun s => llen (word_tokenize s)) sentences in
      avg_length ← div (QZ (sum_list lengths)) (QZ (llen lengths));
      let ideal_length :=
        ideal_sentence_length
          (match brand_model self with
           | Some bm => BrandModel.style_attributes bm
           | None => []
           end) in
      deviation ← div (Qabs (avg_length - ideal_length)) ideal_length;
      let score := Qmax 0 (1 - deviation) in
      Ok (score,
          SentenceReport avg_length ideal_length (min_list lengths)
            (max_list lengths) (llen sentences))
  end.

Definition _evaluate_formality (content : str) : res Q :=
  let formal_markers :=
    [py "furthermore"; py "therefore"; py "consequently";
     py "nevertheless"; py "regarding"; py "accordingly"; py "hereby";
     py "thus"; py "hence"; py "wherein"] in
  let informal_markers :=
    [py "anyway"; py "well"; py "you know"; py "kind of"; py "sort of";
     py "like"; py "stuff"; py "thing"; py "okay"; py "OK"; py "guys";
     py "pretty"; py "really"; py "gonna"; py "wanna"] in
  let content_lower := lower content in
  let formal_count := count_markers content_lower formal_markers in
  let informal_count := count_markers content_lower informal_markers in
  let contractions :=
    [py "n't"; py "'ll"; py "'re"; py "'ve"; py "'m"; py "'d"] in
  let contraction_count := count_markers content_lower contractions in
  let informal_count := informal_count + contraction_count in
  if formal_count + informal_count =? 0 then Ok 0.5%Q
  else
    formality_score ←
      (if 0 <? formal_count + informal_count
       then div (QZ formal_count) (QZ (formal_count + informal_count))
       else Ok 0.5%Q);
    let sentences := sent_tokenize content in
    avg_length ←
      (match sentences with
       | [] => Ok 0%Q
       | _ => avg_sentence_length sentences
       end);
    length_factor_arg ← div avg_length 20;
    let length_factor := Qmin 1.0 length_factor_arg in
    Ok (0.7 * formality_score + 0.3 * length_factor)%Q.

Definition _evaluate_professionalism (content : str) : res Q :=
  let content_lower := lower content in
  let professional_markers :=
    [py "analysis"; py "research"; py "data"; py "methodology";
     py "results"; py "implement"; py "strategy"; py "objective";
     py "criteria"; py "evaluation"] in
  let marker_count := count_markers content_lower professional_markers in
  let words := word_tokenize content_lower in
  let word_count := llen words in
  if word_count =? 0 then Ok 0.0%Q
  else
    density ← div (QZ marker_count) (QZ word_count);
    Ok (Qmin 1.0 (density * 20)).

Definition _evaluate_humor (content : str) : res Q :=
  let content_lower := lower content in
  let humor_markers :=
    [py "laugh"; py "funny"; py "joke"; py "humor"; py "witty"; py "haha";
     py "lol"; py "smile"; py "amusing"; py "hilarious"; py "ironic";
     py "sarcastic"; py "playful"; py "teasing"] in
  let exclamations := count content (py "!") in
  let questions := count content (py "?") in
  let marker_count := count_markers content_lower humor_markers in
  Ok (Qmin 1.0
        (QZ marker_count * 0.3 + QZ exclamations * 0.1
         + QZ questions * 0.05)).

Definition _evaluate_emotion (content : str) : res Q :=
  let content_lower := lower content in
  let emotional_words :=
    [py "love"; py "hate"; py "excited"; py "thrilled"; py "amazing";
     py "terrible"; py "wonderful"; py "awful"; py "delighted";
     py "disappointed"; py "happy"; py "sad"; py "angry"; py "joyful";
     py "proud"; py "ashamed"; py "grateful"; py "hurt"; py "inspired";
     py "devastated"] in
  let exclamations := count content (py "!") in
  let emotion_count := count_markers content_lower emotional_words in
  let words := word_tokenize content_lower in
  let word_count := llen words in
  if word_count =? 0 then Ok 0.0%Q
  else
    emotion_density ← div (QZ emotion_count) (QZ word_count);
    Ok (Qmin 1.0 (emotion_density * 15 + QZ exclamations * 0.1)).

Definition _evaluate_conciseness (content : str) : res Q :=
  let sentences := sent_tokenize content in
  match sentences with
  | [] => Ok 0.0%Q
  | _ =>
      avg_length ← avg_sentence_length sentences;
      let content_lower := lower content in
      let filler_words :=
        [py "basically"; py "actually"; py "literally"; py "virtually";
         py "definitely"; py "certainly"; py "probably"; py "essentially";
         py "totally"; py "completely"; py "absolutely"; py "really";
         py "very"; py "quite"; py "somewhat"; py "rather"] in
      let filler_count := count_markers content_lower filler_words in
      a ← div avg_length 20;
      b ← div (QZ filler_count) 10;
      let length_factor := Qmax 0 (1 - a) in
      let filler_factor := Qmax 0 (1 - b) in
      Ok (0.7 * length_factor + 0.3 * filler_factor)%Q
  end.

Definition _evaluate_directness (content : str) : res Q :=
  let content_lower := lower content in
  let indirect_markers :=
    [py "perhaps"; py "maybe"; py "might"; py "could"; py "possibly";
     py "potentially"; py "seemingly"; py "appears to"; py "it seems";
     py "somewhat"; py "rather"; py "in a sense";
     py "from a certain perspective"; py "one might say"] in
  let direct_markers :=
    [py "definitely"; py "absolutely"; py "certainly"; py "clearly";
     py "obviously"; py "without doubt"; py "must"; py "always"; py "never";
     py "undoubtedly"] in
  let sentences := sent_tokenize content in
  let question_count :=
    llen (List.filter (fun s => endswith (strip s) (py "?")) sentences) in
  question_ratio ←
    (match sentences with
     | [] => Ok 0%Q
     | _ => div (QZ question_count) (QZ (llen sentences))
     end);
  let indirect_count := count_markers content_lower indirect_markers in
  let direct_count := count_markers content_lower direct_markers in
  let total_markers := indirect_count + direct_count in
  marker_score ←
    (if total_markers =? 0 then Ok 0.5%Q
     else div (QZ direct_count) (QZ total_markers));
  Ok (marker_score * (1 - question_ratio * 0.5))%Q.

Definition _evaluate_attribute (content : str) (attribute : str)
    (target_value : Q) : res (Q * str) :=
  let attribute_lower := lower attribute in
  '(score, suggestion) ←
    (if mem attribute_lower [py "正式"; py "formal"] then
       score ← _evaluate_formality content;
       Ok (score,
           if Qltb score target_value then py "使用更正式的用語和句式"
           else py "略微減少正式程度")
     else if mem attribute_lower [py "專業"; py "professional"] then
       score ← _evaluate_professionalism content;
       Ok (score,
           if Qltb score target_value then py "增加專業術語和行業詞彙"
           else py "簡化一些專業術語")
     else if mem attribute_lower [py "幽默"; py "humorous"] then
       score ← _evaluate_humor content;
       Ok (score,
           if Qltb score target_value then py "增加一些輕鬆、幽默的表達"
           else py "減少幽默元素，增加正式內容")
     else if mem attribute_lower [py "情感"; py "emotional"] then
       score ← _evaluate_emotion content;
       Ok (score,
           if Qltb score target_value then py "使用更具情感的語言和表達"
           else py "使用更客觀、中性的語言")
     else if mem attribute_lower [py "簡潔"; py "concise"] then
       score ← _evaluate_conciseness content;
       Ok (score,
           if Qltb score target_value then py "精簡內容，刪除冗餘表達"
           else py "添加更多細節和描述")
     else if mem attribute_lower [py "直接"; py "direct"] then
       score ← _evaluate_directness content;
       Ok (score,
           if Qltb score target_value then py "更直接地表達主要觀點"
           else py "使用更委婉、間接的表達方式")
     else
       Ok (0.5%Q, py "調整 '" ++ attribute ++ py "' 特性以符合品牌風格"));
  let gap := Qabs (score - target_value) in
  let final_score := Qmax 0 (1 - gap) in
  Ok (final_score, suggestion).

(** The loop of [_check_style_attributes]: the dictionary of the
    attributes and the sum of their scores. *)
Fixpoint style_loop (content : str) (attrs : list BrandStyleAttribute.t)
    (attributes : list (str * attribute_detail)) (total_score : Q)
  : res (list (str * attribute_detail) * Q) :=
  match attrs with
  | [] => Ok (attributes, total_score)
  | attr :: rest =>
      '(attr_score, suggestion) ←
        _evaluate_attribute content (BrandStyleAttribute.name attr)
          (BrandStyleAttribute.value attr);
      style_loop content rest
        (dict_set attributes (BrandStyleAttribute.name attr)
           {| target_value := BrandStyleAttribute.value attr;
              score := attr_score;
              suggestion := suggestion |})
        (total_score + attr_score)%Q
  end.

Definition _check_style_attributes (self : t) (content : str)
  : res (Q * style_details) :=
  match brand_model self with
  | None => Ok (1.0%Q, StyleStatus (py "未設置品牌風格屬性"))
  | Some bm =>
      match BrandModel.style_attributes bm with
      | [] => Ok (1.0%Q, StyleStatus (py "未設置品牌風格屬性"))
      | attrs =>
          '(attributes, total_score) ← style_loop content attrs [] 0.0%Q;
          avg_score ← div total_score (QZ (llen attrs));
          Ok (avg_score, StyleReport attributes avg_score)
      end
  end.

(** The suggestion that names the missing keywords. *)
Definition keyword_suggestion (missing_keywords : list str) : str :=
  py "考慮增加關鍵詞: " ++ join (py ", ") (take 3 missing_keywords).

(** The argument [content_type] of the method is not used by its body
    and is left out. *)
Definition check_consistency (self : t) (content : str) : res result :=
  match brand_model self with
  | None =>
      Ok {| consistency_score := 0.0%Q;
            suggestions := [py "請先設置品牌模型"];
            result_details := None |}
  | Some bm =>
      '(keyword_score, keyword_details) ← _check_keywords self content;
      '(sentence_length_score, sentence_length_details) ←
        _check_sentence_length self content;
      '(style_score, style_details) ← _check_style_attributes self content;
      model_score ←
        match language_model self with
        | Some lm => score_text lm content
        | None => Ok 0.0%Q
        end;
      let '(w_keywords, w_sentence_length, w_style, w_model) :=
        weights (bool_decide (is_Some (language_model self))) in
      let total_score :=
        (keyword_score * w_keywords
         + sentence_length_score * w_sentence_length
         + style_score * w_style
         + model_score * w_model)%Q in
      let suggestions := [] in
      let suggestions :=
        if Qltb keyword_score 0.5 && truthy_list (BrandModel.keywords bm)
        then
          match keyword_details with
          | KeywordReport _ (m :: ms) _ =>
              suggestions ++ [keyword_suggestion (m :: ms)]
          | _ => suggestions
          end
        else suggestions in
      let suggestions :=
        if Qltb sentence_length_score 0.5 then
          let '(avg_length, ideal_length) :=
            match sentence_length_details with
            | SentenceReport a i _ _ _ => (a, i)
            | SentenceStatus _ => (0%Q, 15%Q)
            end in
          if Qltb ideal_length avg_length
          then suggestions ++ [py "縮短句子長度，使用更簡潔的表達"]
          else suggestions ++ [py "擴展句子長度，添加更多細節或描述"]
        else suggestions in
      let suggestions :=
        if Qltb style_score 0.5 then
          match style_details with
          | StyleReport attributes _ =>
              suggestions
              ++ map (fun '(attr, detail) =>
                        py "增強 '" ++ attr ++ py "' 風格特徵: "
                        ++ suggestion detail)
                   (List.filter (fun '(_, detail) => Qltb (score detail) 0.4)
                      attributes)
          | StyleStatus _ => suggestions
          end
        else suggestions in
      let suggestions :=
        if Qltb total_score 0.4
        then suggestions ++ [py "內容與品牌風格差異較大，建議重新創作"]
        else if Qltb total_score 0.7
        then suggestions ++ [py "內容部分符合品牌風格，需要修改調整"]
        else suggestions in
      Ok {| consistency_score := total_score;
            suggestions := suggestions;
            result_details :=
              Some {| d_keywords := keyword_details;
                      d_sentence_length := sentence_length_details;
                      d_style := style_details;
                      d_model_score :=
                        match language_model self with
                        | Some _ => Some model_score
                        | None => None
                        end |} |}
  end.

End defs.
End BrandStyleKeeper.


(** ** The truncation the specification describes *)

Module TruncationEngine.

(** The highest index of a character of [s] that satisfies [p], or [-1];
    [i] is the index of the head of [s]. *)
Fixpoint rfind_char_from (p : char -> bool) (i : Z) (s : str) : Z :=
  match s with
  | [] => -1
  | c :: s' =>
      let later := rfind_char_from p (i + 1) s' in
      if 0 <=? later then later else if p c then i else -1
  end.

(** [i] lies in the last 30% of a budget of [max_length] characters. *)
Definition in_last_30_percent (i max_length : Z) : bool :=
  7 * max_length <? 10 * i.

(** The truncation as section 4.1 of the specification words it, for a
    continuation marker [marker]: a text within the budget is returned as
    it is; otherwise the cut point is looked for in the last 30% of the
    budget, at a paragraph break first, then behind a sentence-ending
    punctuation mark, then at any white space; without such a boundary the
    cut is at [max_length]. The prefix is stripped of trailing white space
    and the marker is appended. *)
Definition truncate (marker : str) (text : str) (max_length : Z) : str :=
  if len text <=? max_length then text
  else
    let budget := slice_to text max_length in
    let paragraph := rfind budget (py "

") in
    let sentence :=
      Z.max (Z.max (rfind budget (py ". ")) (rfind budget (py "! ")))
        (rfind budget (py "? ")) in
    let space := rfind_char_from isspace 0 budget in
    let cut :=
      if in_last_30_percent paragraph max_length then paragraph
      else if in_last_30_percent sentence max_length then sentence + 1
      else if in_last_30_percent space max_length then space
      else max_length in
    rstrip (slice_to text cut) ++ marker.

End TruncationEngine.

(** ** What [rfind] computes *)

(** [sub] occurs in [s] at index [i]. *)
Definition occurs_at (s sub : str) (i : Z) : Prop :=
  0 <= i /\ i + len sub <= len s
  /\ take (length sub) (drop (Z.to_nat i) s) = sub.

(** [r] is the highest index at which one of [subs] occurs in [s], and
    [-1] when none occurs. *)
Definition last_occurrence (s : str) (subs : list str) (r : Z) : Prop :=
  (forall sub j, sub ∈ subs -> occurs_at s sub j -> j <= r)
  /\ (r = -1 \/ exists sub, sub ∈ subs /\ occurs_at s sub r).

(** ** Predicates used by the properties *)

(** The item declares text, image or video and carries the payload of the
    type it declares. *)
Definition adaptable (c : ContentItem.t) : bool :=
  match ContentItem.content_type c with
  | TEXT => bool_decide (is_Some (ContentItem.text_content c))
  | IMAGE => bool_decide (is_Some (ContentItem.image_content c))
  | VIDEO => bool_decide (is_Some (ContentItem.video_content c))
  | _ => false
  end.

(** A structured failure: no success, an error message, no metadata. *)
Definition is_failure_of (c : ContentItem.t) (r : AdaptationResult.t) : Prop :=
  AdaptationResult.success r = false
  /\ is_Some (AdaptationResult.error r)
  /\ AdaptationResult.content r = c
  /\ AdaptationResult.metadata r = None.

(** The adaptation left the identity of the item alone: its identifier,
    brand, platform, time stamps and raw request. *)
Definition same_identity (a b : ContentItem.t) : Prop :=
  ContentItem.id a = ContentItem.id b
  /\ ContentItem.brand_id a = ContentItem.brand_id b
  /\ ContentItem.platform a = ContentItem.platform b
  /\ ContentItem.created_at a = ContentItem.created_at b
  /\ ContentItem.updated_at a = ContentItem.updated_at b
  /\ ContentItem.raw_request a = ContentItem.raw_request b.

(** A success: no error, and metadata. *)
Definition is_success (r : AdaptationResult.t) : Prop :=
  AdaptationResult.success r = true
  /\ AdaptationResult.error r = None
  /\ is_Some (AdaptationResult.metadata r).


(** * Properties *)

(** ** Facts on strings *)


Section string_facts.
Implicit Types (s t sub : str) (p : char -> bool).

Lemma length_drop_while_le p s : (length (drop_while p s) <= length s)%nat.
Proof. induction s as [|c s IH]; simpl; [lia|]. destruct (p c); simpl; lia. Qed.

Lemma length_lstrip_le s : (length (lstrip s) <= length s)%nat.
Proof. apply length_drop_while_le. Qed.

Lemma length_rstrip_le s : (length (rstrip s) <= length s)%nat.
Proof.
  unfold rstrip. rewrite length_reverse.
  etransitivity; [apply length_drop_while_le|]. by rewrite length_reverse.
Qed.

Lemma length_strip_le s : (length (strip s) <= length s)%nat.
Proof.
  unfold strip. etransitivity; [apply length_rstrip_le|apply length_lstrip_le].
Qed.

Lemma len_strip_le s : len (strip s) <= len s.
Proof. unfold len. pose proof (length_strip_le s). lia. Qed.

Lemma len_app s t : len (s ++ t) = len s + len t.
Proof. unfold len. rewrite length_app. lia. Qed.

Lemma len_nonneg s : 0 <= len s.
Proof. unfold len. lia. Qed.

Lemma len_slice_to_le s n : len (slice_to s n) <= len s.
Proof.
  unfold slice_to, len. destruct (0 <=? n); rewrite length_take; lia.
Qed.

Lemma len_slice_to_bound s n : 0 <= n -> len (slice_to s n) <= n.
Proof.
  intros Hn. unfold slice_to, len.
  destruct (Z.leb_spec 0 n); [|lia]. rewrite length_take. lia.
Qed.

Lemma slice_to_take s n : 0 <= n -> slice_to s n = take (Z.to_nat n) s.
Proof. intros Hn. unfold slice_to. destruct (Z.leb_spec 0 n); [done|lia]. Qed.

Lemma startswith_length s sub :
  startswith s sub = true -> (length sub <= length s)%nat.
Proof.
  revert s. induction sub as [|c sub IH]; intros [|d s]; simpl; try lia; try done.
  intros [_ Hs]%andb_prop. apply IH in Hs. lia.
Qed.

Lemma startswith_take s sub :
  startswith s sub = true <-> take (length sub) s = sub.
Proof.
  revert s. induction sub as [|c sub IH]; intros [|d s]; simpl; try done.
  rewrite andb_true_iff, N.eqb_eq, IH. split.
  - intros [-> ->]. done.
  - intros [= -> Ht]. by rewrite Ht.
Qed.

Lemma rfind_from_spec i s sub :
  0 <= i ->
  (rfind_from i s sub = -1
   /\ forall k, (k <= length s)%nat -> startswith (drop k s) sub = false)
  \/ (exists k, rfind_from i s sub = i + Z.of_nat k
      /\ (k <= length s)%nat
      /\ startswith (drop k s) sub = true
      /\ forall j, (k < j <= length s)%nat ->
                   startswith (drop j s) sub = false).
Proof.
  revert i. induction s as [|c s IH]; intros i Hi.
  - cbn [rfind_from]. simpl (0 <=? -1). cbv iota.
    destruct (startswith [] sub) eqn:E.
    + right. exists O. rewrite Z.add_0_r. repeat split; try done.
      cbn [length]. intros j Hj. lia.
    + left. split; [done|]. intros k Hk. by rewrite drop_nil.
  - cbn [rfind_from]. destruct (IH (i + 1)) as [[-> Hno]|(k & -> & Hk & Hocc & Hlast)]; [lia| |].
    + simpl (0 <=? -1). cbv iota. destruct (startswith (c :: s) sub) eqn:E.
      * right. exists O. repeat split; try done; simpl; try lia.
        intros [|j] Hj; [lia|]. simpl. apply Hno. lia.
      * left. split; [done|]. intros [|k] Hk; [done|]. simpl. apply Hno.
        simpl in Hk. lia.
    + destruct (Z.leb_spec 0 (i + 1 + Z.of_nat k)); [|lia].
      right. exists (S k). repeat split; simpl; try done; try lia.
      intros [|j] Hj; [lia|]. simpl. apply Hlast. lia.
Qed.

Lemma rfind_range s sub : -1 <= rfind s sub.
Proof.
  unfold rfind. destruct (rfind_from_spec 0 s sub) as [[-> _]|(k & -> & _)]; lia.
Qed.

Lemma rfind_bound s sub :
  0 <= rfind s sub -> rfind s sub + len sub <= len s.
Proof.
  unfold rfind, len.
  destruct (rfind_from_spec 0 s sub) as [[-> _]|(k & -> & Hk & Hocc & _)];
    [lia|lia|].
  intros _. apply startswith_length in Hocc. rewrite length_drop in Hocc. lia.
Qed.

End string_facts.

(** ** Truncation: the length bound *)

Section truncate_bound.
Implicit Types (text : str) (max_length : Z).

(** The cut at the last space, common to the four adapters: at most
    [max_length] characters remain. *)
Lemma len_word_cut text max_length :
  0 <= max_length ->
  let truncated := slice_to text max_length in
  let last_space := rfind truncated (py " ") in
  len (strip (if 0 <? last_space then slice_to truncated last_space
              else truncated)) <= max_length.
Proof.
  intros Hm truncated last_space.
  etransitivity; [apply len_strip_le|].
  pose proof (len_slice_to_bound text max_length Hm).
  destruct (0 <? last_space); [|done].
  etransitivity; [apply len_slice_to_le|done].
Qed.

(** The cut behind a sentence: at most [max_length - 1] characters. *)
Lemma len_sentence_cut text max_length :
  0 <= max_length ->
  let truncated := slice_to text max_length in
  let last_sentence :=
    Z.max (Z.max (rfind truncated (py ". ")) (rfind truncated (py "! ")))
      (rfind truncated (py "? ")) in
  0 <= last_sentence ->
  len (strip (slice_to truncated (last_sentence + 1))) <= max_length - 1.
Proof.
  intros Hm truncated last_sentence Hls.
  etransitivity; [apply len_strip_le|].
  etransitivity; [apply len_slice_to_bound; lia|].
  pose proof (len_slice_to_bound text max_length Hm) as Ht.
  fold truncated in Ht.
  assert (last_sentence + 2 <= len truncated); [|lia].
  pose proof (rfind_bound truncated (py ". ")) as H1.
  pose proof (rfind_bound truncated (py "! ")) as H2.
  pose proof (rfind_bound truncated (py "? ")) as H3.
  change (len (py ". ")) with 2 in H1.
  change (len (py "! ")) with 2 in H2.
  change (len (py "? ")) with 2 in H3.
  unfold last_sentence in *. lia.
Qed.

(** Rounding keeps the sign. *)
Lemma binary_round_aux_sign sx mx ex lx :
  match binary_round_aux binary64.prec binary64.emax sx mx ex lx with
  | S754_zero s | S754_infinity s | S754_finite s _ _ => s = sx
  | S754_nan => True
  end.
Proof.
  unfold binary_round_aux.
  destruct (shr_fexp _ _ mx ex lx) as [mrs1 e1].
  destruct (shr_fexp _ _ _ e1 loc_Exact) as [mrs2 e2].
  destruct (shr_m mrs2); [done| |done]. by destruct (_ <=? _).
Qed.

(** The product [max_length * 0.7] of a budget that is not negative is
    not negative. *)
Lemma times_0_7_sign max_length :
  0 <= max_length ->
  match times_0_7 max_length with
  | S754_zero s | S754_infinity s | S754_finite s _ _ => s = false
  | S754_nan => True
  end.
Proof.
  intros Hm. unfold times_0_7, binary64.mul.
  assert (exists m e, binary64.literal 7 1 = S754_finite false m e)
    as (m & e & ->) by (eexists _, _; vm_compute; reflexivity).
  assert (match binary64.of_Z max_length with
          | S754_zero s | S754_infinity s | S754_finite s _ _ => s = false
          | S754_nan => True
          end) as Hz.
  { unfold binary64.of_Z, binary_normalize.
    destruct max_length as [|p|p]; [done| |lia].
    unfold binary_round. destruct (shl_align _ _ _) as [mz ez].
    apply binary_round_aux_sign. }
  destruct (binary64.of_Z max_length) as [s|s| |s mx ex];
    cbn [SFmul]; try done; try (by rewrite Hz).
  subst s. apply binary_round_aux_sign.
Qed.

Lemma gt_70_percent_pos i max_length :
  0 <= max_length -> gt_70_percent i max_length = true -> 0 < i.
Proof.
  intros Hm. unfold gt_70_percent.
  pose proof (times_0_7_sign max_length Hm) as Hs.
  destruct (times_0_7 max_length) as [s|s| |s m e]; cbn [int_gt_float].
  - by intros ?%Z.ltb_lt.
  - by rewrite Hs.
  - done.
  - rewrite Hs. destruct (Z.leb_spec 0 e) as [He|He]; intros Hlt%Z.ltb_lt.
    + pose proof (Z.pow_pos_nonneg 2 e ltac:(lia) He). nia.
    + pose proof (Z.pow_pos_nonneg 2 (- e) ltac:(lia) ltac:(lia)). nia.
Qed.

(** The thresholds [max_length * 0.7] that YouTube and LinkedIn compute
    for their limits are whole numbers also in double precision. *)
Lemma threshold_exact_for_adapter_limits :
  Forall (fun m => times_0_7 m = binary64.of_Z (7 * m / 10))
    [60; 100; 150; 2000; 3000; 5000; 100000].
Proof. repeat constructor. Qed.

(** For these limits the comparison with an index is the comparison on
    the rationals. *)
Lemma gt_70_percent_adapter_limits :
  Forall (fun m => forall i, gt_70_percent i m = (7 * m <? 10 * i))
    [60; 100; 150; 2000; 3000; 5000; 100000].
Proof.
  apply Forall_forall. intros m Hm i. unfold gt_70_percent.
  repeat (apply elem_of_cons in Hm as [->|Hm];
          [match goal with
           | |- int_gt_float _ ?x = _ =>
               let y := eval vm_compute in x in change x with y
           end;
           cbn [int_gt_float Z.leb Z.compare Z.opp];
           match goal with
           | |- context [2 ^ ?k] =>
               let y := eval vm_compute in (2 ^ k) in change (2 ^ k) with y
           end;
           match goal with
           | |- _ = (?a <? ?b) => destruct (Z.ltb_spec a b)
           end;
           [apply Z.ltb_lt|apply Z.ltb_ge]; lia|]).
  by apply elem_of_nil in Hm.
Qed.

(** For other budgets the double product may lie below the exact one: at
    a budget of 90 the index 63 exceeds it, though 63 is seven tenths of
    90. *)
Lemma gt_70_percent_budget_90 :
  gt_70_percent 63 90 = true /\ (7 * 90 <? 10 * 63) = false.
Proof. split; vm_compute; reflexivity. Qed.

Lemma facebook_truncate_bound text max_length :
  0 <= max_length -> max_length < len text ->
  len (FacebookAdapter._truncate_text text max_length)
  <= max_length + len FacebookAdapter.marker.
Proof.
  intros Hm Hlen. unfold FacebookAdapter._truncate_text.
  destruct (Z.leb_spec (len text) max_length); [lia|].
  rewrite len_app. pose proof (len_word_cut text max_length Hm) as Hc.
  cbv zeta in Hc. change (len (py "...")) with (len FacebookAdapter.marker).
  lia.
Qed.

Lemma instagram_truncate_bound text max_length :
  0 <= max_length -> max_length < len text ->
  len (InstagramAdapter._truncate_text text max_length)
  <= max_length + len InstagramAdapter.marker.
Proof.
  intros Hm Hlen. unfold InstagramAdapter._truncate_text.
  destruct (Z.leb_spec (len text) max_length); [lia|].
  rewrite len_app. pose proof (len_word_cut text max_length Hm) as Hc.
  cbv zeta in Hc. change (len (py "...")) with (len InstagramAdapter.marker).
  lia.
Qed.

Lemma youtube_truncate_bound text max_length :
  0 <= max_length -> max_length < len text ->
  len (YouTubeAdapter._truncate_text text max_length)
  <= max_length + len YouTubeAdapter.marker.
Proof.
  intros Hm Hlen. unfold YouTubeAdapter._truncate_text.
  destruct (Z.leb_spec (len text) max_length); [lia|].
  cbv zeta. change (len YouTubeAdapter.marker) with 3.
  destruct (gt_70_percent _ max_length) eqn:E.
  - apply gt_70_percent_pos in E; [|done].
    pose proof (len_sentence_cut text max_length Hm) as Hc. cbv zeta in Hc.
    specialize (Hc ltac:(lia)). lia.
  - rewrite len_app. pose proof (len_word_cut text max_length Hm) as Hc.
    cbv zeta in Hc. change (len (py "...")) with 3. lia.
Qed.

Lemma linkedin_truncate_bound text max_length :
  0 <= max_length -> max_length < len text ->
  len (LinkedInAdapter._truncate_text text max_length)
  <= max_length + len LinkedInAdapter.marker.
Proof.
  intros Hm Hlen. unfold LinkedInAdapter._truncate_text.
  destruct (Z.leb_spec (len text) max_length); [lia|].
  cbv zeta. change (len LinkedInAdapter.marker) with 16.
  assert (forall r, len (r ++ py "..." ++ LinkedInAdapter.para
                          ++ py "(全文請參見完整文章)") = len r + 16) as Hmark.
  { intros r. rewrite len_app. f_equal. }
  assert (forall r, len (r ++ py " ..." ++ LinkedInAdapter.para
                          ++ py "(全文請參見完整文章)") = len r + 17) as Hmark'.
  { intros r. rewrite len_app. f_equal. }
  assert (forall x, len (strip (slice_to (slice_to text max_length) x))
                    <= max_length) as Hany.
  { intros x. etransitivity; [apply len_strip_le|].
    etransitivity; [apply len_slice_to_le|]. by apply len_slice_to_bound. }
  match goal with
  | |- len (match ?b with Some r => r | None => ?k end) <= _ =>
      assert (len k <= max_length + 16) as Hk; [|destruct b as [r|] eqn:Eb]
  end.
  - destruct (gt_70_percent _ max_length) eqn:E.
    + apply gt_70_percent_pos in E; [|done].
      pose proof (len_sentence_cut text max_length Hm) as Hc. cbv zeta in Hc.
      specialize (Hc ltac:(lia)). rewrite Hmark'. lia.
    + rewrite Hmark. pose proof (len_word_cut text max_length Hm) as Hc.
      cbv zeta in Hc. lia.
  - revert Eb. destruct (contains _ _); [|done].
    destruct (gt_70_percent (rfind _ LinkedInAdapter.para) _); [|intros; discriminate].
    intros [= <-]. rewrite Hmark.
    specialize (Hany (rfind (slice_to text max_length) LinkedInAdapter.para)).
    lia.
  - done.
Qed.

End truncate_bound.

(** C4. For every text and every [max_length >= 1], the truncation of each
    of the four adapters returns a text of at most [max_length] characters
    as it is, and answers a longer text with at most
    [max_length + len(marker)] characters, [marker] being the continuation
    marker of the adapter. *)
Theorem truncate_text_length_bound (text : str) (max_length : Z) :
  1 <= max_length ->
  (len text <= max_length ->
     FacebookAdapter._truncate_text text max_length = text
     /\ InstagramAdapter._truncate_text text max_length = text
     /\ LinkedInAdapter._truncate_text text max_length = text
     /\ YouTubeAdapter._truncate_text text max_length = text)
  /\ (max_length < len text ->
        len (FacebookAdapter._truncate_text text max_length)
          <= max_length + len FacebookAdapter.marker
        /\ len (InstagramAdapter._truncate_text text max_length)
          <= max_length + len InstagramAdapter.marker
        /\ len (LinkedInAdapter._truncate_text text max_length)
          <= max_length + len LinkedInAdapter.marker
        /\ len (YouTubeAdapter._truncate_text text max_length)
          <= max_length + len YouTubeAdapter.marker).
Proof.
  intros Hm. split.
  - intros Hle. apply Z.leb_le in Hle.
    unfold FacebookAdapter._truncate_text, InstagramAdapter._truncate_text,
      LinkedInAdapter._truncate_text, YouTubeAdapter._truncate_text.
    by rewrite Hle.
  - intros Hlt. assert (0 <= max_length) as H0 by lia.
    auto using facebook_truncate_bound, instagram_truncate_bound,
      linkedin_truncate_bound, youtube_truncate_bound.
Qed.

Lemma truncate_text_length_bound_witness :
  1 <= 8
  /\ len (LinkedInAdapter._truncate_text (py "hello world foo") 8)
     <= 8 + len LinkedInAdapter.marker.
Proof.
  split; [lia|].
  pose proof (truncate_text_length_bound (py "hello world foo") 8) as H.
  apply H; [lia|]. vm_compute. reflexivity.
Defined.

(** ** Truncation: where the adapters cut *)

Section truncate_cut.
Implicit Types (s sub text : str) (max_length : Z).

Lemma rfind_last_occurrence s sub : last_occurrence s [sub] (rfind s sub).
Proof.
  unfold rfind.
  destruct (rfind_from_spec 0 s sub) as [[-> Hno]|(k & -> & Hk & Hocc & Hlast)];
    [lia| |].
  - split; [|by left].
    intros sub' j ->%list_elem_of_singleton (Hj & Hb & Ht).
    apply startswith_take in Ht. rewrite Hno in Ht; [done|].
    unfold len in Hb. lia.
  - split.
    + intros sub' j ->%list_elem_of_singleton (Hj & Hb & Ht).
      apply startswith_take in Ht.
      destruct (Z.le_gt_cases j (0 + Z.of_nat k)) as [|Hgt]; [done|].
      rewrite Hlast in Ht; [done|]. unfold len in Hb. lia.
    + right. exists sub. split; [by apply list_elem_of_singleton|].
      apply startswith_take in Hocc as Ht.
      apply startswith_length in Hocc. rewrite length_drop in Hocc.
      unfold occurs_at, len. rewrite Z.add_0_l, Nat2Z.id.
      repeat split; [lia|lia|done].
Qed.

Lemma last_occurrence_max s l1 l2 r1 r2 :
  last_occurrence s l1 r1 -> last_occurrence s l2 r2 ->
  last_occurrence s (l1 ++ l2) (Z.max r1 r2).
Proof.
  intros [Hub1 Hin1] [Hub2 Hin2]. split.
  - intros sub j [Hs|Hs]%elem_of_app Ho.
    + specialize (Hub1 sub j Hs Ho). lia.
    + specialize (Hub2 sub j Hs Ho). lia.
  - destruct (Z.max_spec r1 r2) as [[Hlt ->]|[Hle ->]].
    + destruct Hin2 as [->|(sub & Hs & Ho)].
      * destruct Hin1 as [->|(sub & Hs & [Ho _])]; [by left|lia].
      * right. exists sub. split; [apply elem_of_app; by right|done].
    + destruct Hin1 as [->|(sub & Hs & Ho)].
      * destruct Hin2 as [->|(sub & Hs & [Ho _])]; [by left|lia].
      * right. exists sub. split; [apply elem_of_app; by left|done].
Qed.

Lemma rfind_sentence_last_occurrence s :
  last_occurrence s [py ". "; py "! "; py "? "]
    (Z.max (Z.max (rfind s (py ". ")) (rfind s (py "! "))) (rfind s (py "? "))).
Proof.
  apply (last_occurrence_max s [py ". "; py "! "] [py "? "]);
    [|apply rfind_last_occurrence].
  apply (last_occurrence_max s [py ". "] [py "! "]);
    apply rfind_last_occurrence.
Qed.

End truncate_cut.

(** The marker LinkedIn writes behind a sentence is its marker after a
    space. *)
Lemma linkedin_sentence_marker :
  py " ..." ++ LinkedInAdapter.para ++ py "(全文請參見完整文章)"
  = py " " ++ LinkedInAdapter.marker.
Proof. vm_compute. reflexivity. Qed.

(** C5, as the adapters have it. For a text longer than [max_length], let
    [budget] be its first [max_length] characters and let [space],
    [sentence] and [paragraph] be the highest indices in [budget] of a
    space, of a sentence end (one of ". ", "! ", "? ") and of a paragraph
    break ([-1] when there is none). Facebook and Instagram cut at
    [space] when it is positive, wherever it lies in the budget, and at
    [max_length] otherwise, and look for no paragraph or sentence;
    YouTube cuts behind the punctuation mark at [sentence] when
    [sentence] exceeds the product [max_length * 0.7] that Python computes
    in double precision ([gt_70_percent]) and then appends no marker, and
    cuts as Facebook otherwise; LinkedIn cuts at [paragraph] when a
    paragraph break occurs in [text[:max_length - 50]] and [paragraph]
    exceeds that product, else behind the mark at [sentence] when
    [sentence] exceeds it, else as Facebook. [text[:max_length - 50]] is
    the first [max_length - 50] characters for a budget of 50 or more,
    and the text without its last [50 - max_length] characters for a
    smaller budget. The prefix is stripped on both sides and, YouTube's
    sentence cut apart, the adapter's marker follows. *)
Theorem truncate_text_cut_points (text : str) (max_length : Z) :
  1 <= max_length -> max_length < len text ->
  let budget := slice_to text max_length in
  exists space sentence paragraph : Z,
    last_occurrence budget [py " "] space
    /\ last_occurrence budget [py ". "; py "! "; py "? "] sentence
    /\ last_occurrence budget [LinkedInAdapter.para] paragraph
    /\ let word_cut :=
         strip (if 0 <? space then slice_to budget space else budget) in
       let sentence_cut := strip (slice_to budget (sentence + 1)) in
       FacebookAdapter._truncate_text text max_length
         = word_cut ++ FacebookAdapter.marker
       /\ InstagramAdapter._truncate_text text max_length
         = word_cut ++ InstagramAdapter.marker
       /\ YouTubeAdapter._truncate_text text max_length
         = (if gt_70_percent sentence max_length then sentence_cut
            else word_cut ++ YouTubeAdapter.marker)
       /\ LinkedInAdapter._truncate_text text max_length
         = (if contains (slice_to text (max_length - 50)) LinkedInAdapter.para
               && gt_70_percent paragraph max_length
            then strip (slice_to budget paragraph) ++ LinkedInAdapter.marker
            else if gt_70_percent sentence max_length
            then sentence_cut ++ py " " ++ LinkedInAdapter.marker
            else word_cut ++ LinkedInAdapter.marker)
       /\ slice_to text (max_length - 50)
          = take (Z.to_nat (if 50 <=? max_length then max_length - 50
                            else len text - (50 - max_length))) text.
Proof.
  intros Hm Hlen budget.
  exists (rfind budget (py " ")),
    (Z.max (Z.max (rfind budget (py ". ")) (rfind budget (py "! ")))
       (rfind budget (py "? "))),
    (rfind budget LinkedInAdapter.para).
  split; [apply rfind_last_occurrence|].
  split; [apply rfind_sentence_last_occurrence|].
  split; [apply rfind_last_occurrence|].
  unfold FacebookAdapter._truncate_text, InstagramAdapter._truncate_text,
    YouTubeAdapter._truncate_text, LinkedInAdapter._truncate_text,
    FacebookAdapter.marker, InstagramAdapter.marker, YouTubeAdapter.marker.
  destruct (Z.leb_spec (len text) max_length); [lia|].
  cbv zeta. fold budget. rewrite linkedin_sentence_marker.
  unfold LinkedInAdapter.marker.
  split; [reflexivity|]. split; [reflexivity|]. split; [reflexivity|].
  split.
  - destruct (contains _ _); [|reflexivity]. cbn [andb].
    destruct (gt_70_percent (rfind budget LinkedInAdapter.para) max_length);
      reflexivity.
  - unfold slice_to.
    destruct (Z.leb_spec 0 (max_length - 50)), (Z.leb_spec 50 max_length);
      try lia; f_equal; lia.
Qed.

Lemma truncate_text_cut_points_witness :
  exists space sentence paragraph : Z,
    last_occurrence (slice_to (py "One. Two three four") 12) [py " "] space
    /\ last_occurrence (slice_to (py "One. Two three four") 12)
         [py ". "; py "! "; py "? "] sentence
    /\ last_occurrence (slice_to (py "One. Two three four") 12)
         [LinkedInAdapter.para] paragraph
    /\ FacebookAdapter._truncate_text (py "One. Two three four") 12
       = strip (if 0 <? space
                then slice_to (slice_to (py "One. Two three four") 12) space
                else slice_to (py "One. Two three four") 12)
         ++ FacebookAdapter.marker.
Proof.
  destruct (truncate_text_cut_points (py "One. Two three four") 12)
    as (space & sentence & paragraph & Hs & Hse & Hp & Hf & _);
    [lia|vm_compute; reflexivity|].
  exists space, sentence, paragraph. auto.
Defined.

(** At a budget of 90 YouTube cuts behind the sentence that ends at
    index 63, which the double product [90 * 0.7] lies just below. *)
Lemma youtube_truncate_budget_90 :
  YouTubeAdapter._truncate_text
    (replicate 63 97%N ++ py ". " ++ replicate 40 98%N) 90
  = replicate 63 97%N ++ py ".".
Proof. vm_compute. reflexivity. Qed.

(** C5 as stated fails: Facebook's truncation hard-cuts a text at
    [max_length] although a paragraph break lies in the last 30% of the
    budget, where the truncation of the specification cuts. *)
Lemma truncate_text_priority_counterexample :
  FacebookAdapter._truncate_text (py "aaaaaaaaa

bbbbbbbb") 12
  <> TruncationEngine.truncate FacebookAdapter.marker (py "aaaaaaaaa

bbbbbbbb") 12.
Proof. vm_compute. discriminate. Qed.

(** ** Hashtags *)

Section hashtags.
Context `{Unicode}.

(** The merged list never exceeds the cap of the platform. *)
Lemma merge_hashtags_cap (max_hashtags : Z) (text_hashtags : list str)
    (existing_hashtags : option (list str)) :
  0 <= max_hashtags ->
  llen (merge_hashtags max_hashtags text_hashtags existing_hashtags)
  <= max_hashtags.
Proof.
  intros Hm. unfold merge_hashtags.
  match goal with
  | |- llen (if _ <? llen ?l then _ else _) <= _ =>
      generalize l; intros all_hashtags
  end.
  destruct (Z.ltb_spec max_hashtags (llen all_hashtags)); [|lia].
  unfold llen. rewrite length_take. lia.
Qed.

Lemma adapt_hashtags_cap (text : str) (existing_hashtags : option (list str)) :
  llen (FacebookAdapter._adapt_hashtags text existing_hashtags).2
    <= FacebookAdapter.MAX_HASHTAGS
  /\ llen (InstagramAdapter._adapt_hashtags text existing_hashtags).2
    <= InstagramAdapter.MAX_HASHTAGS
  /\ llen (LinkedInAdapter._adapt_hashtags text existing_hashtags).2
    <= LinkedInAdapter.MAX_HASHTAGS.
Proof.
  unfold FacebookAdapter._adapt_hashtags, InstagramAdapter._adapt_hashtags,
    LinkedInAdapter._adapt_hashtags.
  repeat split.
  - destruct (_ <? _); apply merge_hashtags_cap; done.
  - destruct (_ && _); apply merge_hashtags_cap; done.
  - apply merge_hashtags_cap; done.
Qed.

(** C6 at a text that repeats an inline tag: the three adapters answer
    the tag twice, within the cap. *)
Theorem adapt_hashtags_repeated_inline_tag :
  let text := py "#sale and again #sale" in
  (FacebookAdapter._adapt_hashtags text None).2 = [py "sale"; py "sale"]
  /\ (InstagramAdapter._adapt_hashtags text None).2 = [py "sale"; py "sale"]
  /\ (LinkedInAdapter._adapt_hashtags text None).2 = [py "sale"; py "sale"]
  /\ ~ NoDup [py "sale"; py "sale"].
Proof.
  repeat split; try (vm_compute; reflexivity).
  intros Hnd. apply NoDup_cons in Hnd as [Hnotin _].
  apply Hnotin. by apply list_elem_of_singleton.
Qed.

(** The explicit tags are filtered against the inline ones only: a tag
    repeated in the explicit list is answered twice as well. *)
Lemma adapt_hashtags_repeated_explicit_tag :
  (FacebookAdapter._adapt_hashtags (py "new") (Some [py "sale"; py "sale"])).2
  = [py "sale"; py "sale"].
Proof. vm_compute. reflexivity. Qed.

End hashtags.

(** ** The dispatcher *)

Section dispatcher.
Context `{Unicode}.
Import PlatformAdapter.
Variable call : bound_method -> gmap str value -> option value
                -> res (gmap str value).

(** No adapter class binds the name [adapt]. *)
Lemma no_adapt_method (c : py_class) :
  c ∈ [InstagramAdapter_class; FacebookAdapter_class; LinkedInAdapter_class;
       YouTubeAdapter_class] ->
  getattr c "adapt" = Raise AttributeError.
Proof.
  intros Hc. repeat (apply elem_of_cons in Hc as [->|Hc]; [by vm_compute|]).
  by apply elem_of_nil in Hc.
Qed.

(** C1 on the code: for a platform name that lower-cases to one of the
    four registered names, [adapt_content] looks the method [adapt] up on
    the adapter, which none of the four classes defines, and the call
    raises [AttributeError] instead of answering the adapter's result. *)
Theorem adapt_content_registered_raises (content : gmap str value)
    (platform : str) (business_info : option value) :
  lower platform ∈ [py "facebook"; py "instagram"; py "linkedin"; py "youtube"] ->
  adapt_content call content platform business_info = Raise AttributeError.
Proof.
  intros Hp. unfold adapt_content.
  repeat (apply elem_of_cons in Hp as [->|Hp]; [by vm_compute|]).
  by apply elem_of_nil in Hp.
Qed.

(** The fallback: for any other platform name, a content dictionary whose
    notes are absent or a string comes back labelled with the lower-cased
    name and with the notice appended to its notes. *)
Lemma adapt_content_generic_fallback (content : gmap str value)
    (platform : str) (business_info : option value) (notes : str) :
  lower platform ∉ [py "facebook"; py "instagram"; py "linkedin"; py "youtube"] ->
  content !! py "notes" = None /\ notes = []
  \/ content !! py "notes" = Some (VStr notes) ->
  adapt_content call content platform business_info
  = Ok (<[py "notes" :=
            VStr (notes ++ py "
This content has been generically adapted for " ++ lower platform ++ py ".")]>
          (<[py "platform" := VStr (lower platform)]> content)).
Proof.
  intros Hp Hnotes. unfold adapt_content.
  assert (adapters !! lower platform = None) as ->.
  { unfold adapters. apply not_elem_of_list_to_map_1. simpl.
    intros Hin. apply Hp.
    repeat (apply elem_of_cons in Hin as [->|Hin];
            [repeat constructor|]).
    by apply elem_of_nil in Hin. }
  unfold _generic_adapt.
  assert (py "notes" <> py "platform") as Hne by (by vm_compute).
  rewrite lookup_insert_ne by done.
  destruct Hnotes as [[Hn ->]|Hn]; rewrite Hn.
  - rewrite lookup_insert_eq. simpl. f_equal.
    by rewrite insert_insert_eq.
  - rewrite lookup_insert_ne by done. rewrite Hn. simpl. done.
Qed.

End dispatcher.

Lemma adapt_content_registered_raises_witness :
  @lower ascii_unicode (py "FaceBook")
    ∈ [py "facebook"; py "instagram"; py "linkedin"; py "youtube"]
  /\ @PlatformAdapter.adapt_content ascii_unicode
       (fun _ content _ => Ok content) ∅ (py "FaceBook") None
     = Raise AttributeError.
Proof.
  assert (@lower ascii_unicode (py "FaceBook")
            ∈ [py "facebook"; py "instagram"; py "linkedin"; py "youtube"])
    as Hin by (vm_compute; constructor).
  split; [exact Hin|].
  exact (@adapt_content_registered_raises ascii_unicode
           (fun _ content _ => Ok content) ∅ (py "FaceBook") None Hin).
Defined.

(** ** Entry points that raise *)

Section raising.
Context `{Unicode}.

(** C2 on the code. Instagram's video adaptation compares the duration
    with the feed limit while building its metadata, also when the
    duration is absent, and raises [TypeError]; YouTube's thumbnail
    adaptation assigns [thumbnail_url], which is no field of
    [VideoContent], when the image URL has an accepted format, and raises
    [ValueError]. *)
Theorem adapters_raise_on_well_formed_items :
  (forall (item : ContentItem.t) (vc : VideoContent.t),
      ContentItem.video_content item = Some vc ->
      VideoContent.duration_seconds vc = None ->
      InstagramAdapter.adapt_video_content item = Raise TypeError
      /\ InstagramAdapter.adapt_content
           (ContentItem.set_content_type item VIDEO) = Raise TypeError)
  /\ (forall (item : ContentItem.t) (ic : ImageContent.t) (url : str),
        ContentItem.image_content item = Some ic ->
        ImageContent.image_url ic = Some url ->
        (YouTubeAdapter._check_thumbnail_format url).1 = true ->
        YouTubeAdapter.adapt_to_thumbnail item = Raise ValueError).
Proof.
  split.
  - assert (forall (item : ContentItem.t) (vc : VideoContent.t),
               ContentItem.video_content item = Some vc ->
               VideoContent.duration_seconds vc = None ->
               InstagramAdapter.adapt_video_content item = Raise TypeError)
      as Hr.
    { intros item vc Hvc Hd.
      unfold InstagramAdapter.adapt_video_content. rewrite Hvc.
      destruct (InstagramAdapter._adapt_hashtags _ None) as [d hs].
      rewrite Hd. reflexivity. }
    intros item vc Hvc Hd. split; [by apply (Hr item vc)|].
    unfold InstagramAdapter.adapt_content.
    cbn [ContentItem.set_content_type ContentItem.content_type].
    by apply (Hr _ vc).
  - intros item ic url Hic Hurl Hfmt.
    unfold YouTubeAdapter.adapt_to_thumbnail. rewrite Hic, Hurl.
    destruct url as [|c u].
    + unfold YouTubeAdapter._check_thumbnail_format in Hfmt. simpl in Hfmt.
      discriminate.
    + destruct (YouTubeAdapter._check_thumbnail_format (c :: u)) as [b m].
      simpl in Hfmt. subst b. reflexivity.
Qed.

End raising.

Lemma adapters_raise_on_well_formed_items_witness :
  let vc :=
    {| VideoContent.title := py "Launch"; VideoContent.script := py "Intro";
       VideoContent.description := Some (py "Our launch video");
       VideoContent.thumbnail_prompt := None;
       VideoContent.duration_seconds := None;
       VideoContent.video_url := None |} in
  let item :=
    {| ContentItem.id := py "c1"; ContentItem.brand_id := py "b1";
       ContentItem.platform := INSTAGRAM; ContentItem.content_type := VIDEO;
       ContentItem.created_at := 0; ContentItem.updated_at := 0;
       ContentItem.text_content := None; ContentItem.image_content := None;
       ContentItem.video_content := Some vc;
       ContentItem.raw_request := None |} in
  let ic :=
    {| ImageContent.prompt := py "a product photo";
       ImageContent.image_url := Some (py "https://example.com/p.png");
       ImageContent.alt_text := None; ImageContent.caption := None |} in
  let image :=
    {| ContentItem.id := py "c2"; ContentItem.brand_id := py "b1";
       ContentItem.platform := YOUTUBE; ContentItem.content_type := IMAGE;
       ContentItem.created_at := 0; ContentItem.updated_at := 0;
       ContentItem.text_content := None; ContentItem.image_content := Some ic;
       ContentItem.video_content := None;
       ContentItem.raw_request := None |} in
  @InstagramAdapter.adapt_video_content ascii_unicode item = Raise TypeError
  /\ @YouTubeAdapter.adapt_to_thumbnail ascii_unicode image = Raise ValueError.
Proof.
  intros vc item ic image.
  destruct (@adapters_raise_on_well_formed_items ascii_unicode) as [Hi Hy].
  split.
  - apply (Hi item vc); reflexivity.
  - apply (Hy image ic (py "https://example.com/p.png")); reflexivity.
Defined.

(** ** Construction of a content item *)

Section construction.
Import ContentItemModel.

Lemma field_errors_grow {A} name (a : arg A) default validator put st :
  errors st <> [] -> errors (field name a default validator put st) <> [].
Proof.
  intros Hne. unfold field.
  destruct a as [|v]; [destruct default|destruct (validator v (vals st))];
    simpl; try done; by destruct (errors st).
Qed.

(** Giving the payload of the declared content type makes a field fail. *)
Lemma validate_model_rejects_matching_payload now kw ct :
  content_type kw = Given ct ->
  match ct with
  | TEXT => text_content kw <> Missing
  | IMAGE => image_content kw <> Missing
  | VIDEO => video_content kw <> Missing
  | _ => False
  end ->
  errors (validate_model now kw) <> [].
Proof.
  intros Hct Hp. unfold validate_model. rewrite Hct.
  destruct (id kw) as [|i]; [by do 9 apply field_errors_grow|].
  destruct (brand_id kw) as [|b]; [by do 8 apply field_errors_grow|].
  destruct (platform kw) as [|p]; [by do 7 apply field_errors_grow|].
  destruct ct; try done.
  - destruct (text_content kw) as [|t]; [done|].
    do 3 apply field_errors_grow.
    destruct (created_at kw), (updated_at kw); simpl; done.
  - destruct (image_content kw) as [|im]; [done|].
    do 2 apply field_errors_grow.
    destruct (created_at kw), (updated_at kw), (text_content kw); simpl; done.
  - destruct (video_content kw) as [|vi]; [done|].
    apply field_errors_grow.
    destruct (created_at kw), (updated_at kw), (text_content kw),
      (image_content kw); simpl; done.
Qed.

(** C3 on the code. The validator runs for a payload field only when the
    field is given, and then [values] does not hold that field yet: a
    construction that gives the payload of the declared content type is
    rejected, and one that gives no payload at all is accepted, with all
    three payloads [None]. *)
Theorem content_item_validation_inverted (now : datetime) (kw : kwargs)
    (ct : ContentType) :
  ct ∈ [TEXT; IMAGE; VIDEO] ->
  content_type kw = Given ct ->
  (match ct with
   | TEXT => text_content kw <> Missing
   | IMAGE => image_content kw <> Missing
   | _ => video_content kw <> Missing
   end ->
   construct now kw = Raise ValidationError)
  /\ (forall i b p,
        id kw = Given i -> brand_id kw = Given b -> platform kw = Given p ->
        text_content kw = Missing -> image_content kw = Missing ->
        video_content kw = Missing ->
        exists item,
          construct now kw = Ok item
          /\ ContentItem.content_type item = ct
          /\ ContentItem.text_content item = None
          /\ ContentItem.image_content item = None
          /\ ContentItem.video_content item = None
          /\ ~ payload_matches item).
Proof.
  intros Hin Hct. split.
  - intros Hp. unfold construct.
    pose proof (validate_model_rejects_matching_payload now kw ct Hct) as He.
    destruct (errors (validate_model now kw)); [|done].
    exfalso. apply He; [|done].
    repeat (apply elem_of_cons in Hin as [->|Hin]; [done|]).
    by apply elem_of_nil in Hin.
  - intros i b p Hi Hb Hpl Ht Him Hv.
    unfold construct, validate_model.
    rewrite Hi, Hb, Hpl, Hct, Ht, Him, Hv.
    destruct (created_at kw), (updated_at kw), (raw_request kw);
      (repeat (apply elem_of_cons in Hin as [->|Hin];
               [simpl; eexists; repeat split; try reflexivity;
                unfold payload_matches; simpl; by intros [? ?]|]);
       by apply elem_of_nil in Hin).
Qed.

End construction.

Lemma content_item_validation_inverted_witness :
  let given :=
    {| ContentItemModel.id := ContentItemModel.Given (py "c1");
       ContentItemModel.brand_id := ContentItemModel.Given (py "b1");
       ContentItemModel.platform := ContentItemModel.Given FACEBOOK;
       ContentItemModel.content_type := ContentItemModel.Given TEXT;
       ContentItemModel.created_at := ContentItemModel.Missing;
       ContentItemModel.updated_at := ContentItemModel.Missing;
       ContentItemModel.text_content :=
         ContentItemModel.Given
           (Some {| TextContent.text := py "hello";
                    TextContent.hashtags := None;
                    TextContent.mentions := None |});
       ContentItemModel.image_content := ContentItemModel.Missing;
       ContentItemModel.video_content := ContentItemModel.Missing;
       ContentItemModel.raw_request := ContentItemModel.Missing |} in
  ContentItemModel.construct 0 given = Raise ValidationError.
Proof.
  intros given.
  apply (content_item_validation_inverted 0 given TEXT).
  - apply elem_of_cons. by left.
  - reflexivity.
  - discriminate.
Defined.

(** ** Content within the limits *)

Section within_limits.
Context `{Unicode}.

Lemma capitalize_ascii_id (title : str) :
  (forall c rest, title = c :: rest -> is_ascii_lower c = false) ->
  YouTubeAdapter.capitalize_ascii title = title.
Proof.
  intros Hc. destruct title as [|c rest]; [done|]. simpl.
  by rewrite (Hc c rest).
Qed.

Lemma or_empty_some (d : str) : or_empty (Some d) = d.
Proof. by destruct d. Qed.

Lemma facebook_hashtags_keep (text : str) (explicit : option (list str)) :
  llen (re.findall_hashtag text) <= FacebookAdapter.MAX_HASHTAGS ->
  (FacebookAdapter._adapt_hashtags text explicit).1 = text.
Proof.
  intros Htags. unfold FacebookAdapter._adapt_hashtags.
  by destruct (Z.ltb_spec FacebookAdapter.MAX_HASHTAGS
                 (llen (re.findall_hashtag text))); [lia|].
Qed.

Lemma instagram_hashtags_keep (text : str) (explicit : option (list str)) :
  llen (re.findall_hashtag text) <= 3 ->
  (InstagramAdapter._adapt_hashtags text explicit).1 = text.
Proof.
  intros Htags. unfold InstagramAdapter._adapt_hashtags.
  destruct (Z.ltb_spec 3 (llen (re.findall_hashtag text))); [lia|].
  by rewrite andb_false_r.
Qed.

Lemma linkedin_length_keep (text : str) :
  len text <= LinkedInAdapter.MAX_ARTICLE_LENGTH ->
  (if LinkedInAdapter.is_article text
   then LinkedInAdapter._adapt_article_length text
   else LinkedInAdapter._adapt_post_length text) = text.
Proof.
  intros Hlen. destruct (LinkedInAdapter.is_article _) eqn:Ea.
  - unfold LinkedInAdapter._adapt_article_length.
    apply Z.leb_le in Hlen. by rewrite Hlen.
  - unfold LinkedInAdapter._adapt_post_length.
    unfold LinkedInAdapter.is_article in Ea.
    apply orb_false_iff in Ea as [_ Ea%Z.ltb_ge].
    destruct (Z.leb_spec (len text) LinkedInAdapter.MAX_POST_LENGTH)
      as [|Hgt]; [done|].
    unfold LinkedInAdapter.MAX_POST_LENGTH in Hgt. lia.
Qed.

Lemma adapt_description_keep `{Patterns} (description : str) :
  len description <= YouTubeAdapter.MAX_DESCRIPTION_LENGTH ->
  YouTubeAdapter._adapt_description description = description.
Proof.
  intros Hlen. unfold YouTubeAdapter._adapt_description.
  destruct description as [|c d]; [done|]. cbn [truthy_str negb].
  by destruct (Z.ltb_spec YouTubeAdapter.MAX_DESCRIPTION_LENGTH
                 (len (c :: d))); [lia|].
Qed.

(** The captions of images within the limits. *)
Lemma image_captions_within_limits (item : ContentItem.t)
    (ic : ImageContent.t) (caption : str) :
  ContentItem.image_content item = Some ic ->
  ImageContent.caption ic = Some caption ->
  (llen (re.findall_hashtag caption) <= FacebookAdapter.MAX_HASHTAGS ->
   exists r ic',
     FacebookAdapter.adapt_image_content item = Ok r
     /\ AdaptationResult.success r = true
     /\ ContentItem.image_content (AdaptationResult.content r) = Some ic'
     /\ ImageContent.caption ic' = Some caption)
  /\ (len caption <= InstagramAdapter.MAX_CAPTION_LENGTH ->
      llen (re.findall_hashtag caption) <= 3 ->
      exists r ic',
        InstagramAdapter.adapt_image_content item = Ok r
        /\ AdaptationResult.success r = true
        /\ ContentItem.image_content (AdaptationResult.content r) = Some ic'
        /\ ImageContent.caption ic' = Some caption)
  /\ (len caption <= LinkedInAdapter.MAX_ARTICLE_LENGTH ->
      exists r ic',
        LinkedInAdapter.adapt_image_content item = Ok r
        /\ AdaptationResult.success r = true
        /\ ContentItem.image_content (AdaptationResult.content r) = Some ic'
        /\ ImageContent.caption ic' = Some caption).
Proof.
  intros Hic Hcap. split; [|split].
  - intros Htags. unfold FacebookAdapter.adapt_image_content.
    rewrite Hic, Hcap, or_empty_some.
    pose proof (facebook_hashtags_keep caption None Htags) as Hkeep.
    destruct (FacebookAdapter._adapt_hashtags caption None) as [t hs].
    cbn [fst] in Hkeep. subst t.
    match goal with
    | |- context [let '(a, b) := ?p in _] => destruct p as [v m]
    end.
    eexists _, _. repeat split; reflexivity.
  - intros Hlen Htags. unfold InstagramAdapter.adapt_image_content.
    rewrite Hic, Hcap, or_empty_some.
    unfold InstagramAdapter._adapt_caption_length.
    apply Z.leb_le in Hlen. rewrite Hlen.
    pose proof (instagram_hashtags_keep caption None Htags) as Hkeep.
    destruct (InstagramAdapter._adapt_hashtags caption None) as [t hs].
    cbn [fst] in Hkeep. subst t.
    match goal with
    | |- context [let '(a, b) := ?p in _] => destruct p as [v m]
    end.
    eexists _, _. repeat split; reflexivity.
  - intros Hlen. unfold LinkedInAdapter.adapt_image_content.
    rewrite Hic, Hcap, or_empty_some.
    rewrite (linkedin_length_keep caption Hlen).
    unfold LinkedInAdapter._adapt_hashtags.
    match goal with
    | |- context [let '(a, b) := ?p in _] => destruct p as [v m]
    end.
    eexists _, _. repeat split; reflexivity.
Qed.

(** The titles and descriptions of videos within the limits. *)
Lemma video_texts_within_limits `{Patterns} (item : ContentItem.t)
    (vc : VideoContent.t) :
  ContentItem.video_content item = Some vc ->
  (exists r vc',
     FacebookAdapter.adapt_video_content item = Ok r
     /\ AdaptationResult.success r = true
     /\ ContentItem.video_content (AdaptationResult.content r) = Some vc'
     /\ (len (VideoContent.title vc) <= FacebookAdapter.MAX_TITLE_LENGTH ->
         VideoContent.title vc' = VideoContent.title vc)
     /\ (forall d,
           VideoContent.description vc = Some d ->
           len d <= FacebookAdapter.MAX_DESCRIPTION_LENGTH ->
           VideoContent.description vc' = Some d))
  /\ (exists r vc',
        LinkedInAdapter.adapt_video_content item = Ok r
        /\ AdaptationResult.success r = true
        /\ ContentItem.video_content (AdaptationResult.content r) = Some vc'
        /\ (len (VideoContent.title vc) <= LinkedInAdapter.MAX_TITLE_LENGTH ->
            VideoContent.title vc' = VideoContent.title vc)
        /\ (forall d,
              VideoContent.description vc = Some d ->
              len d <= LinkedInAdapter.MAX_DESCRIPTION_LENGTH ->
              VideoContent.description vc' = Some d))
  /\ (forall n d,
        VideoContent.duration_seconds vc = Some n ->
        VideoContent.description vc = Some d ->
        len d <= InstagramAdapter.MAX_CAPTION_LENGTH ->
        llen (re.findall_hashtag d) <= 3 ->
        exists r vc',
          InstagramAdapter.adapt_video_content item = Ok r
          /\ AdaptationResult.success r = true
          /\ ContentItem.video_content (AdaptationResult.content r) = Some vc'
          /\ VideoContent.title vc' = VideoContent.title vc
          /\ VideoContent.description vc' = Some d)
  /\ (exists r vc',
        YouTubeAdapter.adapt_video_content item = Ok r
        /\ AdaptationResult.success r = true
        /\ ContentItem.video_content (AdaptationResult.content r) = Some vc'
        /\ VideoContent.title vc'
           = YouTubeAdapter._adapt_title (VideoContent.title vc)
        /\ (forall d,
              VideoContent.description vc = Some d ->
              len d <= YouTubeAdapter.MAX_DESCRIPTION_LENGTH ->
              VideoContent.description vc' = Some d)).
Proof.
  intros Hvc. split; [|split; [|split]].
  - unfold FacebookAdapter.adapt_video_content. rewrite Hvc.
    match goal with
    | |- context [let '(a, b) := ?p in _] => destruct p as [v m]
    end.
    eexists _, _. split; [reflexivity|]. split; [reflexivity|].
    split; [reflexivity|].
    cbn [VideoContent.title VideoContent.description
           VideoContent.set_title VideoContent.set_description].
    split.
    + intros Hl%Z.leb_le. unfold FacebookAdapter._truncate_text.
      by rewrite Hl.
    + intros d -> Hl%Z.leb_le. rewrite or_empty_some.
      unfold FacebookAdapter._truncate_text. by rewrite Hl.
  - unfold LinkedInAdapter.adapt_video_content. rewrite Hvc.
    unfold LinkedInAdapter._adapt_hashtags.
    match goal with
    | |- context [let '(a, b) := ?p in _] => destruct p as [v m]
    end.
    eexists _, _. split; [reflexivity|]. split; [reflexivity|].
    split; [reflexivity|].
    cbn [VideoContent.title VideoContent.description
           VideoContent.set_title VideoContent.set_description].
    split.
    + intros Hl%Z.leb_le. unfold LinkedInAdapter._truncate_text.
      by rewrite Hl.
    + intros d -> Hl%Z.leb_le. rewrite or_empty_some.
      unfold LinkedInAdapter._truncate_text. by rewrite Hl.
  - intros n d Hn Hd Hlen Htags.
    unfold InstagramAdapter.adapt_video_content.
    rewrite Hvc, Hd, or_empty_some, Hn.
    unfold InstagramAdapter._adapt_caption_length.
    apply Z.leb_le in Hlen. rewrite Hlen.
    pose proof (instagram_hashtags_keep d None Htags) as Hkeep.
    destruct (InstagramAdapter._adapt_hashtags d None) as [t hs].
    cbn [fst] in Hkeep. subst t.
    match goal with
    | |- context [let '(a, b) := ?p in _] => destruct p as [v m]
    end.
    cbn [InstagramAdapter.gt_optional mbind res_bind].
    eexists _, _. repeat split; reflexivity.
  - unfold YouTubeAdapter.adapt_video_content. rewrite Hvc.
    match goal with
    | |- context [let '(a, b) := ?p in _] => destruct p as [v m]
    end.
    eexists _, _. split; [reflexivity|]. split; [reflexivity|].
    split; [reflexivity|].
    cbn [VideoContent.title VideoContent.description
           VideoContent.set_title VideoContent.set_description].
    split; [reflexivity|].
    intros d -> Hl. rewrite or_empty_some.
    by rewrite adapt_description_keep.
Qed.

(** A text within the limit, made a video description by YouTube. *)
Lemma description_within_limits `{Patterns} (item : ContentItem.t)
    (tc : TextContent.t) :
  ContentItem.text_content item = Some tc ->
  len (TextContent.text tc) <= YouTubeAdapter.MAX_DESCRIPTION_LENGTH ->
  exists r vc,
    YouTubeAdapter.adapt_to_description item = Ok r
    /\ AdaptationResult.success r = true
    /\ ContentItem.video_content (AdaptationResult.content r) = Some vc
    /\ VideoContent.description vc = Some (TextContent.text tc).
Proof.
  intros Htc Hlen. unfold YouTubeAdapter.adapt_to_description.
  rewrite Htc. rewrite (adapt_description_keep _ Hlen).
  cbn [ContentItem.set_content_type ContentItem.video_content].
  destruct (ContentItem.video_content item) as [vc|];
    (eexists _, _; repeat split; reflexivity).
Qed.

(** An image made a thumbnail by YouTube keeps its payload, the caption
    with it, whenever the method returns. *)
Lemma thumbnail_keeps_image (item : ContentItem.t) (ic : ImageContent.t)
    (r : AdaptationResult.t) :
  ContentItem.image_content item = Some ic ->
  YouTubeAdapter.adapt_to_thumbnail item = Ok r ->
  ContentItem.image_content (AdaptationResult.content r) = Some ic.
Proof.
  intros Hic. unfold YouTubeAdapter.adapt_to_thumbnail. rewrite Hic.
  assert (forall (c : ContentItem.t) (v : VideoContent.t) m,
            ContentItem.image_content c = Some ic ->
            ContentItem.image_content
              (AdaptationResult.content
                 (succeed (ContentItem.set_video_content
                             (ContentItem.set_content_type c VIDEO) (Some v))
                    m)) = Some ic) as Hkeep by done.
  destruct (ImageContent.image_url ic) as [[|c u]|].
  - intros [= <-]. by apply Hkeep.
  - destruct (YouTubeAdapter._check_thumbnail_format (c :: u)) as [[|] m].
    + intros [=].
    + intros [= <-]. by apply Hkeep.
  - intros [= <-]. by apply Hkeep.
Qed.

(** C10, as the adapters have it. A text within the limits of the
    platform comes back from the adaptation as it was, on every path but
    two. Texts: on Facebook when the text carries at most [MAX_HASHTAGS]
    (5) inline hashtags, with [is_within_limits] true; on Instagram when
    it carries at most 3 inline hashtags, the count beyond which a caption
    is rewritten with the hashtags collected at its end, whatever the cap
    of 30; on LinkedIn always; on YouTube, where a text becomes the
    description of a video, always. Captions of images: under the same
    conditions on Facebook, Instagram and LinkedIn. Videos: the title and
    the description on Facebook and LinkedIn, the description on Instagram
    (at most 3 inline hashtags, and a duration, without which the method
    raises), the description on YouTube; an image made a thumbnail by
    YouTube keeps its caption. The exception is the title of a
    YouTube video: it comes back as it was when it is not empty and does
    not begin with one of the letters a to z; a title that begins with
    such a letter comes back with that letter in upper case, and the
    empty title is replaced by a placeholder. *)
Theorem adaptation_within_limits `{Patterns} :
  (forall (item : ContentItem.t) (tc : TextContent.t),
      ContentItem.text_content item = Some tc ->
      len (TextContent.text tc) <= FacebookAdapter.MAX_POST_LENGTH ->
      llen (re.findall_hashtag (TextContent.text tc))
        <= FacebookAdapter.MAX_HASHTAGS ->
      exists r tc' m,
        FacebookAdapter.adapt_text_content item = Ok r
        /\ AdaptationResult.success r = true
        /\ ContentItem.text_content (AdaptationResult.content r) = Some tc'
        /\ TextContent.text tc' = TextContent.text tc
        /\ AdaptationResult.metadata r = Some m
        /\ meta_get "is_within_limits" m = Some (MBool true))
  /\ (forall (item : ContentItem.t) (tc : TextContent.t),
        ContentItem.text_content item = Some tc ->
        len (TextContent.text tc) <= InstagramAdapter.MAX_CAPTION_LENGTH ->
        llen (re.findall_hashtag (TextContent.text tc)) <= 3 ->
        exists r ic m,
          InstagramAdapter.adapt_to_caption item = Ok r
          /\ AdaptationResult.success r = true
          /\ ContentItem.image_content (AdaptationResult.content r) = Some ic
          /\ ImageContent.caption ic = Some (TextContent.text tc)
          /\ AdaptationResult.metadata r = Some m
          /\ meta_get "is_within_limits" m = Some (MBool true))
  /\ (forall (item : ContentItem.t) (tc : TextContent.t),
        ContentItem.text_content item = Some tc ->
        len (TextContent.text tc) <= LinkedInAdapter.MAX_ARTICLE_LENGTH ->
        exists r tc' m,
          LinkedInAdapter.adapt_text_content item = Ok r
          /\ AdaptationResult.success r = true
          /\ ContentItem.text_content (AdaptationResult.content r) = Some tc'
          /\ TextContent.text tc' = TextContent.text tc
          /\ AdaptationResult.metadata r = Some m
          /\ meta_get "is_within_limits" m = Some (MBool true))
  /\ (forall title : str,
        title <> [] ->
        len title <= YouTubeAdapter.MAX_TITLE_LENGTH ->
        (forall c rest, title = c :: rest -> is_ascii_lower c = false) ->
        YouTubeAdapter._adapt_title title = title)
  /\ (forall (c : char) (rest : str),
        len (c :: rest) <= YouTubeAdapter.MAX_TITLE_LENGTH ->
        is_ascii_lower c = true ->
        YouTubeAdapter._adapt_title (c :: rest) = ascii_upper c :: rest)
  /\ YouTubeAdapter._adapt_title [] = py "需要提供影片標題"
  /\ (forall description : str,
        len description <= YouTubeAdapter.MAX_DESCRIPTION_LENGTH ->
        YouTubeAdapter._adapt_description description = description)
  /\ (forall (item : ContentItem.t) (tc : TextContent.t),
        ContentItem.text_content item = Some tc ->
        len (TextContent.text tc) <= YouTubeAdapter.MAX_DESCRIPTION_LENGTH ->
        exists r vc,
          YouTubeAdapter.adapt_to_description item = Ok r
          /\ AdaptationResult.success r = true
          /\ ContentItem.video_content (AdaptationResult.content r) = Some vc
          /\ VideoContent.description vc = Some (TextContent.text tc))
  /\ (forall (item : ContentItem.t) (ic : ImageContent.t) (caption : str),
        ContentItem.image_content item = Some ic ->
        ImageContent.caption ic = Some caption ->
        (llen (re.findall_hashtag caption) <= FacebookAdapter.MAX_HASHTAGS ->
         exists r ic',
           FacebookAdapter.adapt_image_content item = Ok r
           /\ AdaptationResult.success r = true
           /\ ContentItem.image_content (AdaptationResult.content r)
              = Some ic'
           /\ ImageContent.caption ic' = Some caption)
        /\ (len caption <= InstagramAdapter.MAX_CAPTION_LENGTH ->
            llen (re.findall_hashtag caption) <= 3 ->
            exists r ic',
              InstagramAdapter.adapt_image_content item = Ok r
              /\ AdaptationResult.success r = true
              /\ ContentItem.image_content (AdaptationResult.content r)
                 = Some ic'
              /\ ImageContent.caption ic' = Some caption)
        /\ (len caption <= LinkedInAdapter.MAX_ARTICLE_LENGTH ->
            exists r ic',
              LinkedInAdapter.adapt_image_content item = Ok r
              /\ AdaptationResult.success r = true
              /\ ContentItem.image_content (AdaptationResult.content r)
                 = Some ic'
              /\ ImageContent.caption ic' = Some caption))
  /\ (forall (item : ContentItem.t) (vc : VideoContent.t),
        ContentItem.video_content item = Some vc ->
        (exists r vc',
           FacebookAdapter.adapt_video_content item = Ok r
           /\ AdaptationResult.success r = true
           /\ ContentItem.video_content (AdaptationResult.content r)
              = Some vc'
           /\ (len (VideoContent.title vc)
                 <= FacebookAdapter.MAX_TITLE_LENGTH ->
               VideoContent.title vc' = VideoContent.title vc)
           /\ (forall d,
                 VideoContent.description vc = Some d ->
                 len d <= FacebookAdapter.MAX_DESCRIPTION_LENGTH ->
                 VideoContent.description vc' = Some d))
        /\ (exists r vc',
              LinkedInAdapter.adapt_video_content item = Ok r
              /\ AdaptationResult.success r = true
              /\ ContentItem.video_content (AdaptationResult.content r)
                 = Some vc'
              /\ (len (VideoContent.title vc)
                    <= LinkedInAdapter.MAX_TITLE_LENGTH ->
                  VideoContent.title vc' = VideoContent.title vc)
              /\ (forall d,
                    VideoContent.description vc = Some d ->
                    len d <= LinkedInAdapter.MAX_DESCRIPTION_LENGTH ->
                    VideoContent.description vc' = Some d))
        /\ (forall n d,
              VideoContent.duration_seconds vc = Some n ->
              VideoContent.description vc = Some d ->
              len d <= InstagramAdapter.MAX_CAPTION_LENGTH ->
              llen (re.findall_hashtag d) <= 3 ->
              exists r vc',
                InstagramAdapter.adapt_video_content item = Ok r
                /\ AdaptationResult.success r = true
                /\ ContentItem.video_content (AdaptationResult.content r)
                   = Some vc'
                /\ VideoContent.title vc' = VideoContent.title vc
                /\ VideoContent.description vc' = Some d)
        /\ (exists r vc',
              YouTubeAdapter.adapt_video_content item = Ok r
              /\ AdaptationResult.success r = true
              /\ ContentItem.video_content (AdaptationResult.content r)
                 = Some vc'
              /\ VideoContent.title vc'
                 = YouTubeAdapter._adapt_title (VideoContent.title vc)
              /\ (forall d,
                    VideoContent.description vc = Some d ->
                    len d <= YouTubeAdapter.MAX_DESCRIPTION_LENGTH ->
                    VideoContent.description vc' = Some d)))
  /\ (forall (item : ContentItem.t) (ic : ImageContent.t)
        (r : AdaptationResult.t),
        ContentItem.image_content item = Some ic ->
        YouTubeAdapter.adapt_to_thumbnail item = Ok r ->
        ContentItem.image_content (AdaptationResult.content r) = Some ic).
Proof.
  repeat apply conj.
  - intros item tc Htc Hlen Htags.
    unfold FacebookAdapter.adapt_text_content. rewrite Htc.
    unfold FacebookAdapter._adapt_text_length.
    apply Z.leb_le in Hlen as Hlen'. rewrite Hlen'.
    unfold FacebookAdapter._adapt_hashtags.
    destruct (Z.ltb_spec FacebookAdapter.MAX_HASHTAGS
                (llen (re.findall_hashtag (TextContent.text tc)))); [lia|].
    unfold FacebookAdapter._adapt_mentions.
    eexists _, _, _. repeat split; try reflexivity.
    cbn [meta_get String.eqb Ascii.eqb Bool.eqb]. by rewrite Hlen'.
  - intros item tc Htc Hlen Htags.
    unfold InstagramAdapter.adapt_to_caption. rewrite Htc.
    unfold InstagramAdapter._adapt_caption_length.
    apply Z.leb_le in Hlen as Hlen'. rewrite Hlen'.
    unfold InstagramAdapter._adapt_hashtags.
    destruct (Z.ltb_spec 3 (llen (re.findall_hashtag (TextContent.text tc))));
      [lia|].
    rewrite andb_false_r. unfold InstagramAdapter._adapt_mentions.
    cbn [ContentItem.set_content_type ContentItem.image_content].
    destruct (ContentItem.image_content item) as [ic|];
      (eexists _, _, _; repeat split; try reflexivity;
       cbn [meta_get String.eqb Ascii.eqb Bool.eqb]; by rewrite Hlen').
  - intros item tc Htc Hlen.
    unfold LinkedInAdapter.adapt_text_content. rewrite Htc.
    rewrite (linkedin_length_keep _ Hlen).
    unfold LinkedInAdapter._adapt_hashtags, LinkedInAdapter._adapt_mentions.
    eexists _, _, _. repeat split; try reflexivity.
    cbn [meta_get String.eqb Ascii.eqb Bool.eqb]. do 2 f_equal.
    destruct (LinkedInAdapter.is_article _) eqn:Ea.
    + by apply Z.leb_le.
    + unfold LinkedInAdapter.is_article in Ea.
      apply orb_false_iff in Ea as [_ Ea%Z.ltb_ge].
      apply Z.leb_le. unfold LinkedInAdapter.MAX_POST_LENGTH. lia.
  - intros title Hne Hlen Hc. unfold YouTubeAdapter._adapt_title.
    destruct title as [|c rest]; [done|]. cbn [truthy_str negb].
    destruct (Z.ltb_spec YouTubeAdapter.MAX_TITLE_LENGTH (len (c :: rest)));
      [lia|].
    by apply capitalize_ascii_id.
  - intros c rest Hlen Hc. unfold YouTubeAdapter._adapt_title.
    cbn [truthy_str negb].
    destruct (Z.ltb_spec YouTubeAdapter.MAX_TITLE_LENGTH (len (c :: rest)));
      [lia|].
    simpl. by rewrite Hc.
  - reflexivity.
  - apply adapt_description_keep.
  - apply description_within_limits.
  - apply image_captions_within_limits.
  - apply video_texts_within_limits.
  - apply thumbnail_keeps_image.
Qed.

End within_limits.

Lemma adaptation_within_limits_witness :
  let text := replicate 500 97%N in
  let item :=
    {| ContentItem.id := py "c1"; ContentItem.brand_id := py "b1";
       ContentItem.platform := FACEBOOK; ContentItem.content_type := TEXT;
       ContentItem.created_at := 0; ContentItem.updated_at := 0;
       ContentItem.text_content :=
         Some {| TextContent.text := text; TextContent.hashtags := None;
                 TextContent.mentions := None |};
       ContentItem.image_content := None;
       ContentItem.video_content := None;
       ContentItem.raw_request := None |} in
  (exists r tc' m,
     @FacebookAdapter.adapt_text_content ascii_unicode item = Ok r
     /\ AdaptationResult.success r = true
     /\ ContentItem.text_content (AdaptationResult.content r) = Some tc'
     /\ TextContent.text tc' = text
     /\ AdaptationResult.metadata r = Some m
     /\ meta_get "is_within_limits" m = Some (MBool true))
  /\ @YouTubeAdapter._adapt_title (py "Top 10 tips") = py "Top 10 tips".
Proof.
  intros text item.
  destruct (@adaptation_within_limits ascii_unicode ascii_patterns)
    as (Hf & _ & _ & Hy & _).
  split.
  - apply (Hf item _ eq_refl); vm_compute; discriminate.
  - apply Hy.
    + discriminate.
    + vm_compute. discriminate.
    + intros c rest [= <- _]. reflexivity.
Defined.

(** C10 as stated fails on a YouTube title within the limit: its first
    letter is put in upper case. *)
Lemma youtube_title_counterexample :
  len (py "hello world") <= YouTubeAdapter.MAX_TITLE_LENGTH
  /\ YouTubeAdapter._adapt_title (py "hello world") = py "Hello world"
  /\ YouTubeAdapter._adapt_title (py "hello world") <> py "hello world".
Proof. repeat split; vm_compute; discriminate. Qed.

(** ** The consistency score *)

Section scorer.
Context `{Unicode} `{NLTK}.
Import BrandStyleKeeper.

Lemma div_ok (a b : Q) : ~ (b == 0)%Q -> div a b = Ok (a / b)%Q.
Proof.
  intros Hb. unfold div. destruct (Qeq_bool b 0) eqn:E; [|done].
  apply Qeq_bool_iff in E. done.
Qed.

Lemma QZ_nonzero (z : Z) : z <> 0 -> ~ (QZ z == 0)%Q.
Proof.
  intros Hz Hq. unfold QZ, inject_Z, Qeq in Hq. simpl in Hq. lia.
Qed.

Lemma div_QZ (a : Q) (z : Z) : z <> 0 -> div a (QZ z) = Ok (a / QZ z)%Q.
Proof. intros Hz. by apply div_ok, QZ_nonzero. Qed.

Lemma QZ_le (a b : Z) : a <= b -> (QZ a <= QZ b)%Q.
Proof. intros Hab. unfold QZ. by rewrite <- Zle_Qle. Qed.

Lemma QZ_pos (b : Z) : 0 < b -> (0 < QZ b)%Q.
Proof. intros Hb. unfold QZ. change 0%Q with (inject_Z 0). by rewrite <- Zlt_Qlt. Qed.

Lemma ratio_unit (a b : Z) :
  0 <= a <= b -> 0 < b -> (0 <= QZ a / QZ b <= 1)%Q.
Proof.
  intros [Ha Hab] Hb. pose proof (QZ_pos b Hb) as Hbq.
  pose proof (QZ_le 0 a Ha) as Haq. pose proof (QZ_le a b Hab) as Habq.
  change (QZ 0) with 0%Q in Haq. split.
  - apply Qle_shift_div_l; [done|]. lra.
  - apply Qle_shift_div_r; [done|]. lra.
Qed.

Lemma llen_nonneg {A} (l : list A) : 0 <= llen l.
Proof. unfold llen. lia. Qed.

Lemma llen_cons_pos {A} (x : A) (l : list A) : 0 < llen (x :: l).
Proof. unfold llen. simpl. lia. Qed.

Lemma Qmax0_unit (d : Q) : (0 <= d)%Q -> (0 <= Qmax 0 (1 - d) <= 1)%Q.
Proof.
  intros Hd. split; [apply Q.le_max_l|].
  apply Q.max_lub; lra.
Qed.

Lemma check_keywords_unit (self : t) (content : str) :
  exists k kd, _check_keywords self content = Ok (k, kd) /\ (0 <= k <= 1)%Q.
Proof.
  unfold _check_keywords. destruct (brand_model self) as [bm|].
  2:{ eexists _, _. split; [done|]. lra. }
  destruct (BrandModel.keywords bm) as [|kw kws] eqn:Ek.
  { eexists _, _. split; [done|]. lra. }
  rewrite div_QZ; [|pose proof (llen_cons_pos kw kws); lia].
  eexists _, _. split; [done|]. apply ratio_unit; [|apply llen_cons_pos].
  split; [apply llen_nonneg|]. unfold llen.
  apply inj_le, List.filter_length_le.
Qed.

Lemma ideal_sentence_length_pos (attrs : list BrandStyleAttribute.t) :
  Forall BrandStyleAttribute.valid attrs ->
  (6 <= ideal_sentence_length attrs)%Q.
Proof.
  unfold ideal_sentence_length.
  match goal with
  | |- _ -> (6 <= fold_left ?f attrs ?init)%Q =>
      set (step := f);
      assert (forall l ideal, Forall BrandStyleAttribute.valid l ->
                (6 <= ideal)%Q -> (6 <= fold_left step l ideal)%Q) as Hgen
  end.
  { induction l as [|a l IH]; intros ideal Hv Hi; [done|].
    apply Forall_cons in Hv as [[Ha0 Ha1] Hv]. cbn [fold_left].
    apply IH; [done|]. unfold step.
    destruct (mem _ _); [lra|]. destruct (mem _ _); lra. }
  intros Hv. apply Hgen; [done|lra].
Qed.

Lemma check_sentence_length_unit (self : t) (content : str) :
  (forall bm, brand_model self = Some bm -> BrandModel.valid bm) ->
  exists s sd,
    _check_sentence_length self content = Ok (s, sd) /\ (0 <= s <= 1)%Q.
Proof.
  intros Hv. unfold _check_sentence_length.
  destruct (sent_tokenize content) as [|s0 ss] eqn:Es.
  { eexists _, _. split; [done|]. lra. }
  rewrite div_QZ.
  2:{ unfold llen. rewrite length_map. simpl. lia. }
  cbn [mbind res_bind].
  match goal with
  | |- context [ideal_sentence_length ?a] =>
      assert (6 <= ideal_sentence_length a)%Q as Hideal
  end.
  { apply ideal_sentence_length_pos.
    destruct (brand_model self) as [bm|]; [by apply Hv|constructor]. }
  rewrite div_ok; [|lra].
  eexists _, _. split; [done|]. apply Qmax0_unit.
  apply Qle_shift_div_l; [lra|]. rewrite Qmult_0_l. apply Qabs_nonneg.
Qed.

(** The evaluators of the style attributes return. *)
Lemma avg_sentence_length_ok (s0 : str) (ss : list str) :
  exists q, avg_sentence_length (s0 :: ss) = Ok q.
Proof.
  unfold avg_sentence_length. rewrite div_QZ; [by eexists|].
  pose proof (llen_cons_pos s0 ss). lia.
Qed.

Lemma div_const_ok (a : Q) (z : Z) : z <> 0 -> exists q, div a (QZ z) = Ok q.
Proof. intros Hz. rewrite div_QZ by done. by eexists. Qed.

Lemma evaluate_formality_ok content : exists q, _evaluate_formality content = Ok q.
Proof.
  unfold _evaluate_formality. cbv zeta.
  match goal with |- context [?x =? 0] => destruct (Z.eqb_spec x 0) as [|Hne] end;
    [by eexists|].
  match goal with |- context [0 <? ?x] => destruct (Z.ltb_spec 0 x) end.
  - rewrite div_QZ by done. cbn [mbind res_bind].
    destruct (sent_tokenize content) as [|s0 ss].
    + cbn [mbind res_bind]. rewrite (div_ok _ 20) by lra. by eexists.
    + destruct (avg_sentence_length_ok s0 ss) as [q ->].
      cbn [mbind res_bind]. rewrite (div_ok _ 20) by lra. by eexists.
  - cbn [mbind res_bind].
    destruct (sent_tokenize content) as [|s0 ss].
    + cbn [mbind res_bind]. rewrite (div_ok _ 20) by lra. by eexists.
    + destruct (avg_sentence_length_ok s0 ss) as [q ->].
      cbn [mbind res_bind]. rewrite (div_ok _ 20) by lra. by eexists.
Qed.

Lemma evaluate_professionalism_ok content :
  exists q, _evaluate_professionalism content = Ok q.
Proof.
  unfold _evaluate_professionalism. cbv zeta.
  match goal with |- context [?x =? 0] => destruct (Z.eqb_spec x 0) as [|Hne] end;
    [by eexists|].
  rewrite div_QZ by done. by eexists.
Qed.

Lemma evaluate_humor_ok content : exists q, _evaluate_humor content = Ok q.
Proof. unfold _evaluate_humor. by eexists. Qed.

Lemma evaluate_emotion_ok content : exists q, _evaluate_emotion content = Ok q.
Proof.
  unfold _evaluate_emotion. cbv zeta.
  match goal with |- context [?x =? 0] => destruct (Z.eqb_spec x 0) as [|Hne] end;
    [by eexists|].
  rewrite div_QZ by done. by eexists.
Qed.

Lemma evaluate_conciseness_ok content :
  exists q, _evaluate_conciseness content = Ok q.
Proof.
  unfold _evaluate_conciseness.
  destruct (sent_tokenize content) as [|s0 ss]; [by eexists|].
  destruct (avg_sentence_length_ok s0 ss) as [q ->]. cbn [mbind res_bind].
  rewrite (div_ok _ 20) by lra. cbn [mbind res_bind].
  rewrite (div_ok _ 10) by lra. by eexists.
Qed.

Lemma evaluate_directness_ok content :
  exists q, _evaluate_directness content = Ok q.
Proof.
  unfold _evaluate_directness. cbv zeta.
  repeat match goal with
         | |- context [count_markers ?a ?b] =>
             generalize (count_markers a b); intro
         end.
  match goal with
  | |- context [List.filter ?f ?l] => generalize (List.filter f l); intro
  end.
  destruct (sent_tokenize content) as [|s0 ss].
  - cbn [mbind res_bind].
    match goal with |- context [?x =? 0] => destruct (Z.eqb_spec x 0) as [|Hne] end;
      [by eexists|].
    rewrite div_QZ by done. by eexists.
  - rewrite (div_QZ _ (llen (s0 :: ss)));
      [|pose proof (llen_cons_pos s0 ss); lia].
    cbn [mbind res_bind].
    match goal with |- context [?x =? 0] => destruct (Z.eqb_spec x 0) as [|Hne] end;
      [by eexists|].
    rewrite div_QZ by done. by eexists.
Qed.

Lemma evaluate_attribute_unit content attribute target_value :
  exists sc sg,
    _evaluate_attribute content attribute target_value = Ok (sc, sg)
    /\ (0 <= sc <= 1)%Q.
Proof.
  unfold _evaluate_attribute. cbv zeta.
  assert (forall x : Q, 0 <= Qmax 0 (1 - Qabs (x - target_value)) <= 1)%Q as Hb.
  { intros x. apply Qmax0_unit, Qabs_nonneg. }
  destruct (mem _ _).
  { destruct (evaluate_formality_ok content) as [q ->]. by eexists _, _. }
  destruct (mem _ _).
  { destruct (evaluate_professionalism_ok content) as [q ->]. by eexists _, _. }
  destruct (mem _ _).
  { destruct (evaluate_humor_ok content) as [q ->]. by eexists _, _. }
  destruct (mem _ _).
  { destruct (evaluate_emotion_ok content) as [q ->]. by eexists _, _. }
  destruct (mem _ _).
  { destruct (evaluate_conciseness_ok content) as [q ->]. by eexists _, _. }
  destruct (mem _ _).
  { destruct (evaluate_directness_ok content) as [q ->]. by eexists _, _. }
  by eexists _, _.
Qed.

Lemma style_loop_bounds content attrs attributes total :
  exists attributes' total',
    style_loop content attrs attributes total = Ok (attributes', total')
    /\ (total <= total' <= total + QZ (llen attrs))%Q.
Proof.
  revert attributes total.
  induction attrs as [|a attrs IH]; intros attributes total.
  - eexists _, _. split; [done|]. change (QZ (llen [])) with 0%Q. lra.
  - cbn [style_loop].
    destruct (evaluate_attribute_unit content (BrandStyleAttribute.name a)
                (BrandStyleAttribute.value a)) as (sc & sg & -> & Hsc).
    cbn [mbind res_bind].
    destruct (IH (dict_set attributes (BrandStyleAttribute.name a)
                    {| target_value := BrandStyleAttribute.value a;
                       score := sc; suggestion := sg |})
                 (total + sc)%Q) as (attributes' & total' & -> & Ht).
    eexists _, _. split; [done|].
    assert (QZ (llen (a :: attrs)) == QZ (llen attrs) + 1)%Q as ->.
    { unfold llen, QZ. cbn [length]. rewrite Nat2Z.inj_succ, <- Z.add_1_r.
      rewrite inject_Z_plus. reflexivity. }
    lra.
Qed.

Lemma check_style_attributes_unit (self : t) (content : str) :
  exists st sd,
    _check_style_attributes self content = Ok (st, sd) /\ (0 <= st <= 1)%Q.
Proof.
  unfold _check_style_attributes. destruct (brand_model self) as [bm|].
  2:{ eexists _, _. split; [done|]. lra. }
  destruct (BrandModel.style_attributes bm) as [|a attrs].
  { eexists _, _. split; [done|]. lra. }
  destruct (style_loop_bounds content (a :: attrs) [] 0.0%Q)
    as (attributes' & total' & -> & Ht).
  cbn [mbind res_bind].
  pose proof (llen_cons_pos a attrs) as Hpos.
  rewrite div_QZ by lia. eexists _, _. split; [done|].
  pose proof (QZ_pos _ Hpos). split.
  - apply Qle_shift_div_l; [done|]. lra.
  - apply Qle_shift_div_r; [done|]. lra.
Qed.


(** C7. With a brand model whose style attributes have values in [0,1]
    and a language model, when there is one, that answers the text with
    a score in [0,1], [check_consistency] returns and its consistency
    score lies in [0,1]; so it does without brand model, for the empty
    text, and for a brand without keywords or style attributes. *)
Theorem consistency_score_in_unit_interval (self : t) (content : str) :
  (forall bm, brand_model self = Some bm -> BrandModel.valid bm) ->
  (forall lm, language_model self = Some lm ->
              exists q, score_text lm content = Ok q /\ (0 <= q <= 1)%Q) ->
  exists r,
    check_consistency self content = Ok r
    /\ (0 <= consistency_score r <= 1)%Q.
Proof.
  intros Hv Hlm.
  destruct (check_keywords_unit self content) as (k & kd & Hk & Hkb).
  destruct (check_sentence_length_unit self content Hv)
    as (s & sd & Hs & Hsb).
  destruct (check_style_attributes_unit self content)
    as (st & std & Hst & Hstb).
  unfold check_consistency. destruct (brand_model self) as [bm|].
  2:{ eexists. split; [done|]. simpl. lra. }
  rewrite Hk, Hs, Hst. cbn [mbind res_bind].
  destruct (language_model self) as [lm|] eqn:El.
  - destruct (Hlm lm eq_refl) as (q & -> & Hq). cbn [mbind res_bind].
    eexists. split; [reflexivity|]. cbn [consistency_score]. lra.
  - cbn [mbind res_bind].
    eexists. split; [reflexivity|]. cbn [consistency_score]. lra.
Qed.

(** C8. Without language model the weights are 0.4 for the keywords, 0.2
    for the sentence length and 0.4 for the style, and nothing for the
    model: the consistency score is the sum of the three sub-scores so
    weighted. The three weights add up to 1, as rationals and, in the
    order the code adds the terms, as the doubles the literals denote. *)
Theorem weights_without_language_model :
  weights false = (0.4, 0.2, 0.4, 0.0)%Q
  /\ (0.4 + 0.2 + 0.4 == 1)%Q
  /\ binary64.add (binary64.add binary64.w_keywords
                     binary64.w_sentence_length) binary64.w_style
     = binary64.of_Z 1
  /\ forall (self : t) (content : str) (bm : BrandModel.t) k kd s sd st std,
       brand_model self = Some bm ->
       language_model self = None ->
       _check_keywords self content = Ok (k, kd) ->
       _check_sentence_length self content = Ok (s, sd) ->
       _check_style_attributes self content = Ok (st, std) ->
       exists r,
         check_consistency self content = Ok r
         /\ (consistency_score r == k * 0.4 + s * 0.2 + st * 0.4)%Q.
Proof.
  split; [reflexivity|]. split; [reflexivity|].
  split; [vm_compute; reflexivity|].
  intros self content bm k kd s sd st std Hbm Hlm Hk Hs Hst.
  unfold check_consistency. rewrite Hbm, Hk, Hs, Hst, Hlm.
  cbn [mbind res_bind].
  eexists. split; [reflexivity|]. cbn [consistency_score]. lra.
Qed.

(** The suggestions that do not name keywords begin otherwise. *)
Lemma suggestions_tail_not_keyword (sugg : list str) (s st total : Q)
    (sd : sentence_length_details) (std : style_details) :
  let not_keyword :=
    fun x : str => startswith x (py "考慮增加關鍵詞") = false in
  Forall not_keyword sugg ->
  let suggestions := sugg in
  let suggestions :=
    if Qltb s 0.5 then
      let '(avg_length, ideal_length) :=
        match sd with
        | SentenceReport a i _ _ _ => (a, i)
        | SentenceStatus _ => (0%Q, 15%Q)
        end in
      if Qltb ideal_length avg_length
      then suggestions ++ [py "縮短句子長度，使用更簡潔的表達"]
      else suggestions ++ [py "擴展句子長度，添加更多細節或描述"]
    else suggestions in
  let suggestions :=
    if Qltb st 0.5 then
      match std with
      | StyleReport attributes _ =>
          suggestions
          ++ map (fun '(attr, detail) =>
                    py "增強 '" ++ attr ++ py "' 風格特徵: "
                    ++ suggestion detail)
               (List.filter (fun '(_, detail) => Qltb (score detail) 0.4)
                  attributes)
      | StyleStatus _ => suggestions
      end
    else suggestions in
  let suggestions :=
    if Qltb total 0.4
    then suggestions ++ [py "內容與品牌風格差異較大，建議重新創作"]
    else if Qltb total 0.7
    then suggestions ++ [py "內容部分符合品牌風格，需要修改調整"]
    else suggestions in
  Forall not_keyword suggestions.
Proof.
  intros not_keyword Hsugg. cbv zeta.
  assert (forall l x, Forall not_keyword l -> not_keyword x ->
                      Forall not_keyword (l ++ [x])) as Hsnoc.
  { intros l x Hl Hx. apply Forall_app. split; [done|]. by constructor. }
  assert (Forall not_keyword
            (if Qltb s 0.5 then
               let '(avg_length, ideal_length) :=
                 match sd with
                 | SentenceReport a i _ _ _ => (a, i)
                 | SentenceStatus _ => (0%Q, 15%Q)
                 end in
               if Qltb ideal_length avg_length
               then sugg ++ [py "縮短句子長度，使用更簡潔的表達"]
               else sugg ++ [py "擴展句子長度，添加更多細節或描述"]
             else sugg)) as H1.
  { destruct (Qltb s 0.5); [|done].
    destruct sd as [?|a i ? ? ?]; destruct (Qltb _ _); by apply Hsnoc. }
  revert H1. generalize (if Qltb s 0.5 then
               let '(avg_length, ideal_length) :=
                 match sd with
                 | SentenceReport a i _ _ _ => (a, i)
                 | SentenceStatus _ => (0%Q, 15%Q)
                 end in
               if Qltb ideal_length avg_length
               then sugg ++ [py "縮短句子長度，使用更簡潔的表達"]
               else sugg ++ [py "擴展句子長度，添加更多細節或描述"]
             else sugg) as l1.
  intros l1 H1.
  assert (Forall not_keyword
            (if Qltb st 0.5 then
               match std with
               | StyleReport attributes _ =>
                   l1 ++ map (fun '(attr, detail) =>
                                py "增強 '" ++ attr ++ py "' 風格特徵: "
                                ++ suggestion detail)
                           (List.filter
                              (fun '(_, detail) => Qltb (score detail) 0.4)
                              attributes)
               | StyleStatus _ => l1
               end
             else l1)) as H2.
  { destruct (Qltb st 0.5); [|done]. destruct std as [?|attributes ?]; [done|].
    apply Forall_app. split; [done|].
    apply Forall_forall. intros x Hx. apply list_elem_of_In in Hx.
    apply in_map_iff in Hx as ([attr detail] & <- & _). reflexivity. }
  revert H2. generalize (if Qltb st 0.5 then
               match std with
               | StyleReport attributes _ =>
                   l1 ++ map (fun '(attr, detail) =>
                                py "增強 '" ++ attr ++ py "' 風格特徵: "
                                ++ suggestion detail)
                           (List.filter
                              (fun '(_, detail) => Qltb (score detail) 0.4)
                              attributes)
               | StyleStatus _ => l1
               end
             else l1) as l2.
  intros l2 H2.
  destruct (Qltb total 0.4); [by apply Hsnoc|].
  destruct (Qltb total 0.7); [by apply Hsnoc|done].
Qed.

(** C9, as the code has it. For a brand with the keywords eco and green
    and a text whose lower case contains eco and not green, and with no
    language model or one that answers the text with a score, the keyword
    score is 1/2, the missing keywords are green alone, the coverage reads
    1/2, and no suggestion names keywords: the suggestion is made below
    0.5 only. *)
Theorem scenario_keyword_coverage (self : t) (content : str)
    (bm : BrandModel.t) :
  brand_model self = Some bm ->
  BrandModel.valid bm ->
  (forall lm, language_model self = Some lm ->
              exists q, score_text lm content = Ok q) ->
  BrandModel.keywords bm = [py "eco"; py "green"] ->
  contains (lower content) (lower (py "eco")) = true ->
  contains (lower content) (lower (py "green")) = false ->
  exists (k : Q) (r : result) (d : details),
    _check_keywords self content
    = Ok (k, KeywordReport [py "eco"] [py "green"] (py "1/2"))
    /\ (k == 0.5)%Q
    /\ check_consistency self content = Ok r
    /\ result_details r = Some d
    /\ d_keywords d = KeywordReport [py "eco"] [py "green"] (py "1/2")
    /\ Forall (fun x => startswith x (py "考慮增加關鍵詞") = false)
         (suggestions r).
Proof.
  intros Hbm Hv Hlm Hkw Heco Hgreen.
  assert (_check_keywords self content
          = Ok ((QZ 1 / QZ 2)%Q,
                KeywordReport [py "eco"] [py "green"] (py "1/2"))) as Hk.
  { unfold _check_keywords. rewrite Hbm, Hkw. cbn [List.filter].
    rewrite Heco, Hgreen. reflexivity. }
  destruct (check_sentence_length_unit self content)
    as (s & sd & Hs & _).
  { intros bm' Hbm'. rewrite Hbm in Hbm'. by injection Hbm' as <-. }
  destruct (check_style_attributes_unit self content)
    as (st & std & Hst & _).
  unfold check_consistency. rewrite Hbm, Hk, Hs, Hst.
  cbn [mbind res_bind].
  destruct (language_model self) as [lm|];
    [destruct (Hlm lm eq_refl) as [q ->]|]; cbn [mbind res_bind];
    (eexists _, _, _; split; [reflexivity|]; split; [reflexivity|];
     split; [reflexivity|]; split; [reflexivity|]; split; [reflexivity|];
     cbn [suggestions];
     change (Qltb (QZ 1 / QZ 2) 0.5) with false; cbn [andb];
     apply suggestions_tail_not_keyword; constructor).
Qed.

End scorer.

Lemma consistency_score_in_unit_interval_witness :
  let bm :=
    {| BrandModel.id := py "b1"; BrandModel.name := py "Verde";
       BrandModel.description := None; BrandModel.industry := None;
       BrandModel.target_audience := None;
       BrandModel.keywords := [py "eco"; py "green"];
       BrandModel.style_attributes :=
         [{| BrandStyleAttribute.name := py "formal";
             BrandStyleAttribute.value := 0.8%Q;
             BrandStyleAttribute.description := None |}] |} in
  let self :=
    {| BrandStyleKeeper.brand_model := Some bm;
       BrandStyleKeeper.language_model := None |} in
  exists r,
    @BrandStyleKeeper.check_consistency ascii_unicode plain_nltk self [] = Ok r
    /\ (0 <= BrandStyleKeeper.consistency_score r <= 1)%Q.
Proof.
  intros bm self.
  apply (@consistency_score_in_unit_interval ascii_unicode plain_nltk self []).
  - intros bm' [= <-]. repeat constructor; simpl; lra.
  - intros lm [=].
Defined.

Lemma weights_without_language_model_witness :
  let bm :=
    {| BrandModel.id := py "b1"; BrandModel.name := py "Verde";
       BrandModel.description := None; BrandModel.industry := None;
       BrandModel.target_audience := None;
       BrandModel.keywords := [py "eco"; py "green"];
       BrandModel.style_attributes := [] |} in
  let self :=
    {| BrandStyleKeeper.brand_model := Some bm;
       BrandStyleKeeper.language_model := None |} in
  exists r,
    @BrandStyleKeeper.check_consistency ascii_unicode plain_nltk self
      (py "Our eco range is here") = Ok r
    /\ (BrandStyleKeeper.consistency_score r
        == (1 # 2) * 0.4 + (1 # 3) * 0.2 + 1.0 * 0.4)%Q.
Proof.
  intros bm self.
  destruct (@weights_without_language_model ascii_unicode plain_nltk)
    as (_ & _ & _ & Hw).
  destruct (Hw self (py "Our eco range is here") bm
              (BrandStyleKeeper.QZ 1 / BrandStyleKeeper.QZ 2)%Q
              (BrandStyleKeeper.KeywordReport [py "eco"] [py "green"]
                 (py "1/2"))
              (Qmax 0 (1 - Qabs (BrandStyleKeeper.QZ 5 / BrandStyleKeeper.QZ 1 - 15) / 15))%Q
              (BrandStyleKeeper.SentenceReport
                 (BrandStyleKeeper.QZ 5 / BrandStyleKeeper.QZ 1)%Q 15%Q 5 5 1)
              1.0%Q
              (BrandStyleKeeper.StyleStatus (py "未設置品牌風格屬性")))
    as (r & Hr & Hscore); try reflexivity.
  exists r. split; [exact Hr|]. rewrite Hscore. vm_compute. reflexivity.
Defined.

Lemma scenario_keyword_coverage_witness :
  let bm :=
    {| BrandModel.id := py "b1"; BrandModel.name := py "Verde";
       BrandModel.description := None; BrandModel.industry := None;
       BrandModel.target_audience := None;
       BrandModel.keywords := [py "eco"; py "green"];
       BrandModel.style_attributes := [] |} in
  let self :=
    {| BrandStyleKeeper.brand_model := Some bm;
       BrandStyleKeeper.language_model := None |} in
  exists k,
    @BrandStyleKeeper._check_keywords ascii_unicode self
      (py "Our ECO range is here")
    = Ok (k, BrandStyleKeeper.KeywordReport [py "eco"] [py "green"]
               (py "1/2"))
    /\ (k == 0.5)%Q.
Proof.
  intros bm self.
  destruct (@scenario_keyword_coverage ascii_unicode plain_nltk self
              (py "Our ECO range is here") bm)
    as (k & r & d & Hk & Hhalf & _); try reflexivity.
  - constructor.
  - intros lm [=].
  - exists k. split; [exact Hk|exact Hhalf].
Defined.

(** C9 as stated fails: at a keyword score of 0.5 [check_consistency]
    makes no suggestion that names green; the suggestions it makes are
    about the sentence length and about revising the text. *)
Lemma scenario_keyword_suggestion_counterexample :
  let bm :=
    {| BrandModel.id := py "b1"; BrandModel.name := py "Verde";
       BrandModel.description := None; BrandModel.industry := None;
       BrandModel.target_audience := None;
       BrandModel.keywords := [py "eco"; py "green"];
       BrandModel.style_attributes := [] |} in
  let self :=
    {| BrandStyleKeeper.brand_model := Some bm;
       BrandStyleKeeper.language_model := None |} in
  exists r,
    @BrandStyleKeeper.check_consistency ascii_unicode plain_nltk self
      (py "Our eco range is here") = Ok r
    /\ BrandStyleKeeper.suggestions r
       = [py "擴展句子長度，添加更多細節或描述";
          py "內容部分符合品牌風格，需要修改調整"]
    /\ List.filter (fun x => contains x (py "green"))
         (BrandStyleKeeper.suggestions r) = []
    /\ BrandStyleKeeper.keyword_suggestion [py "green"]
       ∉ BrandStyleKeeper.suggestions r.
Proof.
  intros bm self. eexists. split; [vm_compute; reflexivity|].
  split; [vm_compute; reflexivity|]. split; [vm_compute; reflexivity|].
  cbn [BrandStyleKeeper.suggestions].
  intros Hin. repeat (apply elem_of_cons in Hin as [Heq|Hin];
                      [vm_compute in Heq; discriminate|]).
  by apply elem_of_nil in Hin.
Qed.

(** * Further properties of the adapters *)

Section adapter_outcomes.
Context `{Unicode}.

Lemma failure_is_failure msg c : is_failure_of c (failure msg c).
Proof. repeat split; eauto. Qed.

Lemma succeed_is_success c m : is_success (succeed c m).
Proof. repeat split; eauto. Qed.

Lemma is_success_not_failure c r : is_success r -> ~ is_failure_of c r.
Proof. intros [Hs _] [Hf _]. congruence. Qed.

(** The three content paths of Facebook: a failure that echoes the item
    when the payload is absent, a success otherwise. *)
Lemma facebook_paths (item : ContentItem.t) :
  (exists r, FacebookAdapter.adapt_text_content item = Ok r
     /\ match ContentItem.text_content item with
        | Some _ => is_success r
        | None => is_failure_of item r
        end)
  /\ (exists r, FacebookAdapter.adapt_image_content item = Ok r
        /\ match ContentItem.image_content item with
        | Some _ => is_success r
        | None => is_failure_of item r
        end)
  /\ (exists r, FacebookAdapter.adapt_video_content item = Ok r
        /\ match ContentItem.video_content item with
        | Some _ => is_success r
        | None => is_failure_of item r
        end).
Proof.
  repeat split.
  - unfold FacebookAdapter.adapt_text_content.
    destruct (ContentItem.text_content item) as [tc|].
    + destruct (FacebookAdapter._adapt_hashtags _ _) as [t hs].
      eexists. split; [reflexivity|apply succeed_is_success].
    + eexists. split; [reflexivity|apply failure_is_failure].
  - unfold FacebookAdapter.adapt_image_content.
    destruct (ContentItem.image_content item) as [ic|].
    + destruct (FacebookAdapter._adapt_hashtags _ _) as [t hs].
      destruct (match ImageContent.image_url ic with
                | Some (c :: u) => FacebookAdapter._check_image_format (c :: u)
                | _ => (true, [])
                end) as [v m].
      eexists. split; [reflexivity|apply succeed_is_success].
    + eexists. split; [reflexivity|apply failure_is_failure].
  - unfold FacebookAdapter.adapt_video_content.
    destruct (ContentItem.video_content item) as [vc|].
    + match goal with
      | |- context [let '(a, b) := ?p in _] => destruct p as [v m]
      end.
      eexists. split; [reflexivity|apply succeed_is_success].
    + eexists. split; [reflexivity|apply failure_is_failure].
Qed.

Lemma linkedin_paths (item : ContentItem.t) :
  (exists r, LinkedInAdapter.adapt_text_content item = Ok r
     /\ match ContentItem.text_content item with
        | Some _ => is_success r
        | None => is_failure_of item r
        end)
  /\ (exists r, LinkedInAdapter.adapt_image_content item = Ok r
        /\ match ContentItem.image_content item with
        | Some _ => is_success r
        | None => is_failure_of item r
        end)
  /\ (exists r, LinkedInAdapter.adapt_video_content item = Ok r
        /\ match ContentItem.video_content item with
        | Some _ => is_success r
        | None => is_failure_of item r
        end).
Proof.
  repeat split.
  - unfold LinkedInAdapter.adapt_text_content.
    destruct (ContentItem.text_content item) as [tc|].
    + destruct (LinkedInAdapter._adapt_hashtags _ _) as [t hs].
      eexists. split; [reflexivity|apply succeed_is_success].
    + eexists. split; [reflexivity|apply failure_is_failure].
  - unfold LinkedInAdapter.adapt_image_content.
    destruct (ContentItem.image_content item) as [ic|].
    + destruct (LinkedInAdapter._adapt_hashtags _ _) as [t hs].
      destruct (match ImageContent.image_url ic with
                | Some (c :: u) => LinkedInAdapter._check_image_format (c :: u)
                | _ => (true, [])
                end) as [v m].
      eexists. split; [reflexivity|apply succeed_is_success].
    + eexists. split; [reflexivity|apply failure_is_failure].
  - unfold LinkedInAdapter.adapt_video_content.
    destruct (ContentItem.video_content item) as [vc|].
    + destruct (LinkedInAdapter._adapt_hashtags _ _) as [t hs].
      match goal with
      | |- context [let '(a, b) := ?p in _] => destruct p as [v m]
      end.
      eexists. split; [reflexivity|apply succeed_is_success].
    + eexists. split; [reflexivity|apply failure_is_failure].
Qed.

Lemma adaptable_text item :
  ContentItem.content_type item = TEXT ->
  adaptable item = match ContentItem.text_content item with
        | Some _ => true
        | None => false
        end.
Proof. unfold adaptable. intros ->. by destruct (ContentItem.text_content item). Qed.
Lemma adaptable_image item :
  ContentItem.content_type item = IMAGE ->
  adaptable item = match ContentItem.image_content item with
        | Some _ => true
        | None => false
        end.
Proof. unfold adaptable. intros ->. by destruct (ContentItem.image_content item). Qed.
Lemma adaptable_video item :
  ContentItem.content_type item = VIDEO ->
  adaptable item = match ContentItem.video_content item with
        | Some _ => true
        | None => false
        end.
Proof. unfold adaptable. intros ->. by destruct (ContentItem.video_content item). Qed.

(** X1. The adapters of Facebook and LinkedIn never raise: [adapt_content]
    answers every item with a result, which is a success when the item
    declares text, image or video and carries that payload, and otherwise
    a failure with an error message whose content is the item as it was
    given. *)
Theorem facebook_linkedin_adapt_content_outcome (item : ContentItem.t) :
  exists rf rl,
    FacebookAdapter.adapt_content item = Ok rf
    /\ LinkedInAdapter.adapt_content item = Ok rl
    /\ (if adaptable item then is_success rf /\ is_success rl
        else is_failure_of item rf /\ is_failure_of item rl).
Proof.
  destruct (facebook_paths item) as ((ft & Hft & Pft) & (fi & Hfi & Pfi)
                                     & (fv & Hfv & Pfv)).
  destruct (linkedin_paths item) as ((lt & Hlt & Plt) & (li & Hli & Pli)
                                     & (lv & Hlv & Plv)).
  unfold FacebookAdapter.adapt_content, LinkedInAdapter.adapt_content.
  destruct (ContentItem.content_type item) eqn:Ect.
  - rewrite (adaptable_text item Ect). exists ft, lt.
    destruct (ContentItem.text_content item); auto.
  - rewrite (adaptable_image item Ect). exists fi, li.
    destruct (ContentItem.image_content item); auto.
  - rewrite (adaptable_video item Ect). exists fv, lv.
    destruct (ContentItem.video_content item); auto.
  - unfold adaptable. rewrite Ect. eexists _, _.
    split; [reflexivity|]. split; [reflexivity|].
    split; apply failure_is_failure.
  - unfold adaptable. rewrite Ect. eexists _, _.
    split; [reflexivity|]. split; [reflexivity|].
    split; apply failure_is_failure.
  - unfold adaptable. rewrite Ect. eexists _, _.
    split; [reflexivity|]. split; [reflexivity|].
    split; apply failure_is_failure.
Qed.

(** The paths of Instagram. *)
Lemma instagram_caption_paths (item : ContentItem.t) :
  (exists r, InstagramAdapter.adapt_to_caption item = Ok r
     /\ match ContentItem.text_content item with
        | Some _ => is_success r
        | None => is_failure_of item r
        end)
  /\ (exists r, InstagramAdapter.adapt_image_content item = Ok r
        /\ match ContentItem.image_content item with
        | Some _ => is_success r
        | None => is_failure_of item r
        end).
Proof.
  split.
  - unfold InstagramAdapter.adapt_to_caption.
    destruct (ContentItem.text_content item) as [tc|].
    + destruct (InstagramAdapter._adapt_hashtags _ _) as [t hs].
      eexists. split; [reflexivity|apply succeed_is_success].
    + eexists. split; [reflexivity|apply failure_is_failure].
  - unfold InstagramAdapter.adapt_image_content.
    destruct (ContentItem.image_content item) as [ic|].
    + destruct (InstagramAdapter._adapt_hashtags _ _) as [t hs].
      destruct (match ImageContent.image_url ic with
                | Some (c :: u) => InstagramAdapter._check_image_format (c :: u)
                | _ => (true, [])
                end) as [v m].
      eexists. split; [reflexivity|apply succeed_is_success].
    + eexists. split; [reflexivity|apply failure_is_failure].
Qed.

Lemma instagram_video_path (item : ContentItem.t) :
  match ContentItem.video_content item with
  | None => exists r, InstagramAdapter.adapt_video_content item = Ok r
                      /\ is_failure_of item r
  | Some vc =>
      match VideoContent.duration_seconds vc with
      | None => InstagramAdapter.adapt_video_content item = Raise TypeError
      | Some _ => exists r, InstagramAdapter.adapt_video_content item = Ok r
                            /\ is_success r
      end
  end.
Proof.
  unfold InstagramAdapter.adapt_video_content.
  destruct (ContentItem.video_content item) as [vc|].
  - destruct (InstagramAdapter._adapt_hashtags _ _) as [t hs].
    destruct (VideoContent.duration_seconds vc) as [d|].
    + match goal with
      | |- context [let '(a, b) := ?p in _] => destruct p as [v m]
      end.
      eexists. split; [reflexivity|apply succeed_is_success].
    + reflexivity.
  - eexists. split; [reflexivity|apply failure_is_failure].
Qed.

(** X2. Instagram's [adapt_content] raises in one case only, and then a
    [TypeError]: the item declares a video and carries a video payload
    without duration. In every other case it answers with a result, a
    success when the item carries the payload of the type it declares and
    a failure that echoes the item otherwise. *)
Theorem instagram_adapt_content_outcome (item : ContentItem.t) :
  let raises :=
    ContentItem.content_type item = VIDEO
    /\ exists vc, ContentItem.video_content item = Some vc
                  /\ VideoContent.duration_seconds vc = None in
  (raises -> InstagramAdapter.adapt_content item = Raise TypeError)
  /\ (~ raises ->
      exists r, InstagramAdapter.adapt_content item = Ok r
                /\ (if adaptable item then is_success r
                    else is_failure_of item r)).
Proof.
  intros raises.
  destruct (instagram_caption_paths item) as ((rt & Hrt & Prt) & (ri & Hri & Pri)).
  pose proof (instagram_video_path item) as Hv.
  unfold InstagramAdapter.adapt_content. split.
  - intros (Ect & vc & Hvc & Hd). rewrite Ect. rewrite Hvc, Hd in Hv. done.
  - intros Hnr. destruct (ContentItem.content_type item) eqn:Ect.
    + rewrite (adaptable_text item Ect). exists rt.
      destruct (ContentItem.text_content item); auto.
    + rewrite (adaptable_image item Ect). exists ri.
      destruct (ContentItem.image_content item); auto.
    + rewrite (adaptable_video item Ect).
      destruct (ContentItem.video_content item) as [vc|]; [|done].
      destruct (VideoContent.duration_seconds vc) as [d|] eqn:Ed; [done|].
      exfalso. apply Hnr. split; [done|]. by exists vc.
    + unfold adaptable. rewrite Ect. eexists.
      split; [reflexivity|apply failure_is_failure].
    + unfold adaptable. rewrite Ect. eexists.
      split; [reflexivity|apply failure_is_failure].
    + unfold adaptable. rewrite Ect. eexists.
      split; [reflexivity|apply failure_is_failure].
Qed.

End adapter_outcomes.

Section thumbnail.
Context `{Unicode}.

(** X3. YouTube's thumbnail adaptation of an item with an image payload
    raises exactly when the image URL is not empty and has an accepted
    extension. Otherwise it answers a success whose content is typed as a
    video, keeps the image payload, and carries a video payload with a
    thumbnail prompt that is not empty. *)
Theorem youtube_thumbnail_outcome (item : ContentItem.t) (ic : ImageContent.t) :
  ContentItem.image_content item = Some ic ->
  let accepted :=
    match ImageContent.image_url ic with
    | Some (c :: u) => (YouTubeAdapter._check_thumbnail_format (c :: u)).1
    | _ => false
    end in
  (accepted = true ->
   YouTubeAdapter.adapt_to_thumbnail item = Raise ValueError)
  /\ (accepted = false ->
      exists r vc p,
        YouTubeAdapter.adapt_to_thumbnail item = Ok r
        /\ is_success r
        /\ ContentItem.content_type (AdaptationResult.content r) = VIDEO
        /\ ContentItem.image_content (AdaptationResult.content r) = Some ic
        /\ ContentItem.video_content (AdaptationResult.content r) = Some vc
        /\ VideoContent.thumbnail_prompt vc = Some p
        /\ p <> []).
Proof.
  intros Hic accepted. subst accepted.
  unfold YouTubeAdapter.adapt_to_thumbnail. rewrite Hic.
  assert (forall p : str,
            (if truthy_str p then p else py "高品質 YouTube 影片縮略圖") <> [])
    as Hprompt.
  { intros [|c p]; simpl; [by vm_compute|done]. }
  assert (forall (c : ContentItem.t) (v : VideoContent.t) m,
            ContentItem.image_content c = Some ic ->
            ContentItem.image_content
              (AdaptationResult.content
                 (succeed (ContentItem.set_video_content
                             (ContentItem.set_content_type c VIDEO) (Some v))
                    m)) = Some ic) as Hkeep by done.
  destruct (ImageContent.image_url ic) as [[|c u]|].
  - split; [done|]. intros _. eexists _, _, _.
    split; [reflexivity|]. split; [apply succeed_is_success|].
    split; [reflexivity|]. split; [by apply Hkeep|].
    split; [reflexivity|]. split; [reflexivity|]. apply Hprompt.
  - destruct (YouTubeAdapter._check_thumbnail_format (c :: u)) as [[|] m];
      cbn [fst]; (split; [done|]); [done|].
    intros _. eexists _, _, _.
    split; [reflexivity|]. split; [apply succeed_is_success|].
    split; [reflexivity|]. split; [by apply Hkeep|].
    split; [reflexivity|]. split; [reflexivity|]. by vm_compute.
  - split; [done|]. intros _. eexists _, _, _.
    split; [reflexivity|]. split; [apply succeed_is_success|].
    split; [reflexivity|]. split; [by apply Hkeep|].
    split; [reflexivity|]. split; [reflexivity|]. apply Hprompt.
Qed.

End thumbnail.

Section hashtag_merge.
Context `{Unicode}.

(** The explicit tags the merge keeps: those that are not inline tags. *)
Lemma merge_hashtags_unfold (cap : Z) (inline : list str)
    (explicit : option (list str)) :
  merge_hashtags cap inline explicit
  = let kept :=
      List.filter (fun tag => negb (mem tag inline)) (default [] explicit) in
    if cap <? llen (inline ++ kept)
    then take (Z.to_nat cap) (inline ++ kept) else inline ++ kept.
Proof.
  unfold merge_hashtags.
  assert ((if truthy_list inline then [] ++ inline else []) = inline) as ->.
  { by destruct inline. }
  destruct explicit as [[|t ts]|]; cbn [default]; try done;
    cbn [List.filter]; by rewrite app_nil_r.
Qed.

(** The merge of the three [_adapt_hashtags], for a cap that is not
    negative: within the cap, made of given tags only, the inline tags
    first, and complete when the given tags fit the cap. *)
Lemma merge_hashtags_spec (cap : Z) (inline : list str)
    (explicit : option (list str)) :
  0 <= cap ->
  let result := merge_hashtags cap inline explicit in
  let given t := t ∈ inline \/ t ∈ default [] explicit in
  llen result <= cap
  /\ (forall t, t ∈ result -> given t)
  /\ take (length inline) result = take (Z.to_nat cap) inline
  /\ (llen inline + llen (default [] explicit) <= cap ->
      forall t, given t -> t ∈ result).
Proof.
  intros Hcap result given.
  split; [by apply merge_hashtags_cap|].
  subst result. rewrite merge_hashtags_unfold. cbv zeta.
  set (kept := List.filter (fun tag => negb (mem tag inline))
                 (default [] explicit)).
  assert (forall t, t ∈ kept <-> t ∈ default [] explicit /\ t ∉ inline)
    as Hkept.
  { intros t. unfold kept. rewrite list_elem_of_In, filter_In.
    rewrite <- list_elem_of_In. unfold mem.
    by rewrite negb_true_iff, bool_decide_eq_false. }
  assert (length kept <= length (default [] explicit))%nat as Hklen
    by apply List.filter_length_le.
  assert (forall t, t ∈ inline ++ kept <-> given t) as Hall.
  { intros t. rewrite elem_of_app, Hkept. unfold given.
    split; [intros [?|[? ?]]; auto|].
    intros [?|?]; destruct (decide (t ∈ inline)); auto. }
  unfold llen. rewrite length_app.
  destruct (Z.ltb_spec cap (Z.of_nat (length inline + length kept)))
    as [Hcut|Hfit].
  - split; [|split].
    + intros t Ht. apply Hall.
      rewrite <- (take_drop (Z.to_nat cap) (inline ++ kept)).
      apply elem_of_app. by left.
    + rewrite take_take.
      destruct (Nat.le_ge_cases (length inline) (Z.to_nat cap)) as [Hle|Hge].
      * rewrite Nat.min_l by done. rewrite take_app_length.
        by rewrite take_ge.
      * rewrite Nat.min_r by done. by rewrite take_app_le.
    + intros Hsum. lia.
  - split; [|split].
    + intros t Ht. by apply Hall.
    + rewrite take_app_length. rewrite take_ge; [done|lia].
    + intros _ t Ht. by apply Hall.
Qed.

(** X4. The tags the three [_adapt_hashtags] return: never more than the
    cap of the platform; only tags that are inline in the text or in the
    explicit list; the inline tags first, in the order of the text; and
    all the given tags when the inline and the explicit tags together fit
    the cap. *)
Theorem adapt_hashtags_tags (text : str) (explicit : option (list str)) :
  let inline := re.findall_hashtag text in
  let given t := t ∈ inline \/ t ∈ default [] explicit in
  Forall
    (fun '(cap, result) =>
       llen result <= cap
       /\ (forall t, t ∈ result -> given t)
       /\ take (length inline) result = take (Z.to_nat cap) inline
       /\ (llen inline + llen (default [] explicit) <= cap ->
           forall t, given t -> t ∈ result))
    [(FacebookAdapter.MAX_HASHTAGS,
      (FacebookAdapter._adapt_hashtags text explicit).2);
     (InstagramAdapter.MAX_HASHTAGS,
      (InstagramAdapter._adapt_hashtags text explicit).2);
     (LinkedInAdapter.MAX_HASHTAGS,
      (LinkedInAdapter._adapt_hashtags text explicit).2)].
Proof.
  intros inline given.
  assert ((FacebookAdapter._adapt_hashtags text explicit).2
          = merge_hashtags FacebookAdapter.MAX_HASHTAGS inline explicit) as ->.
  { unfold FacebookAdapter._adapt_hashtags. by destruct (_ <? _). }
  assert ((InstagramAdapter._adapt_hashtags text explicit).2
          = merge_hashtags InstagramAdapter.MAX_HASHTAGS inline explicit) as ->.
  { unfold InstagramAdapter._adapt_hashtags. by destruct (_ && _). }
  assert ((LinkedInAdapter._adapt_hashtags text explicit).2
          = merge_hashtags LinkedInAdapter.MAX_HASHTAGS inline explicit) as ->.
  { done. }
  repeat (apply Forall_cons; split; [by apply merge_hashtags_spec|]).
  constructor.
Qed.

End hashtag_merge.

(** ** One long token *)

Section long_token.
Implicit Types (s sub text : str) (c : char).

Lemma startswith_elem s sub c :
  startswith s sub = true -> c ∈ sub -> c ∈ s.
Proof.
  intros Hs%startswith_take Hc. rewrite <- Hs in Hc.
  rewrite <- (take_drop (length sub) s). apply elem_of_app. by left.
Qed.

Lemma elem_of_drop_str s (k : nat) c : c ∈ drop k s -> c ∈ s.
Proof.
  intros Hc. rewrite <- (take_drop k s). apply elem_of_app. by right.
Qed.

Lemma rfind_absent s sub c : c ∈ sub -> c ∉ s -> rfind s sub = -1.
Proof.
  intros Hc Hs. unfold rfind.
  destruct (rfind_from_spec 0 s sub) as [[-> _]|(k & _ & _ & Hocc & _)];
    [lia|done|].
  exfalso. apply Hs. eapply elem_of_drop_str, startswith_elem; done.
Qed.

Lemma contains_absent s sub c : c ∈ sub -> c ∉ s -> contains s sub = false.
Proof.
  intros Hc. induction s as [|d s IH]; intros Hs.
  - simpl. destruct sub; [by apply elem_of_nil in Hc|done].
  - cbn [contains]. rewrite IH.
    + rewrite orb_false_r. destruct (startswith (d :: s) sub) eqn:E; [|done].
      exfalso. apply Hs. by eapply startswith_elem.
    + intros Hin. apply Hs. by right.
Qed.

Lemma drop_while_head (p : char -> bool) s :
  (forall c, c ∈ s -> p c = false) -> drop_while p s = s.
Proof.
  destruct s as [|c s]; [done|]. intros Hs. simpl.
  rewrite Hs; [done|by left].
Qed.

Lemma strip_no_space s :
  (forall c, c ∈ s -> isspace c = false) -> strip s = s.
Proof.
  intros Hs. unfold strip, lstrip, rstrip.
  rewrite (drop_while_head isspace s Hs).
  rewrite (drop_while_head isspace (reverse s)).
  - apply reverse_involutive.
  - intros c Hc. apply Hs. by apply elem_of_reverse.
Qed.

Lemma elem_of_slice_to s n c : c ∈ slice_to s n -> c ∈ s.
Proof.
  unfold slice_to. intros Hc.
  destruct (0 <=? n);
    match type of Hc with
    | _ ∈ take ?k _ => rewrite <- (take_drop k s); apply elem_of_app; by left
    end.
Qed.

(** X5. A text without white space that is longer than [max_length] is
    cut by the four adapters at [max_length] exactly, and the marker of the
    adapter follows: the result overshoots the limit by the length of the
    marker. *)
Theorem truncate_text_long_token (text : str) (max_length : Z) :
  0 <= max_length -> max_length < len text ->
  (forall c, c ∈ text -> isspace c = false) ->
  FacebookAdapter._truncate_text text max_length
    = slice_to text max_length ++ FacebookAdapter.marker
  /\ InstagramAdapter._truncate_text text max_length
    = slice_to text max_length ++ InstagramAdapter.marker
  /\ YouTubeAdapter._truncate_text text max_length
    = slice_to text max_length ++ YouTubeAdapter.marker
  /\ LinkedInAdapter._truncate_text text max_length
    = slice_to text max_length ++ LinkedInAdapter.marker
  /\ len (FacebookAdapter._truncate_text text max_length) = max_length + 3
  /\ len (LinkedInAdapter._truncate_text text max_length) = max_length + 16.
Proof.
  intros Hm Hlen Hns.
  assert (forall n c, c ∈ slice_to text n -> isspace c = false) as Hslice.
  { intros n c Hc. by eapply Hns, elem_of_slice_to. }
  assert (forall n sub c, c ∈ sub -> isspace c = true ->
                          rfind (slice_to text n) sub = -1) as Hrfind.
  { intros n sub c Hc Hsp. apply (rfind_absent _ _ c Hc).
    intros Hin. apply Hslice in Hin. congruence. }
  assert (rfind (slice_to text max_length) (py " ") = -1) as Hsp.
  { apply (Hrfind _ _ 32%N); [by left|done]. }
  assert (rfind (slice_to text max_length) (py ". ") = -1) as Hs1.
  { apply (Hrfind _ _ 32%N); [right; by left|done]. }
  assert (rfind (slice_to text max_length) (py "! ") = -1) as Hs2.
  { apply (Hrfind _ _ 32%N); [right; by left|done]. }
  assert (rfind (slice_to text max_length) (py "? ") = -1) as Hs3.
  { apply (Hrfind _ _ 32%N); [right; by left|done]. }
  assert (contains (slice_to text (max_length - 50)) LinkedInAdapter.para
          = false) as Hpara.
  { apply (contains_absent _ _ 10%N); [by left|].
    intros Hin. apply Hslice in Hin. done. }
  assert (gt_70_percent (-1) max_length = false) as Hgt.
  { destruct (gt_70_percent (-1) max_length) eqn:E; [|done].
    apply gt_70_percent_pos in E; [lia|done]. }
  assert (strip (slice_to text max_length) = slice_to text max_length)
    as Hstrip.
  { apply strip_no_space, Hslice. }
  assert (len (slice_to text max_length) = max_length) as Hl.
  { rewrite slice_to_take by done. unfold len in *. rewrite length_take. lia. }
  assert (FacebookAdapter._truncate_text text max_length
          = slice_to text max_length ++ FacebookAdapter.marker) as Hf.
  { unfold FacebookAdapter._truncate_text.
    destruct (Z.leb_spec (len text) max_length); [lia|].
    cbv zeta. rewrite Hsp. change (0 <? -1) with false. cbv iota.
    by rewrite Hstrip. }
  assert (LinkedInAdapter._truncate_text text max_length
          = slice_to text max_length ++ LinkedInAdapter.marker) as Hli.
  { unfold LinkedInAdapter._truncate_text.
    destruct (Z.leb_spec (len text) max_length); [lia|].
    cbv zeta. rewrite Hpara, Hs1, Hs2, Hs3, Hsp.
    change (Z.max (Z.max (-1) (-1)) (-1)) with (-1). rewrite Hgt.
    change (0 <? -1) with false. cbv iota. by rewrite Hstrip. }
  split; [exact Hf|]. split.
  { unfold InstagramAdapter._truncate_text.
    destruct (Z.leb_spec (len text) max_length); [lia|].
    cbv zeta. rewrite Hsp. change (0 <? -1) with false. cbv iota.
    by rewrite Hstrip. }
  split.
  { unfold YouTubeAdapter._truncate_text.
    destruct (Z.leb_spec (len text) max_length); [lia|].
    cbv zeta. rewrite Hs1, Hs2, Hs3, Hsp.
    change (Z.max (Z.max (-1) (-1)) (-1)) with (-1). rewrite Hgt.
    change (0 <? -1) with false. cbv iota. by rewrite Hstrip. }
  split; [exact Hli|].
  rewrite Hf, Hli, !len_app, Hl. split; reflexivity.
Qed.

End long_token.

(** ** Image formats *)

Section formats.
Context `{Unicode}.

Lemma any_endswith_mono (s : str) (l k : list str) :
  l ⊆ k -> any_endswith s l = true -> any_endswith s k = true.
Proof.
  unfold any_endswith. intros Hsub. rewrite !existsb_exists.
  intros (x & Hx & He). exists x. split; [|done].
  apply list_elem_of_In, Hsub, list_elem_of_In, Hx.
Qed.

Lemma check_image_format_accepts (url : str) :
  (FacebookAdapter._check_image_format url).1
    = truthy_str url
      && any_endswith (lower url) FacebookAdapter.ALLOWED_IMAGE_FORMATS
  /\ (InstagramAdapter._check_image_format url).1
    = truthy_str url
      && any_endswith (lower url) InstagramAdapter.ALLOWED_IMAGE_FORMATS
  /\ (LinkedInAdapter._check_image_format url).1
    = truthy_str url
      && any_endswith (lower url) LinkedInAdapter.ALLOWED_IMAGE_FORMATS
  /\ (YouTubeAdapter._check_thumbnail_format url).1
    = truthy_str url
      && any_endswith (lower url)
           [py ".jpg"; py ".jpeg"; py ".png"; py ".gif"; py ".bmp"].
Proof.
  unfold InstagramAdapter._check_image_format,
    FacebookAdapter._check_image_format, LinkedInAdapter._check_image_format,
    YouTubeAdapter._check_thumbnail_format.
  destruct url as [|c u]; cbn [truthy_str negb andb].
  - repeat split; reflexivity.
  - cbv zeta. repeat split;
      match goal with
      | |- (if negb ?b then _ else _).1 = _ => destruct b; reflexivity
      end.
Qed.

(** X8. The formats of images: an image URL that Instagram accepts,
    Facebook and LinkedIn accept as well, and a URL that Facebook or
    LinkedIn accepts is accepted as a YouTube thumbnail; the empty URL is
    accepted by none. *)
Theorem image_formats_nested (url : str) :
  ((InstagramAdapter._check_image_format url).1 = true ->
   (FacebookAdapter._check_image_format url).1 = true)
  /\ ((FacebookAdapter._check_image_format url).1
      = (LinkedInAdapter._check_image_format url).1)
  /\ ((FacebookAdapter._check_image_format url).1 = true ->
      (YouTubeAdapter._check_thumbnail_format url).1 = true)
  /\ ((YouTubeAdapter._check_thumbnail_format url).1 = true -> url <> []).
Proof.
  destruct (check_image_format_accepts url) as (-> & -> & -> & ->).
  split; [|split; [|split]].
  - intros [Hu He]%andb_prop. rewrite Hu. cbn [andb].
    apply (any_endswith_mono _ InstagramAdapter.ALLOWED_IMAGE_FORMATS);
      [|exact He].
    intros x Hx.
    repeat (apply elem_of_cons in Hx as [->|Hx];
            [repeat first [apply list_elem_of_here
                          | apply list_elem_of_further]|]).
    by apply elem_of_nil in Hx.
  - reflexivity.
  - intros [Hu He]%andb_prop. rewrite Hu. cbn [andb].
    apply (any_endswith_mono _ FacebookAdapter.ALLOWED_IMAGE_FORMATS);
      [|exact He].
    intros x Hx.
    repeat (apply elem_of_cons in Hx as [->|Hx];
            [repeat first [apply list_elem_of_here
                          | apply list_elem_of_further]|]).
    by apply elem_of_nil in Hx.
  - intros [Hu _]%andb_prop ->. discriminate.
Qed.

End formats.

(** ** Which constructions of a content item succeed *)

Section construction_iff.
Import ContentItemModel.

Lemma field_missing_required {A} name validator put st :
  errors (@field A name Missing None validator put st) <> [].
Proof. simpl. by destruct (errors st). Qed.

Lemma construct_missing_required (now : datetime) (kw : kwargs) :
  id kw = Missing \/ brand_id kw = Missing \/ platform kw = Missing
  \/ content_type kw = Missing ->
  construct now kw = Raise ValidationError.
Proof.
  intros Hm.
  assert (errors (validate_model now kw) <> []) as He.
  { unfold validate_model. destruct Hm as [-> | [-> | [-> | ->]]].
    - do 9 apply field_errors_grow. apply field_missing_required.
    - do 8 apply field_errors_grow. apply field_missing_required.
    - do 7 apply field_errors_grow. apply field_missing_required.
    - do 6 apply field_errors_grow. apply field_missing_required. }
  unfold construct. by destruct (errors (validate_model now kw)).
Qed.

Lemma field_default {A} name (a : arg A) d put st :
  field name a (Some d) no_validator put st
  = {| vals := put (vals st) match a with Missing => d | Given v => v end;
       errors := errors st |}.
Proof. by destruct a. Qed.

Lemma construct_given (now : datetime) (kw : kwargs) i b p ct :
  id kw = Given i -> brand_id kw = Given b -> platform kw = Given p ->
  content_type kw = Given ct ->
  let payload {A} (a : arg (option A)) : option A :=
    match a with Given x => x | Missing => None end in
  let accepted :=
    match ct with
    | TEXT => text_content kw = Missing
    | IMAGE => text_content kw = Missing /\ image_content kw = Missing
    | VIDEO => text_content kw = Missing /\ image_content kw = Missing
               /\ video_content kw = Missing
    | _ => True
    end in
  (accepted ->
   exists ca ua,
     construct now kw
     = Ok {| ContentItem.id := i; ContentItem.brand_id := b;
             ContentItem.platform := p; ContentItem.content_type := ct;
             ContentItem.created_at := ca; ContentItem.updated_at := ua;
             ContentItem.text_content := payload (text_content kw);
             ContentItem.image_content := payload (image_content kw);
             ContentItem.video_content := payload (video_content kw);
             ContentItem.raw_request := payload (raw_request kw) |})
  /\ (~ accepted -> construct now kw = Raise ValidationError).
Proof.
  intros Hi Hb Hp Hc payload accepted. subst payload accepted.
  unfold construct, validate_model. rewrite Hi, Hb, Hp, Hc.
  rewrite !field_default.
  destruct (text_content kw) as [|t], (image_content kw) as [|im],
    (video_content kw) as [|v], ct; simpl;
    (split;
     [ intros Ha; first [ eexists _, _; reflexivity
                        | exfalso; intuition congruence ]
     | intros Hna; first [ reflexivity | exfalso; apply Hna; auto ] ]).
Qed.

(** X6. The construction of a [ContentItem] succeeds exactly when the
    identifier, the brand, the platform and the content type are given
    and no payload field is given up to the one the content type names:
    none of the three for a video, neither text nor image for an image,
    no text for a text; for the other content types every combination of
    payloads is accepted. The item then has the given content type, and
    each payload is the one given, or [None]. *)
Theorem construct_succeeds_iff (now : datetime) (kw : kwargs) :
  let payload {A} (a : arg (option A)) : option A :=
    match a with Given x => x | Missing => None end in
  ((exists item, construct now kw = Ok item)
   <-> id kw <> Missing /\ brand_id kw <> Missing /\ platform kw <> Missing
       /\ exists ct,
            content_type kw = Given ct
            /\ match ct with
               | TEXT => text_content kw = Missing
               | IMAGE => text_content kw = Missing
                          /\ image_content kw = Missing
               | VIDEO => text_content kw = Missing
                          /\ image_content kw = Missing
                          /\ video_content kw = Missing
               | _ => True
               end)
  /\ (forall item,
        construct now kw = Ok item ->
        content_type kw = Given (ContentItem.content_type item)
        /\ ContentItem.text_content item = payload (text_content kw)
        /\ ContentItem.image_content item = payload (image_content kw)
        /\ ContentItem.video_content item = payload (video_content kw)).
Proof.
  intros payload. subst payload.
  destruct (id kw) as [|i] eqn:Hi.
  { rewrite construct_missing_required by auto.
    split; [|done]. split; [by intros [? ?]|]. by intros [? _]. }
  destruct (brand_id kw) as [|b] eqn:Hb.
  { rewrite construct_missing_required by auto.
    split; [|done]. split; [by intros [? ?]|]. by intros (_ & ? & _). }
  destruct (platform kw) as [|p] eqn:Hp.
  { rewrite construct_missing_required by auto.
    split; [|done]. split; [by intros [? ?]|]. by intros (_ & _ & ? & _). }
  destruct (content_type kw) as [|ct] eqn:Hc.
  { rewrite construct_missing_required by auto.
    split; [|done]. split; [by intros [? ?]|].
    by intros (_ & _ & _ & ct & ? & _). }
  destruct (construct_given now kw i b p ct Hi Hb Hp Hc) as [Hyes Hno].
  assert (forall t im v,
            text_content kw = t -> image_content kw = im ->
            video_content kw = v ->
            match ct with
            | TEXT => t = Missing
            | IMAGE => t = Missing /\ im = Missing
            | VIDEO => t = Missing /\ im = Missing /\ v = Missing
            | _ => True
            end
            \/ ~ match ct with
                 | TEXT => t = Missing
                 | IMAGE => t = Missing /\ im = Missing
                 | VIDEO => t = Missing /\ im = Missing /\ v = Missing
                 | _ => True
                 end) as Hdec.
  { intros [|t] [|im] [|v] _ _ _; destruct ct;
      first [ left; repeat split; reflexivity
            | right; intuition congruence ]. }
  destruct (Hdec _ _ _ eq_refl eq_refl eq_refl) as [Ha|Hna].
  - destruct (Hyes Ha) as (ca & ua & ->). split.
    + split; [intros _|intros _; eexists; reflexivity].
      repeat split; try discriminate. by exists ct.
    + intros item [= <-]. repeat split.
  - rewrite (Hno Hna). split; [|done]. split; [by intros [? ?]|].
    intros (_ & _ & _ & ct' & [= <-] & Ha). by destruct Hna.
Qed.

End construction_iff.

(** ** The generic fallback of the dispatcher *)

Section generic_fallback.
Context `{Unicode}.
Import PlatformAdapter.

Lemma notes_platform_ne : py "notes" <> py "platform".
Proof. vm_compute. discriminate. Qed.

(** X7. [_generic_adapt] on every content dictionary: it raises
    [TypeError] when the notes are [None], a Boolean or an integer.
    Otherwise it answers a dictionary in which [platform] is the name
    given, every key other than [platform] and [notes] is as in the
    content, and the notes end with the notice: appended to the string
    when the notes are a string (the empty string when absent), and
    appended character by character as new elements when the notes are a
    list. *)
Theorem generic_adapt_outcome (content : gmap str value) (platform : str) :
  let notice :=
    py "
This content has been generically adapted for " ++ platform ++ py "." in
  let answers (notes : value) :=
    exists adapted,
      _generic_adapt content platform = Ok adapted
      /\ adapted !! py "platform" = Some (VStr platform)
      /\ adapted !! py "notes" = Some notes
      /\ forall k, k <> py "platform" -> k <> py "notes" ->
                   adapted !! k = content !! k in
  match content !! py "notes" with
  | None => answers (VStr notice)
  | Some (VStr s) => answers (VStr (s ++ notice))
  | Some (VList l) => answers (VList (l ++ map (fun c => VStr [c]) notice))
  | Some _ => _generic_adapt content platform = Raise TypeError
  end.
Proof.
  intros notice answers. subst answers. unfold _generic_adapt.
  fold notice. generalize notice. clear notice. intros notice.
  pose proof notes_platform_ne as Hne.
  rewrite lookup_insert_ne by done.
  destruct (content !! py "notes") as [v|] eqn:Hn.
  - rewrite lookup_insert_ne by done. rewrite Hn. cbn [default].
    destruct v as [|b|z|s|l]; cbn [iadd_str mbind res_bind];
      try reflexivity.
    + eexists. split; [reflexivity|].
      split; [|split].
      * rewrite lookup_insert_ne by done. apply lookup_insert_eq.
      * apply lookup_insert_eq.
      * intros k Hk1 Hk2. by rewrite !lookup_insert_ne.
    + eexists. split; [reflexivity|].
      split; [|split].
      * rewrite lookup_insert_ne by done. apply lookup_insert_eq.
      * apply lookup_insert_eq.
      * intros k Hk1 Hk2. by rewrite !lookup_insert_ne.
  - rewrite lookup_insert_eq. cbn [default iadd_str mbind res_bind app].
    eexists. split; [reflexivity|].
    split; [|split].
    + rewrite !lookup_insert_ne by done. apply lookup_insert_eq.
    + apply lookup_insert_eq.
    + intros k Hk1 Hk2. by rewrite !lookup_insert_ne.
Qed.

End generic_fallback.

(** ** Titles that YouTube's adapter writes *)

Section generated_title.
Context `{Unicode}.

Lemma ascii_upper_not_lower c :
  is_ascii_lower c = true -> is_ascii_lower (ascii_upper c) = false.
Proof.
  unfold ascii_upper. intros Hc. rewrite Hc. unfold is_ascii_lower in *.
  apply andb_prop in Hc as [H1%N.leb_le H2%N.leb_le].
  apply andb_false_iff. left. apply N.leb_gt. lia.
Qed.

Lemma capitalize_ascii_head s :
  match YouTubeAdapter.capitalize_ascii s with
  | c :: _ => is_ascii_lower c = false
  | [] => True
  end.
Proof.
  destruct s as [|c r]; [done|]. cbn [YouTubeAdapter.capitalize_ascii].
  destruct (is_ascii_lower c) eqn:Hc; [|exact Hc].
  by apply ascii_upper_not_lower.
Qed.

Lemma capitalize_ascii_len s : len (YouTubeAdapter.capitalize_ascii s) = len s.
Proof.
  destruct s as [|c r]; [done|]. cbn [YouTubeAdapter.capitalize_ascii].
  by destruct (is_ascii_lower c).
Qed.

Lemma capitalize_ascii_idem s :
  YouTubeAdapter.capitalize_ascii (YouTubeAdapter.capitalize_ascii s)
  = YouTubeAdapter.capitalize_ascii s.
Proof.
  pose proof (capitalize_ascii_head s) as Hh.
  destruct (YouTubeAdapter.capitalize_ascii s) as [|c r]; [done|].
  cbn [YouTubeAdapter.capitalize_ascii]. by rewrite Hh.
Qed.

Lemma adapt_title_fixes title :
  title <> [] -> len title <= YouTubeAdapter.MAX_TITLE_LENGTH ->
  YouTubeAdapter._adapt_title title = YouTubeAdapter.capitalize_ascii title.
Proof.
  intros Hne Hlen. unfold YouTubeAdapter._adapt_title.
  destruct title as [|c r]; [done|]. cbn [truthy_str negb].
  by destruct (Z.ltb_spec YouTubeAdapter.MAX_TITLE_LENGTH (len (c :: r)));
    [lia|].
Qed.

(** X9. The title that [_generate_title_from_text] makes of a text is at
    most 63 characters long (the ideal length and the three dots of a
    truncation), does not begin with a letter a-z, and, unless it is
    empty, is a title that [_adapt_title] returns as it is. *)
Theorem generated_title_fits (text : str) :
  let title := YouTubeAdapter._generate_title_from_text text in
  len title <= YouTubeAdapter.IDEAL_TITLE_LENGTH + 3
  /\ match title with
     | c :: _ => is_ascii_lower c = false
     | [] => True
     end
  /\ (title <> [] -> YouTubeAdapter._adapt_title title = title).
Proof.
  intros title.
  assert (len title <= YouTubeAdapter.IDEAL_TITLE_LENGTH + 3
          /\ exists s, title = YouTubeAdapter.capitalize_ascii s) as [Hlen [s Hs]].
  { subst title. unfold YouTubeAdapter._generate_title_from_text.
    destruct text as [|c r].
    - split; [vm_compute; discriminate|].
      eexists. symmetry. apply capitalize_ascii_id.
      intros d rest Hd. vm_compute in Hd. by injection Hd as <- _.
    - cbn [truthy_str negb].
      match goal with
      | |- context [if 10 <? ?n then ?a else ?b] =>
          generalize (if 10 <? n then a else b)
      end.
      intros fs. split; [|by eexists].
      rewrite capitalize_ascii_len.
      destruct (Z.ltb_spec YouTubeAdapter.IDEAL_TITLE_LENGTH (len fs)) as [Hl|Hl].
      + pose proof (youtube_truncate_bound fs YouTubeAdapter.IDEAL_TITLE_LENGTH)
          as Hb.
        change (len YouTubeAdapter.marker) with 3 in Hb. apply Hb; [|done].
        by vm_compute.
      + lia. }
  split; [exact Hlen|]. split.
  - rewrite Hs. apply capitalize_ascii_head.
  - intros Hne. rewrite adapt_title_fixes; [|done|].
    + rewrite Hs. apply capitalize_ascii_idem.
    + change YouTubeAdapter.IDEAL_TITLE_LENGTH with 60 in Hlen.
      change YouTubeAdapter.MAX_TITLE_LENGTH with 100. lia.
Qed.

End generated_title.

(** ** Hashtags collected at the end of a text *)

Section hashtag_reflow.
Context `{Unicode}.
Implicit Types (s t a b : str) (p : char -> bool).

Lemma hash_not_word : is_word re.hash = false.
Proof. reflexivity. Qed.

Lemma space_hash_chars : py " #" = [32%N; re.hash].
Proof. vm_compute. reflexivity. Qed.

Lemma hash_chars : py "#" = [re.hash].
Proof. vm_compute. reflexivity. Qed.

Lemma space_chars : py " " = [32%N].
Proof. vm_compute. reflexivity. Qed.

Lemma paragraph_chars : py "

" = [10%N; 10%N].
Proof. vm_compute. reflexivity. Qed.

Lemma take_while_app_stop p a b :
  take_while p b = [] -> take_while p (a ++ b) = take_while p a.
Proof.
  intros Hb. induction a as [|c a IH]; [by rewrite app_nil_l|].
  rewrite <- app_comm_cons. cbn [take_while].
  destruct (p c); [by rewrite IH|done].
Qed.

Lemma take_while_id p t :
  Forall (fun c => p c = true) t -> take_while p t = t.
Proof.
  induction 1 as [|c t Hc _ IH]; [done|].
  cbn [take_while]. by rewrite Hc, IH.
Qed.

Lemma take_while_Forall p s : Forall (fun c => p c = true) (take_while p s).
Proof.
  induction s as [|c s IH]; [constructor|]. cbn [take_while].
  destruct (p c) eqn:Hc; by constructor.
Qed.

Lemma findall_tail c s :
  re.findall_hashtag (c :: s) = [] -> re.findall_hashtag s = [].
Proof.
  cbn [re.findall_hashtag]. destruct (c =? re.hash)%N; [|done].
  by destruct (take_while is_word s).
Qed.

Lemma findall_word_run t :
  Forall (fun c => is_word c = true) t -> re.findall_hashtag t = [].
Proof.
  induction 1 as [|c t Hc _ IH]; [done|]. cbn [re.findall_hashtag].
  destruct (N.eqb_spec c re.hash) as [->|_]; [|done].
  by rewrite hash_not_word in Hc.
Qed.

Lemma findall_app a b :
  take_while is_word b = [] ->
  re.findall_hashtag (a ++ b) = re.findall_hashtag a ++ re.findall_hashtag b.
Proof.
  intros Hb. induction a as [|c a IH]; [by rewrite app_nil_l|].
  rewrite <- app_comm_cons. cbn [re.findall_hashtag].
  rewrite take_while_app_stop by done. rewrite IH.
  destruct (c =? re.hash)%N; [|done]. by destruct (take_while is_word a).
Qed.

Lemma findall_app_nil a b :
  re.findall_hashtag (a ++ b) = [] -> re.findall_hashtag a = [].
Proof.
  induction a as [|c a IH]; [done|].
  rewrite <- app_comm_cons. cbn [re.findall_hashtag].
  destruct (c =? re.hash)%N; [|exact IH].
  destruct (take_while is_word (a ++ b)) as [|d w] eqn:Et; [|done].
  assert (take_while is_word a = []) as ->; [|exact IH].
  destruct a as [|d a']; [done|].
  rewrite <- app_comm_cons in Et. cbn [take_while] in Et |- *.
  by destruct (is_word d).
Qed.

Lemma findall_drop_while p s :
  re.findall_hashtag s = [] -> re.findall_hashtag (drop_while p s) = [].
Proof.
  induction s as [|c s IH]; [done|]. intros Hf. cbn [drop_while].
  destruct (p c); [|done]. apply IH. by apply findall_tail in Hf.
Qed.

Lemma drop_while_suffix p s : exists a, s = a ++ drop_while p s.
Proof.
  induction s as [|c s [a IH]]; [by exists []|]. cbn [drop_while].
  destruct (p c); [|by exists []].
  exists (c :: a). rewrite <- app_comm_cons. by f_equal.
Qed.

Lemma findall_strip s :
  re.findall_hashtag s = [] -> re.findall_hashtag (strip s) = [].
Proof.
  intros Hf. unfold strip, rstrip, lstrip.
  apply (findall_drop_while isspace) in Hf.
  destruct (drop_while_suffix isspace (reverse (drop_while isspace s)))
    as [a Ha].
  apply (f_equal reverse) in Ha.
  rewrite reverse_involutive, reverse_app in Ha.
  rewrite Ha in Hf. by apply findall_app_nil in Hf.
Qed.

Lemma sub_hashtag_inside_stop s :
  take_while is_word (re.sub_hashtag_from true s) = [].
Proof.
  induction s as [|c s IH]; [done|]. cbn [re.sub_hashtag_from andb].
  destruct (is_word c) eqn:Ec; [exact IH|].
  destruct (_ && _); [exact IH|]. cbn [take_while]. by rewrite Ec.
Qed.

Lemma sub_hashtag_outside_stop s :
  take_while is_word s = [] ->
  take_while is_word (re.sub_hashtag_from false s) = [].
Proof.
  destruct s as [|c s]; [done|]. cbn [take_while].
  destruct (is_word c) eqn:Ec; [done|]. intros _.
  cbn [re.sub_hashtag_from andb].
  destruct (_ && _); [apply sub_hashtag_inside_stop|].
  cbn [take_while]. by rewrite Ec.
Qed.

(** What [re.sub] leaves holds no hashtag. *)
Lemma findall_sub_hashtag inside s :
  re.findall_hashtag (re.sub_hashtag_from inside s) = [].
Proof.
  revert inside. induction s as [|c s IH]; intros inside; [done|].
  cbn [re.sub_hashtag_from]. destruct (inside && is_word c); [apply IH|].
  destruct (N.eqb_spec c re.hash) as [->|Hc]; cbn [andb].
  - destruct (match s with d :: _ => is_word d | [] => false end) eqn:Es;
      [apply IH|].
    cbn [re.findall_hashtag]. rewrite N.eqb_refl.
    rewrite sub_hashtag_outside_stop; [apply IH|].
    destruct s as [|d s']; [done|]. cbn [take_while]. by rewrite Es.
  - cbn [re.findall_hashtag]. apply N.eqb_neq in Hc. rewrite Hc. apply IH.
Qed.

(** The tags [re.findall] captures are runs of word characters that are
    not empty. *)
Lemma findall_tags s :
  Forall (fun t => t <> [] /\ Forall (fun c => is_word c = true) t)
    (re.findall_hashtag s).
Proof.
  induction s as [|c s IH]; [constructor|]. cbn [re.findall_hashtag].
  destruct (c =? re.hash)%N; [|done].
  destruct (take_while is_word s) as [|d w] eqn:Et; [done|].
  constructor; [|done]. split; [done|]. rewrite <- Et.
  apply take_while_Forall.
Qed.

Lemma findall_one_tag t :
  t <> [] -> Forall (fun c => is_word c = true) t ->
  re.findall_hashtag (re.hash :: t) = [t].
Proof.
  intros Hne Ht. cbn [re.findall_hashtag]. rewrite N.eqb_refl.
  rewrite (take_while_id _ _ Ht), (findall_word_run _ Ht).
  by destruct t.
Qed.

Lemma findall_appended_tags (tags : list str) base :
  Forall (fun t => t <> [] /\ Forall (fun c => is_word c = true) t) tags ->
  re.findall_hashtag
    (fold_left (fun acc tag => acc ++ py " #" ++ tag) tags base)
  = re.findall_hashtag base ++ tags.
Proof.
  intros Htags. revert base.
  induction Htags as [|t tags [Hne Ht] _ IH]; intros base;
    cbn [fold_left]; [by rewrite app_nil_r|].
  rewrite IH. rewrite space_hash_chars.
  rewrite findall_app by reflexivity.
  change ([32%N; re.hash] ++ t) with (32%N :: re.hash :: t).
  assert (re.findall_hashtag (32%N :: re.hash :: t) = [t]) as ->.
  { change (re.findall_hashtag (32%N :: re.hash :: t))
      with (re.findall_hashtag (re.hash :: t)).
    by apply findall_one_tag. }
  by rewrite <- app_assoc.
Qed.

Lemma findall_joined_tags (tags : list str) :
  Forall (fun t => t <> [] /\ Forall (fun c => is_word c = true) t) tags ->
  re.findall_hashtag (join (py " ") (map (fun tag => py "#" ++ tag) tags))
  = tags
  /\ take_while is_word
       (join (py " ") (map (fun tag => py "#" ++ tag) tags)) = [].
Proof.
  rewrite hash_chars, space_chars.
  induction 1 as [|t tags [Hne Ht] Htags [IH _]]; [done|].
  cbn [map]. change ([re.hash] ++ t) with (re.hash :: t).
  split.
  - destruct tags as [|t' tags].
    + cbn [map join]. by apply findall_one_tag.
    + cbn [map] in *. cbn [join].
      change ((re.hash :: t) ++ [32%N] ++ ?x) with ((re.hash :: t) ++ 32%N :: x).
      rewrite findall_app by reflexivity.
      rewrite findall_one_tag by done.
      change (re.findall_hashtag (32%N :: ?x)) with (re.findall_hashtag x).
      cbn [join] in IH. by rewrite IH.
  - destruct tags as [|t' tags]; cbn [map join];
      [|rewrite <- app_comm_cons]; cbn [take_while];
      by rewrite hash_not_word.
Qed.

(** X10. When a text carries more than five inline hashtags, Facebook's
    [_adapt_hashtags] keeps the first five of them, whatever the explicit
    tags are, and the text it writes carries exactly these five, in their
    order; applied to its own output, with the same explicit tags, it
    changes nothing. *)
Theorem facebook_hashtag_reflow (text : str) (explicit : option (list str)) :
  FacebookAdapter.MAX_HASHTAGS < llen (re.findall_hashtag text) ->
  let r := FacebookAdapter._adapt_hashtags text explicit in
  r.2 = take 5 (re.findall_hashtag text)
  /\ re.findall_hashtag r.1 = r.2
  /\ FacebookAdapter._adapt_hashtags r.1 explicit = r.
Proof.
  intros Hmore r.
  change FacebookAdapter.MAX_HASHTAGS with 5 in Hmore. unfold llen in Hmore.
  assert (r.2 = take 5 (re.findall_hashtag text)) as Htags.
  { subst r. unfold FacebookAdapter._adapt_hashtags.
    assert (merge_hashtags FacebookAdapter.MAX_HASHTAGS
              (re.findall_hashtag text) explicit
            = take 5 (re.findall_hashtag text)) as ->.
    { rewrite merge_hashtags_unfold. cbv zeta.
      change FacebookAdapter.MAX_HASHTAGS with 5.
      destruct (Z.ltb_spec 5 (llen (re.findall_hashtag text ++
        List.filter (fun tag => negb (mem tag (re.findall_hashtag text)))
          (default [] explicit)))) as [_|Hle].
      - change (Z.to_nat 5) with 5%nat. rewrite take_app_le by lia. done.
      - unfold llen in Hle. rewrite length_app in Hle. lia. }
    by destruct (_ <? _). }
  assert (re.findall_hashtag r.1 = r.2) as Hround.
  { rewrite Htags. subst r. unfold FacebookAdapter._adapt_hashtags.
    destruct (Z.ltb_spec FacebookAdapter.MAX_HASHTAGS
                (llen (re.findall_hashtag text))) as [_|Hle];
      [|unfold llen in Hle; change FacebookAdapter.MAX_HASHTAGS with 5 in Hle;
        lia].
    cbn [fst].
    assert (merge_hashtags FacebookAdapter.MAX_HASHTAGS
              (re.findall_hashtag text) explicit
            = take 5 (re.findall_hashtag text)) as ->.
    { rewrite <- Htags. unfold FacebookAdapter._adapt_hashtags.
      by destruct (_ <? _). }
    rewrite findall_appended_tags by (apply Forall_take, findall_tags).
    unfold re.sub_hashtag.
    by rewrite findall_strip by apply findall_sub_hashtag. }
  split; [exact Htags|]. split; [exact Hround|].
  unfold FacebookAdapter._adapt_hashtags at 1. rewrite Hround, Htags.
  assert (merge_hashtags FacebookAdapter.MAX_HASHTAGS
            (take 5 (re.findall_hashtag text)) explicit
          = take 5 (re.findall_hashtag text)) as ->.
  { rewrite merge_hashtags_unfold. cbv zeta.
    assert (length (take 5 (re.findall_hashtag text)) = 5%nat) as Hl.
    { rewrite length_take. lia. }
    change (Z.to_nat FacebookAdapter.MAX_HASHTAGS) with 5%nat.
    rewrite take_app_le by lia.
    rewrite (take_ge (take 5 (re.findall_hashtag text))) by lia.
    destruct (_ <? _) eqn:E; [done|].
    apply Z.ltb_ge in E. unfold llen in E. rewrite length_app in E.
    change FacebookAdapter.MAX_HASHTAGS with 5 in E.
    destruct (List.filter _ _) as [|k ks]; [by rewrite app_nil_r|].
    cbn [length] in E. lia. }
  assert ((FacebookAdapter.MAX_HASHTAGS
             <? llen (take 5 (re.findall_hashtag text))) = false) as ->.
  { apply Z.ltb_ge. unfold llen. rewrite length_take.
    change FacebookAdapter.MAX_HASHTAGS with 5. lia. }
  rewrite <- Htags. by destruct r.
Qed.

(** X11. When a text carries more than three inline hashtags and the
    explicit tags are runs of word characters that are not empty, the
    caption Instagram's [_adapt_hashtags] writes carries exactly the tags
    it returns, in their order. *)
Theorem instagram_hashtag_reflow (text : str) (explicit : option (list str)) :
  3 < llen (re.findall_hashtag text) ->
  Forall (fun t => t <> [] /\ Forall (fun c => is_word c = true) t)
    (default [] explicit) ->
  let r := InstagramAdapter._adapt_hashtags text explicit in
  re.findall_hashtag r.1 = r.2.
Proof.
  intros Hmore Hexp r. subst r. unfold InstagramAdapter._adapt_hashtags.
  assert ((truthy_list (re.findall_hashtag text)
           && (3 <? llen (re.findall_hashtag text))) = true) as ->.
  { apply andb_true_intro. split; [|by apply Z.ltb_lt].
    destruct (re.findall_hashtag text); [|done]. by cbn in Hmore. }
  cbn [fst snd].
  assert (Forall (fun t => t <> [] /\ Forall (fun c => is_word c = true) t)
            (merge_hashtags InstagramAdapter.MAX_HASHTAGS
               (re.findall_hashtag text) explicit)) as Hall.
  { apply Forall_forall. intros t Ht.
    apply (merge_hashtags_spec InstagramAdapter.MAX_HASHTAGS) in Ht;
      [|by vm_compute].
    pose proof (findall_tags text) as Hin.
    rewrite Forall_forall in Hin, Hexp.
    destruct Ht as [Ht|Ht]; auto. }
  destruct (findall_joined_tags _ Hall) as [Hjoin Hstop].
  pose proof (findall_strip _ (findall_sub_hashtag false text)) as Hbase.
  fold (re.sub_hashtag text) in Hbase.
  destruct (_ && _).
  - rewrite paragraph_chars.
    rewrite findall_app by reflexivity. rewrite Hbase.
    change ([10%N; 10%N] ++ ?x) with (10%N :: 10%N :: x).
    change (re.findall_hashtag (10%N :: 10%N :: ?x))
      with (re.findall_hashtag x).
    exact Hjoin.
  - rewrite findall_app by exact Hstop. by rewrite Hbase, Hjoin.
Qed.

End hashtag_reflow.

(** ** The outcomes of YouTube's adapter *)

Section youtube_outcomes.
Context `{Unicode} `{Patterns}.

Lemma youtube_video_path (item : ContentItem.t) :
  exists r, YouTubeAdapter.adapt_video_content item = Ok r
    /\ match ContentItem.video_content item with
       | Some _ => is_success r
       | None => is_failure_of item r
       end.
Proof.
  unfold YouTubeAdapter.adapt_video_content.
  destruct (ContentItem.video_content item) as [vc|].
  - match goal with
    | |- context [let '(a, b) := ?p in _] => destruct p as [v m]
    end.
    eexists. split; [reflexivity|apply succeed_is_success].
  - eexists. split; [reflexivity|apply failure_is_failure].
Qed.

Lemma youtube_description_path (item : ContentItem.t) :
  exists r, YouTubeAdapter.adapt_to_description item = Ok r
    /\ match ContentItem.text_content item with
       | Some _ => is_success r
       | None => is_failure_of item r
       end.
Proof.
  unfold YouTubeAdapter.adapt_to_description.
  destruct (ContentItem.text_content item) as [tc|].
  - eexists. split; [reflexivity|apply succeed_is_success].
  - eexists. split; [reflexivity|apply failure_is_failure].
Qed.

Lemma youtube_thumbnail_path (item : ContentItem.t) :
  match ContentItem.image_content item with
  | None => exists r, YouTubeAdapter.adapt_to_thumbnail item = Ok r
                      /\ is_failure_of item r
  | Some ic =>
      if match ImageContent.image_url ic with
         | Some (c :: u) => (YouTubeAdapter._check_thumbnail_format (c :: u)).1
         | _ => false
         end
      then YouTubeAdapter.adapt_to_thumbnail item = Raise ValueError
      else exists r, YouTubeAdapter.adapt_to_thumbnail item = Ok r
                     /\ is_success r
  end.
Proof.
  destruct (ContentItem.image_content item) as [ic|] eqn:Hic.
  - destruct (youtube_thumbnail_outcome item ic Hic) as [Hraise Hok].
    cbv zeta in Hraise, Hok.
    destruct (match ImageContent.image_url ic with
              | Some (c :: u) =>
                  (YouTubeAdapter._check_thumbnail_format (c :: u)).1
              | _ => false
              end).
    + by apply Hraise.
    + destruct (Hok eq_refl) as (r & _ & _ & Hr & Hs & _). by exists r.
  - unfold YouTubeAdapter.adapt_to_thumbnail. rewrite Hic.
    eexists. split; [reflexivity|apply failure_is_failure].
Qed.

(** X12. YouTube's [adapt_content] raises in one case only, and then a
    [ValueError]: the item declares an image and carries an image payload
    whose URL is not empty and has an accepted extension. In every other
    case it answers with a result, a success when the item carries the
    payload of the type it declares and a failure that echoes the item
    otherwise. *)
Theorem youtube_adapt_content_outcome (item : ContentItem.t) :
  let raises :=
    ContentItem.content_type item = IMAGE
    /\ exists ic c u,
         ContentItem.image_content item = Some ic
         /\ ImageContent.image_url ic = Some (c :: u)
         /\ (YouTubeAdapter._check_thumbnail_format (c :: u)).1 = true in
  (raises -> YouTubeAdapter.adapt_content item = Raise ValueError)
  /\ (~ raises ->
      exists r, YouTubeAdapter.adapt_content item = Ok r
                /\ (if adaptable item then is_success r
                    else is_failure_of item r)).
Proof.
  intros raises.
  destruct (youtube_video_path item) as (rv & Hrv & Prv).
  destruct (youtube_description_path item) as (rt & Hrt & Prt).
  pose proof (youtube_thumbnail_path item) as Hi.
  unfold YouTubeAdapter.adapt_content. split.
  - intros (Ect & ic & c & u & Hic & Hurl & Hacc). rewrite Ect.
    rewrite Hic, Hurl, Hacc in Hi. exact Hi.
  - intros Hnr. destruct (ContentItem.content_type item) eqn:Ect.
    + rewrite (adaptable_text item Ect). exists rt.
      destruct (ContentItem.text_content item); auto.
    + rewrite (adaptable_image item Ect).
      destruct (ContentItem.image_content item) as [ic|]; [|exact Hi].
      destruct (ImageContent.image_url ic) as [[|c u]|] eqn:Hurl;
        try exact Hi.
      destruct ((YouTubeAdapter._check_thumbnail_format (c :: u)).1) eqn:Hacc;
        [|exact Hi].
      exfalso. apply Hnr. split; [done|]. by exists ic, c, u.
    + rewrite (adaptable_video item Ect). exists rv.
      destruct (ContentItem.video_content item); auto.
    + unfold adaptable. rewrite Ect. eexists.
      split; [reflexivity|apply failure_is_failure].
    + unfold adaptable. rewrite Ect. eexists.
      split; [reflexivity|apply failure_is_failure].
    + unfold adaptable. rewrite Ect. eexists.
      split; [reflexivity|apply failure_is_failure].
Qed.

End youtube_outcomes.

(** ** The tags of a YouTube video *)

Section youtube_tags.
Context `{Unicode}.

(** The loop keeps a list without duplicates, of tags within the length
    limit, whose lengths and separators add up to [total_length], within
    the limit of the total. *)
Lemma unique_tags_loop_invariant (tags unique_tags : list str)
    (total_length : Z) :
  NoDup unique_tags ->
  Forall (fun t => len t <= YouTubeAdapter.MAX_TAG_LENGTH) unique_tags ->
  total_length = fold_right Z.add 0 (map (fun t => len t + 1) unique_tags) ->
  total_length <= YouTubeAdapter.MAX_TAGS ->
  let result := YouTubeAdapter.unique_tags_loop tags unique_tags total_length in
  NoDup result
  /\ Forall (fun t => len t <= YouTubeAdapter.MAX_TAG_LENGTH) result
  /\ fold_right Z.add 0 (map (fun t => len t + 1) result)
     <= YouTubeAdapter.MAX_TAGS
  /\ (forall t, t ∈ result -> t ∈ unique_tags \/ t ∈ tags).
Proof.
  revert unique_tags total_length.
  induction tags as [|tag rest IH]; intros u total Hnd Hlen Htot Hmax;
    cbn [YouTubeAdapter.unique_tags_loop].
  - cbv zeta. repeat split; [done|done|lia|auto].
  - assert (forall u' total',
              NoDup u' ->
              Forall (fun t => len t <= YouTubeAdapter.MAX_TAG_LENGTH) u' ->
              total' = fold_right Z.add 0 (map (fun t => len t + 1) u') ->
              total' <= YouTubeAdapter.MAX_TAGS ->
              (forall t, t ∈ u' -> t ∈ u \/ t ∈ tag :: rest) ->
              let result := YouTubeAdapter.unique_tags_loop rest u' total' in
              NoDup result
              /\ Forall (fun t => len t <= YouTubeAdapter.MAX_TAG_LENGTH)
                   result
              /\ fold_right Z.add 0 (map (fun t => len t + 1) result)
                 <= YouTubeAdapter.MAX_TAGS
              /\ (forall t, t ∈ result -> t ∈ u \/ t ∈ tag :: rest)) as Hstep.
    { intros u' total' Hnd' Hlen' Htot' Hmax' Hsub.
      destruct (IH u' total' Hnd' Hlen' Htot' Hmax') as (H1 & H2 & H3 & H4).
      repeat split; [done|done|done|].
      intros t [Ht|Ht]%H4; [by apply Hsub|].
      right. by apply list_elem_of_further. }
    unfold mem. destruct (bool_decide_reflect (tag ∈ u)) as [Hin|Hnin];
      cbn [negb]; [apply Hstep; auto|].
    destruct (Z.leb_spec (len tag) YouTubeAdapter.MAX_TAG_LENGTH) as [Hl|Hl];
      [|apply Hstep; auto].
    destruct (Z.leb_spec (total + len tag + 1) YouTubeAdapter.MAX_TAGS)
      as [Ht|Ht]; [|apply Hstep; auto].
    apply Hstep.
    + apply NoDup_app. repeat split; [done| |apply NoDup_singleton].
      intros x Hx ->%list_elem_of_singleton. done.
    + apply Forall_app. split; [done|]. by constructor.
    + rewrite map_app, fold_right_app. cbn [map fold_right].
      rewrite Htot. clear.
      induction u as [|x u IHu]; cbn [map fold_right]; lia.
    + done.
    + intros t [Hu| ->%list_elem_of_singleton]%elem_of_app; [by left|].
      right. apply list_elem_of_here.
Qed.

(** X13. The tags [_extract_tags] returns hold no tag twice, each has at
    most 30 characters, and their lengths, with one separator each, add
    up to at most 500. *)
Theorem extract_tags_within_limits (text title : str) :
  let tags := YouTubeAdapter._extract_tags text title in
  NoDup tags
  /\ Forall (fun t => len t <= YouTubeAdapter.MAX_TAG_LENGTH) tags
  /\ fold_right Z.add 0 (map (fun t => len t + 1) tags)
     <= YouTubeAdapter.MAX_TAGS.
Proof.
  intros tags. subst tags. unfold YouTubeAdapter._extract_tags.
  match goal with
  | |- context [YouTubeAdapter.unique_tags_loop ?l [] 0] =>
      destruct (unique_tags_loop_invariant l [] 0) as (H1 & H2 & H3 & _)
  end; [apply NoDup_nil_2|constructor|reflexivity|by vm_compute|].
  auto.
Qed.

End youtube_tags.

(** ** Further properties of the consistency check *)

Section scorer_more.
Context `{Unicode} `{NLTK}.
Import BrandStyleKeeper.

(** X14. With a brand model and, as language model, an instance of the
    class [BrandLanguageModel] of [marketgenius/brand/modeler.py], which
    defines no [score_text], [check_consistency] raises
    [AttributeError]. *)
Theorem check_consistency_modeler_raises (self : t) (content : str) :
  (forall bm, brand_model self = Some bm -> BrandModel.valid bm) ->
  is_Some (brand_model self) ->
  language_model self = Some modeler_BrandLanguageModel ->
  check_consistency self content = Raise AttributeError.
Proof.
  intros Hv [bm Hbm] Hlm.
  destruct (check_keywords_unit self content) as (k & kd & Hk & _).
  destruct (check_sentence_length_unit self content Hv) as (s & sd & Hs & _).
  destruct (check_style_attributes_unit self content) as (st & std & Hst & _).
  unfold check_consistency. rewrite Hbm, Hk, Hs, Hst, Hlm. reflexivity.
Qed.

Lemma filter_partition_length {A} (p : A -> bool) (l : list A) :
  (length (List.filter p l) + length (List.filter (fun x => negb (p x)) l)
   = length l)%nat.
Proof.
  induction l as [|x l IH]; [done|]. cbn [List.filter].
  destruct (p x); cbn [negb length]; lia.
Qed.

(** X15. The keyword check of a brand with keywords: every keyword is
    reported either as found, when its lower case occurs in the lower
    case of the text, or as missing, and never as both; the score is the
    share of the keywords found, 1 exactly when none is missing and 0
    exactly when none is found. *)
Theorem check_keywords_report (self : t) (content : str) (bm : BrandModel.t) :
  brand_model self = Some bm ->
  BrandModel.keywords bm <> [] ->
  exists (score : Q) (found missing : list str) (coverage : str),
    _check_keywords self content
    = Ok (score, KeywordReport found missing coverage)
    /\ (forall k,
          k ∈ BrandModel.keywords bm ->
          if contains (lower content) (lower k)
          then k ∈ found /\ k ∉ missing
          else k ∈ missing /\ k ∉ found)
    /\ llen found + llen missing = llen (BrandModel.keywords bm)
    /\ (score * QZ (llen (BrandModel.keywords bm)) == QZ (llen found))%Q
    /\ ((score == 1)%Q <-> missing = [])
    /\ ((score == 0)%Q <-> found = []).
Proof.
  intros Hbm Hne. unfold _check_keywords. rewrite Hbm.
  destruct (BrandModel.keywords bm) as [|k0 ks] eqn:Hkw; [done|].
  rewrite <- Hkw. clear Hne.
  set (kws := BrandModel.keywords bm).
  set (p := fun k => contains (lower content) (lower k)).
  set (found := List.filter p kws).
  set (missing := List.filter (fun k => negb (p k)) kws).
  assert (0 < llen kws) as Hpos.
  { unfold kws. rewrite Hkw. apply llen_cons_pos. }
  assert (llen found + llen missing = llen kws) as Hlen.
  { unfold llen, found, missing.
    pose proof (filter_partition_length p kws). lia. }
  rewrite div_QZ by lia. cbn [mbind res_bind].
  exists (QZ (llen found) / QZ (llen kws))%Q, found, missing.
  eexists. split; [reflexivity|].
  pose proof (QZ_pos _ Hpos) as HQ.
  assert (forall a : Z, (QZ a / QZ (llen kws) * QZ (llen kws) == QZ a)%Q)
    as Hdiv.
  { intros a. field. intros Hz. rewrite Hz in HQ. by apply Qlt_irrefl in HQ. }
  assert (forall a b : Z, (QZ a / QZ (llen kws) == QZ b)%Q
                          <-> a = b * llen kws) as Heq.
  { intros a b. split.
    - intros He.
      assert (QZ a == QZ b * QZ (llen kws))%Q as He'.
      { rewrite <- (Hdiv a), He. reflexivity. }
      apply inject_Z_injective. rewrite inject_Z_mult. exact He'.
    - intros ->. unfold QZ. rewrite inject_Z_mult. field.
      intros Hz. fold (QZ (llen kws)) in Hz. rewrite Hz in HQ.
      by apply Qlt_irrefl in HQ. }
  split; [|split; [exact Hlen|split; [apply Hdiv|split]]].
  - intros k Hk. unfold found, missing, p.
    destruct (contains (lower content) (lower k)) eqn:Ep; split.
    + apply list_elem_of_In, filter_In. split; [by apply list_elem_of_In|done].
    + intros Hin. apply list_elem_of_In, filter_In in Hin as [_ Hn].
      cbv beta in Hn. by rewrite Ep in Hn.
    + apply list_elem_of_In, filter_In. split; [by apply list_elem_of_In|].
      cbv beta. by rewrite Ep.
    + intros Hin. apply list_elem_of_In, filter_In in Hin as [_ Hn].
      congruence.
  - change 1%Q with (QZ 1). rewrite Heq. split.
    + intros Hf. assert (llen missing = 0) as Hm by lia.
      apply nil_length_inv. unfold llen in Hm. lia.
    + intros Hm. assert (llen missing = 0) as Hz by (by rewrite Hm). lia.
  - change 0%Q with (QZ 0). rewrite Heq. split.
    + intros Hf. assert (llen found = 0) as Hm by lia.
      apply nil_length_inv. unfold llen in Hm. lia.
    + intros Hm. by rewrite Hm.
Qed.

Lemma Qltb_lt (x y : Q) : Qltb x y = true <-> (x < y)%Q.
Proof.
  unfold Qltb. rewrite negb_true_iff. split.
  - intros Hb. apply Qnot_le_lt. intros Hle.
    apply Qle_bool_iff in Hle. congruence.
  - intros Hlt. destruct (Qle_bool y x) eqn:E; [|done].
    apply Qle_bool_iff in E. apply Qlt_not_le in Hlt. done.
Qed.

(** A property of the suggestions made before the overall one. *)
Lemma suggestions_before_overall (P : str -> Prop) (sugg : list str)
    (s st : Q) (sd : sentence_length_details) (std : style_details) :
  Forall P sugg ->
  P (py "縮短句子長度，使用更簡潔的表達") ->
  P (py "擴展句子長度，添加更多細節或描述") ->
  (forall attr detail,
      P (py "增強 '" ++ attr ++ py "' 風格特徵: " ++ suggestion detail)) ->
  let suggestions := sugg in
  let suggestions :=
    if Qltb s 0.5 then
      let '(avg_length, ideal_length) :=
        match sd with
        | SentenceReport a i _ _ _ => (a, i)
        | SentenceStatus _ => (0%Q, 15%Q)
        end in
      if Qltb ideal_length avg_length
      then suggestions ++ [py "縮短句子長度，使用更簡潔的表達"]
      else suggestions ++ [py "擴展句子長度，添加更多細節或描述"]
    else suggestions in
  let suggestions :=
    if Qltb st 0.5 then
      match std with
      | StyleReport attributes _ =>
          suggestions
          ++ map (fun '(attr, detail) =>
                    py "增強 '" ++ attr ++ py "' 風格特徵: "
                    ++ suggestion detail)
               (List.filter (fun '(_, detail) => Qltb (score detail) 0.4)
                  attributes)
      | StyleStatus _ => suggestions
      end
    else suggestions in
  Forall P suggestions.
Proof.
  intros Hsugg Hshort Hlong Hstyle. cbv zeta.
  generalize dependent (py "縮短句子長度，使用更簡潔的表達").
  generalize dependent (py "擴展句子長度，添加更多細節或描述").
  intros long Hlong short Hshort.
  assert (forall l x, Forall P l -> P x -> Forall P (l ++ [x])) as Hsnoc.
  { intros l x Hl Hx. apply Forall_app. split; [done|]. by constructor. }
  assert (Forall P
            (if Qltb s 0.5 then
               let '(avg_length, ideal_length) :=
                 match sd with
                 | SentenceReport a i _ _ _ => (a, i)
                 | SentenceStatus _ => (0%Q, 15%Q)
                 end in
               if Qltb ideal_length avg_length
               then sugg ++ [short] else sugg ++ [long]
             else sugg)) as H1.
  { destruct (Qltb s 0.5); [|done].
    destruct sd as [?|a i ? ? ?]; destruct (Qltb _ _); by apply Hsnoc. }
  revert H1.
  generalize (if Qltb s 0.5 then
               let '(avg_length, ideal_length) :=
                 match sd with
                 | SentenceReport a i _ _ _ => (a, i)
                 | SentenceStatus _ => (0%Q, 15%Q)
                 end in
               if Qltb ideal_length avg_length
               then sugg ++ [short] else sugg ++ [long]
             else sugg) as l1.
  intros l1 H1.
  destruct (Qltb st 0.5); [|done]. destruct std as [?|attributes ?]; [done|].
  apply Forall_app. split; [done|].
  apply Forall_forall. intros x Hx. apply list_elem_of_In in Hx.
  apply in_map_iff in Hx as ([attr detail] & <- & _). apply Hstyle.
Qed.

(** X16. The overall suggestion of a check with a brand model: the
    advice to write the text anew is among the suggestions exactly when
    the consistency score is below 0.4, and the advice to revise it
    exactly when the score is at least 0.4 and below 0.7. *)
Theorem overall_suggestion (self : t) (content : str) (r : result) :
  is_Some (brand_model self) ->
  check_consistency self content = Ok r ->
  (py "內容與品牌風格差異較大，建議重新創作" ∈ suggestions r
   <-> (consistency_score r < 0.4)%Q)
  /\ (py "內容部分符合品牌風格，需要修改調整" ∈ suggestions r
      <-> (0.4 <= consistency_score r)%Q /\ (consistency_score r < 0.7)%Q).
Proof.
  intros [bm Hbm]. unfold check_consistency. rewrite Hbm.
  destruct (_check_keywords self content) as [[k kd]|e]; [|done].
  destruct (_check_sentence_length self content) as [[s sd]|e]; [|done].
  destruct (_check_style_attributes self content) as [[st std]|e]; [|done].
  cbn [mbind res_bind].
  destruct (match language_model self with
            | Some lm => score_text lm content
            | None => Ok 0.0%Q
            end) as [ms|e]; [|done].
  cbn [mbind res_bind].
  destruct (weights _) as [[[wk ws] wst] wm].
  set (total := (k * wk + s * ws + st * wst + ms * wm)%Q).
  set (P := fun x : str => startswith x (py "內容") = false).
  assert (Forall P
            (if Qltb k 0.5 && truthy_list (BrandModel.keywords bm)
             then match kd with
                  | KeywordReport _ (m :: ms0) _ =>
                      [] ++ [keyword_suggestion (m :: ms0)]
                  | _ => []
                  end
             else [])) as Hkey.
  { destruct (_ && _); [|constructor].
    destruct kd as [?|? [|m ms0] ?]; try constructor; [reflexivity|constructor]. }
  pose proof (suggestions_before_overall P _ s st sd std Hkey
                ltac:(reflexivity) ltac:(reflexivity)
                ltac:(intros; reflexivity)) as Hpre.
  cbv zeta in Hpre. revert Hpre.
  match goal with
  | |- Forall P ?l -> _ => generalize l
  end.
  intros pre Hpre [= <-]. cbn [suggestions consistency_score].
  assert (py "內容與品牌風格差異較大，建議重新創作" ∉ pre) as Hn1.
  { intros Hin. rewrite Forall_forall in Hpre. by specialize (Hpre _ Hin). }
  assert (py "內容部分符合品牌風格，需要修改調整" ∉ pre) as Hn2.
  { intros Hin. rewrite Forall_forall in Hpre. by specialize (Hpre _ Hin). }
  assert (py "內容與品牌風格差異較大，建議重新創作"
          <> py "內容部分符合品牌風格，需要修改調整") as Hne
    by (by vm_compute).
  revert Hn1 Hn2 Hne.
  generalize (py "內容與品牌風格差異較大，建議重新創作").
  generalize (py "內容部分符合品牌風格，需要修改調整").
  intros revise recreate Hn1 Hn2 Hne.
  destruct (Qltb total 0.4) eqn:E4.
  - apply Qltb_lt in E4 as Hlt. split.
    + split; [done|]. intros _. apply elem_of_app. right.
      apply list_elem_of_here.
    + split.
      * intros [Hin|Hin%list_elem_of_singleton]%elem_of_app; [done|].
        by subst.
      * intros [Hge _]. apply Qle_not_lt in Hge. done.
  - assert (0.4 <= total)%Q as Hge.
    { apply Qnot_lt_le. intros Hlt%Qltb_lt. congruence. }
    destruct (Qltb total 0.7) eqn:E7.
    + apply Qltb_lt in E7. split.
      * split.
        -- intros [Hin|Hin%list_elem_of_singleton]%elem_of_app; [done|].
           by subst.
        -- intros Hlt. apply Qle_not_lt in Hge. done.
      * split; [done|]. intros _. apply elem_of_app. right.
        apply list_elem_of_here.
    + assert (~ (total < 0.7)%Q) as Hn7.
      { intros Hlt%Qltb_lt. congruence. }
      split.
      * split; [done|]. intros Hlt. apply Qle_not_lt in Hge. done.
      * split; [done|]. intros [_ Hlt]. done.
Qed.

End scorer_more.

(** ** What an adaptation leaves alone *)

Section identity.
Context `{Unicode} `{Patterns}.

Lemma same_identity_refl (c : ContentItem.t) : same_identity c c.
Proof. by repeat split. Qed.

Ltac solve_identity :=
  repeat match goal with
         | |- context [let '(a, b) := ?p in _] => destruct p
         end;
  intros [= <-]; repeat split.

Lemma facebook_keeps_identity item r :
  FacebookAdapter.adapt_content item = Ok r ->
  same_identity (AdaptationResult.content r) item
  /\ ContentItem.content_type (AdaptationResult.content r)
     = ContentItem.content_type item.
Proof.
  unfold FacebookAdapter.adapt_content.
  destruct (ContentItem.content_type item) eqn:Ect;
    [unfold FacebookAdapter.adapt_text_content;
     destruct (ContentItem.text_content item)
    |unfold FacebookAdapter.adapt_image_content;
     destruct (ContentItem.image_content item)
    |unfold FacebookAdapter.adapt_video_content;
     destruct (ContentItem.video_content item)
    | | | ]; solve_identity; done.
Qed.

Lemma linkedin_keeps_identity item r :
  LinkedInAdapter.adapt_content item = Ok r ->
  same_identity (AdaptationResult.content r) item
  /\ ContentItem.content_type (AdaptationResult.content r)
     = ContentItem.content_type item.
Proof.
  unfold LinkedInAdapter.adapt_content.
  destruct (ContentItem.content_type item) eqn:Ect;
    [unfold LinkedInAdapter.adapt_text_content;
     destruct (ContentItem.text_content item)
    |unfold LinkedInAdapter.adapt_image_content;
     destruct (ContentItem.image_content item)
    |unfold LinkedInAdapter.adapt_video_content;
     destruct (ContentItem.video_content item)
    | | | ]; solve_identity; done.
Qed.

Lemma instagram_keeps_identity item r :
  InstagramAdapter.adapt_content item = Ok r ->
  same_identity (AdaptationResult.content r) item.
Proof.
  unfold InstagramAdapter.adapt_content.
  destruct (ContentItem.content_type item) eqn:Ect.
  - unfold InstagramAdapter.adapt_to_caption.
    destruct (ContentItem.text_content item); [|solve_identity].
    destruct (InstagramAdapter._adapt_hashtags _ _).
    cbn [ContentItem.image_content ContentItem.set_content_type].
    destruct (ContentItem.image_content item); solve_identity.
  - unfold InstagramAdapter.adapt_image_content.
    destruct (ContentItem.image_content item); solve_identity.
  - unfold InstagramAdapter.adapt_video_content.
    destruct (ContentItem.video_content item) as [vc|]; [|solve_identity].
    destruct (InstagramAdapter._adapt_hashtags _ _).
    destruct (VideoContent.duration_seconds vc); [|done].
    cbn [InstagramAdapter.gt_optional mbind res_bind]. solve_identity.
  - solve_identity.
  - solve_identity.
  - solve_identity.
Qed.

Lemma youtube_keeps_identity item r :
  YouTubeAdapter.adapt_content item = Ok r ->
  same_identity (AdaptationResult.content r) item.
Proof.
  unfold YouTubeAdapter.adapt_content.
  destruct (ContentItem.content_type item) eqn:Ect.
  - unfold YouTubeAdapter.adapt_to_description.
    destruct (ContentItem.text_content item); [|solve_identity].
    cbn [ContentItem.video_content ContentItem.set_content_type].
    destruct (ContentItem.video_content item); solve_identity.
  - unfold YouTubeAdapter.adapt_to_thumbnail.
    destruct (ContentItem.image_content item) as [ic|]; [|solve_identity].
    destruct (ImageContent.image_url ic) as [[|c u]|];
      [solve_identity| |solve_identity].
    destruct (YouTubeAdapter._check_thumbnail_format (c :: u)) as [[|] m];
      [done|solve_identity].
  - unfold YouTubeAdapter.adapt_video_content.
    destruct (ContentItem.video_content item); solve_identity.
  - solve_identity.
  - solve_identity.
  - solve_identity.
Qed.

(** X17. Whenever one of the four adapters answers an item with a
    result, the content of the result has the identifier, the brand, the
    platform, the two time stamps and the raw request of the item:
    [updated_at] is not renewed. On Facebook and LinkedIn the content
    type is kept too. *)
Theorem adaptation_keeps_identity (item : ContentItem.t)
    (r : AdaptationResult.t) :
  (FacebookAdapter.adapt_content item = Ok r
   \/ LinkedInAdapter.adapt_content item = Ok r ->
   same_identity (AdaptationResult.content r) item
   /\ ContentItem.content_type (AdaptationResult.content r)
      = ContentItem.content_type item)
  /\ (InstagramAdapter.adapt_content item = Ok r
      \/ YouTubeAdapter.adapt_content item = Ok r ->
      same_identity (AdaptationResult.content r) item).
Proof.
  split.
  - intros [Hr|Hr];
      [by apply facebook_keeps_identity|by apply linkedin_keeps_identity].
  - intros [Hr|Hr];
      [by apply instagram_keeps_identity|by apply youtube_keeps_identity].
Qed.

End identity.

(** ** Instances of the properties above *)

Lemma instagram_adapt_content_outcome_witness :
  let tc :=
    {| TextContent.text := py "Spring sale"; TextContent.hashtags := None;
       TextContent.mentions := None |} in
  let vc :=
    {| VideoContent.title := py "Launch"; VideoContent.script := py "Intro";
       VideoContent.description := None;
       VideoContent.thumbnail_prompt := None;
       VideoContent.duration_seconds := None;
       VideoContent.video_url := None |} in
  let item ct t v :=
    {| ContentItem.id := py "c1"; ContentItem.brand_id := py "b1";
       ContentItem.platform := INSTAGRAM; ContentItem.content_type := ct;
       ContentItem.created_at := 0; ContentItem.updated_at := 0;
       ContentItem.text_content := t; ContentItem.image_content := None;
       ContentItem.video_content := v; ContentItem.raw_request := None |} in
  @InstagramAdapter.adapt_content ascii_unicode (item VIDEO None (Some vc))
    = Raise TypeError
  /\ exists r,
       @InstagramAdapter.adapt_content ascii_unicode (item TEXT (Some tc) None)
         = Ok r
       /\ is_success r.
Proof.
  intros tc vc item. split.
  - apply (@instagram_adapt_content_outcome ascii_unicode
             (item VIDEO None (Some vc))).
    split; [reflexivity|]. exists vc. split; reflexivity.
  - destruct (@instagram_adapt_content_outcome ascii_unicode
                (item TEXT (Some tc) None)) as [_ Hok].
    destruct Hok as (r & Hr & Hs).
    + intros [Hct _]. discriminate Hct.
    + exists r. split; [exact Hr|exact Hs].
Defined.

Lemma youtube_thumbnail_outcome_witness :
  let ic url :=
    {| ImageContent.prompt := py "a product photo";
       ImageContent.image_url := url;
       ImageContent.alt_text := None; ImageContent.caption := None |} in
  let item url :=
    {| ContentItem.id := py "c2"; ContentItem.brand_id := py "b1";
       ContentItem.platform := YOUTUBE; ContentItem.content_type := IMAGE;
       ContentItem.created_at := 0; ContentItem.updated_at := 0;
       ContentItem.text_content := None;
       ContentItem.image_content := Some (ic url);
       ContentItem.video_content := None;
       ContentItem.raw_request := None |} in
  @YouTubeAdapter.adapt_to_thumbnail ascii_unicode
    (item (Some (py "https://example.com/p.png"))) = Raise ValueError
  /\ exists r,
       @YouTubeAdapter.adapt_to_thumbnail ascii_unicode (item None) = Ok r
       /\ ContentItem.content_type (AdaptationResult.content r) = VIDEO.
Proof.
  intros ic item. split.
  - apply (@youtube_thumbnail_outcome ascii_unicode
             (item (Some (py "https://example.com/p.png")))
             (ic (Some (py "https://example.com/p.png"))));
      [reflexivity|]. vm_compute. reflexivity.
  - destruct (@youtube_thumbnail_outcome ascii_unicode (item None) (ic None))
      as [_ Hok]; [reflexivity|].
    destruct Hok as (r & vc & p & Hr & _ & Hct & _); [reflexivity|].
    exists r. split; [exact Hr|exact Hct].
Defined.

Lemma adapt_hashtags_tags_witness :
  py "offer"
    ∈ (@FacebookAdapter._adapt_hashtags ascii_unicode (py "Big #sale today")
         (Some [py "offer"])).2.
Proof.
  pose proof (@adapt_hashtags_tags ascii_unicode (py "Big #sale today")
                (Some [py "offer"])) as Hall.
  apply Forall_cons in Hall as [(_ & _ & _ & Hfit) _].
  apply Hfit.
  - vm_compute. discriminate.
  - right. apply list_elem_of_here.
Defined.

Lemma truncate_text_long_token_witness :
  FacebookAdapter._truncate_text (py "abcdefghij") 4
  = slice_to (py "abcdefghij") 4 ++ FacebookAdapter.marker.
Proof.
  apply (truncate_text_long_token (py "abcdefghij") 4).
  - lia.
  - vm_compute. reflexivity.
  - apply Forall_forall. vm_compute. repeat constructor.
Defined.

Lemma image_formats_nested_witness :
  (@FacebookAdapter._check_image_format ascii_unicode
     (py "https://example.com/P.JPG")).1 = true
  /\ py "https://example.com/P.JPG" <> [].
Proof.
  destruct (@image_formats_nested ascii_unicode
              (py "https://example.com/P.JPG")) as (Hif & _ & Hfy & Hy).
  assert ((@FacebookAdapter._check_image_format ascii_unicode
             (py "https://example.com/P.JPG")).1 = true) as Hf.
  { apply Hif. vm_compute. reflexivity. }
  split; [exact Hf|]. apply Hy, Hfy, Hf.
Defined.

Lemma construct_succeeds_iff_witness :
  let kw :=
    {| ContentItemModel.id := ContentItemModel.Given (py "c1");
       ContentItemModel.brand_id := ContentItemModel.Given (py "b1");
       ContentItemModel.platform := ContentItemModel.Given FACEBOOK;
       ContentItemModel.content_type := ContentItemModel.Given TEXT;
       ContentItemModel.created_at := ContentItemModel.Missing;
       ContentItemModel.updated_at := ContentItemModel.Missing;
       ContentItemModel.text_content := ContentItemModel.Missing;
       ContentItemModel.image_content := ContentItemModel.Missing;
       ContentItemModel.video_content :=
         ContentItemModel.Given
           (Some {| VideoContent.title := py "Launch";
                    VideoContent.script := py "Intro";
                    VideoContent.description := None;
                    VideoContent.thumbnail_prompt := None;
                    VideoContent.duration_seconds := None;
                    VideoContent.video_url := None |});
       ContentItemModel.raw_request := ContentItemModel.Missing |} in
  exists item,
    ContentItemModel.construct 0 kw = Ok item
    /\ ContentItem.text_content item = None
    /\ ContentItem.content_type item = TEXT.
Proof.
  intros kw.
  destruct (construct_succeeds_iff 0 kw) as [[_ Hex] Hitem].
  destruct Hex as [item Hitem'].
  - repeat split; try discriminate. exists TEXT. split; reflexivity.
  - exists item. destruct (Hitem item Hitem') as ([= Hct] & Ht & _).
    repeat split; [exact Hitem'|exact Ht|by symmetry].
Defined.

Lemma generic_adapt_outcome_witness :
  exists adapted,
    @PlatformAdapter._generic_adapt
      {[ py "title" := PlatformAdapter.VStr (py "Hi") ]} (py "tiktok")
    = Ok adapted
    /\ adapted !! py "title" = Some (PlatformAdapter.VStr (py "Hi")).
Proof.
  pose proof (generic_adapt_outcome
                {[ py "title" := PlatformAdapter.VStr (py "Hi") ]}
                (py "tiktok")) as Hout.
  cbv zeta in Hout.
  rewrite lookup_singleton_ne in Hout by (vm_compute; discriminate).
  destruct Hout as (adapted & Ha & _ & _ & Hk).
  exists adapted. split; [exact Ha|].
  rewrite Hk; [apply lookup_singleton_eq| |]; vm_compute; discriminate.
Defined.

Lemma generated_title_fits_witness :
  YouTubeAdapter._adapt_title
    (YouTubeAdapter._generate_title_from_text (py "hello world. And more"))
  = YouTubeAdapter._generate_title_from_text (py "hello world. And more").
Proof.
  apply (generated_title_fits (py "hello world. And more")).
  vm_compute. discriminate.
Defined.

Lemma facebook_hashtag_reflow_witness :
  @re.findall_hashtag ascii_unicode
    (@FacebookAdapter._adapt_hashtags ascii_unicode
       (py "Go #a #b #c #d #e #f now") None).1
  = (@FacebookAdapter._adapt_hashtags ascii_unicode
       (py "Go #a #b #c #d #e #f now") None).2.
Proof.
  apply (@facebook_hashtag_reflow ascii_unicode
           (py "Go #a #b #c #d #e #f now") None).
  vm_compute. reflexivity.
Defined.

Lemma instagram_hashtag_reflow_witness :
  @re.findall_hashtag ascii_unicode
    (@InstagramAdapter._adapt_hashtags ascii_unicode
       (py "Go #a #b #c #d now") (Some [py "sale"])).1
  = (@InstagramAdapter._adapt_hashtags ascii_unicode
       (py "Go #a #b #c #d now") (Some [py "sale"])).2.
Proof.
  apply (@instagram_hashtag_reflow ascii_unicode
           (py "Go #a #b #c #d now") (Some [py "sale"])).
  - vm_compute. reflexivity.
  - constructor; [|constructor]. split; [vm_compute; discriminate|].
    vm_compute. repeat constructor.
Defined.

Lemma youtube_adapt_content_outcome_witness :
  let item ct t i :=
    {| ContentItem.id := py "c1"; ContentItem.brand_id := py "b1";
       ContentItem.platform := YOUTUBE; ContentItem.content_type := ct;
       ContentItem.created_at := 0; ContentItem.updated_at := 0;
       ContentItem.text_content := t; ContentItem.image_content := i;
       ContentItem.video_content := None; ContentItem.raw_request := None |} in
  let tc :=
    {| TextContent.text := py "How to brew coffee"; TextContent.hashtags := None;
       TextContent.mentions := None |} in
  let ic :=
    {| ImageContent.prompt := py "a product photo";
       ImageContent.image_url := Some (py "https://example.com/p.png");
       ImageContent.alt_text := None; ImageContent.caption := None |} in
  @YouTubeAdapter.adapt_content ascii_unicode ascii_patterns
    (item IMAGE None (Some ic)) = Raise ValueError
  /\ exists r,
       @YouTubeAdapter.adapt_content ascii_unicode ascii_patterns
         (item TEXT (Some tc) None) = Ok r
       /\ is_success r.
Proof.
  intros item tc ic. split.
  - apply (@youtube_adapt_content_outcome ascii_unicode ascii_patterns
             (item IMAGE None (Some ic))).
    split; [reflexivity|].
    assert (exists c u, py "https://example.com/p.png" = c :: u)
      as (c & u & Hurl) by (eexists _, _; vm_compute; reflexivity).
    exists ic, c, u. split; [reflexivity|]. split.
    + change (Some (py "https://example.com/p.png") = Some (c :: u)).
      f_equal. exact Hurl.
    + rewrite <- Hurl. vm_compute. reflexivity.
  - destruct (@youtube_adapt_content_outcome ascii_unicode ascii_patterns
                (item TEXT (Some tc) None)) as [_ Hok].
    destruct Hok as (r & Hr & Hs).
    + intros [Hct _]. discriminate Hct.
    + exists r. split; [exact Hr|exact Hs].
Defined.

Lemma check_consistency_modeler_raises_witness :
  let bm :=
    {| BrandModel.id := py "b1"; BrandModel.name := py "Verde";
       BrandModel.description := None; BrandModel.industry := None;
       BrandModel.target_audience := None;
       BrandModel.keywords := [py "eco"; py "green"];
       BrandModel.style_attributes := [] |} in
  let self :=
    {| BrandStyleKeeper.brand_model := Some bm;
       BrandStyleKeeper.language_model :=
         Some BrandStyleKeeper.modeler_BrandLanguageModel |} in
  @BrandStyleKeeper.check_consistency ascii_unicode plain_nltk self
    (py "Our eco range is here") = Raise AttributeError.
Proof.
  intros bm self.
  apply (@check_consistency_modeler_raises ascii_unicode plain_nltk self).
  - intros bm' [= <-]. constructor.
  - by eexists.
  - reflexivity.
Defined.

Lemma check_keywords_report_witness :
  let bm :=
    {| BrandModel.id := py "b1"; BrandModel.name := py "Verde";
       BrandModel.description := None; BrandModel.industry := None;
       BrandModel.target_audience := None;
       BrandModel.keywords := [py "eco"; py "green"];
       BrandModel.style_attributes := [] |} in
  let self :=
    {| BrandStyleKeeper.brand_model := Some bm;
       BrandStyleKeeper.language_model := None |} in
  exists (score : Q) (found missing : list str) (coverage : str),
    @BrandStyleKeeper._check_keywords ascii_unicode self
      (py "Our ECO range is here")
    = Ok (score, BrandStyleKeeper.KeywordReport found missing coverage)
    /\ llen found + llen missing = 2.
Proof.
  intros bm self.
  destruct (@check_keywords_report ascii_unicode self
              (py "Our ECO range is here") bm)
    as (score & found & missing & coverage & Hk & _ & Hlen & _);
    [reflexivity|discriminate|].
  exists score, found, missing, coverage. split; [exact Hk|exact Hlen].
Defined.

Lemma overall_suggestion_witness :
  let bm :=
    {| BrandModel.id := py "b1"; BrandModel.name := py "Verde";
       BrandModel.description := None; BrandModel.industry := None;
       BrandModel.target_audience := None;
       BrandModel.keywords := [py "eco"; py "green"];
       BrandModel.style_attributes := [] |} in
  let self :=
    {| BrandStyleKeeper.brand_model := Some bm;
       BrandStyleKeeper.language_model := None |} in
  exists r,
    @BrandStyleKeeper.check_consistency ascii_unicode plain_nltk self
      (py "Our eco range is here") = Ok r
    /\ (py "內容部分符合品牌風格，需要修改調整" ∈ BrandStyleKeeper.suggestions r
        <-> (0.4 <= BrandStyleKeeper.consistency_score r)%Q
            /\ (BrandStyleKeeper.consistency_score r < 0.7)%Q).
Proof.
  intros bm self.
  assert (exists r,
            @BrandStyleKeeper.check_consistency ascii_unicode plain_nltk self
              (py "Our eco range is here") = Ok r) as [r Hr]
    by (eexists; vm_compute; reflexivity).
  exists r. split; [exact Hr|].
  apply (@overall_suggestion ascii_unicode plain_nltk self
           (py "Our eco range is here") r); [by eexists|exact Hr].
Defined.

Lemma adaptation_keeps_identity_witness :
  let item :=
    {| ContentItem.id := py "c1"; ContentItem.brand_id := py "b1";
       ContentItem.platform := FACEBOOK; ContentItem.content_type := TEXT;
       ContentItem.created_at := 5; ContentItem.updated_at := 7;
       ContentItem.text_content :=
         Some {| TextContent.text := py "Spring sale #deal";
                 TextContent.hashtags := None;
                 TextContent.mentions := None |};
       ContentItem.image_content := None;
       ContentItem.video_content := None;
       ContentItem.raw_request := None |} in
  exists r,
    @FacebookAdapter.adapt_content ascii_unicode item = Ok r
    /\ same_identity (AdaptationResult.content r) item.
Proof.
  intros item.
  assert (exists r, @FacebookAdapter.adapt_content ascii_unicode item = Ok r)
    as [r Hr] by (eexists; vm_compute; reflexivity).
  exists r. split; [exact Hr|].
  destruct (@adaptation_keeps_identity ascii_unicode ascii_patterns item r)
    as [Hkeep _].
  apply Hkeep. left. exact Hr.
Defined.
